(** * Session core of the trading client (gui.py)

    A shallow embedding of the session-orchestration code of
    [TradingPage] and [MainApplication._process_ui_queue]: the readiness
    gate, the begin/stop commands, the scalping loop with its batch
    accounting, and the trade-execution handler.

    Python [float]s are IEEE-754 binary64 numbers and are modelled by
    Rocq's primitive floats; Python [int]s are unbounded and are modelled
    by [Z]; [None]-able values are [option]s.  The broker ([Trader]) and
    the strategies live in other modules of the repository: they are taken
    as parameters (type classes over an abstract world state). *)

From Stdlib Require Import ZArith Ascii String List Lia Bool PrimFloat.
From stdpp Require Import gmap strings list fin_maps pretty.
Import ListNotations.

Open Scope string_scope.
Open Scope Z_scope.
Open Scope list_scope.

(** ** Data model *)

(** What a Python call can do: return a value, or raise an [Exception]
    carrying a message. *)
Inductive Outcome (A : Type) : Type :=
| Returned (a : A)
| Raised (e : string).
Arguments Returned {A} a.
Arguments Raised {A} e.

(** The [state] option of the two ttk buttons. *)
Inductive ButtonState : Type := normal | disabled.

(** The foreground colour of the readiness label. *)
Inductive Colour : Type := theme_default | gray | green | orange.

(** The strategy classes imported from [strategies]. *)
Inductive StrategyClass : Type :=
| SafeStrategy | ModerateStrategy | AggressiveStrategy
| MomentumStrategy | MeanReversionStrategy.

(** The [strategy_map] dictionary literal of [start_scalping] and of
    [_update_data_readiness_display], with [dict.get]. *)
Definition strategy_map (strategy_name : string) : option StrategyClass :=
  if String.eqb strategy_name "Safe" then Some SafeStrategy
  else if String.eqb strategy_name "Moderate" then Some ModerateStrategy
  else if String.eqb strategy_name "Aggressive" then Some AggressiveStrategy
  else if String.eqb strategy_name "Momentum" then Some MomentumStrategy
  else if String.eqb strategy_name "Mean Reversion" then Some MeanReversionStrategy
  else None.

(** The dictionary a strategy's [decide] returns.  A missing key reads as
    [None] through [dict.get]; ['comment'] is read with a default, so its
    entry tells a missing key ([None]) from a key that is there, holding
    a string or Python's [None] ([Some (Some _)] or [Some None]). *)
Record ActionDetails : Type := {
  action : option string;
  sl_offset : option float;
  tp_offset : option float;
  comment : option (option string)
}.

(** The argument tuple of an ["_execute_trade"] queue message, in the
    order of the parameters of [TradingPage._execute_trade].  The comment
    is what [action_details.get('comment', '')] gave, which is [None] when
    the strategy stored [None] under that key. *)
Record TradeIntent : Type := {
  side : string;
  symbol : string;
  price : option float;
  size : float;
  tp_pips_gui : float;
  sl_pips_gui : float;
  sl_offset_strategy : option float;
  tp_offset_strategy : option float;
  strategy_comment : option string
}.

(** Log lines, kept as the format string's name and its arguments.  The
    rendered text is, in order:
    "[DataReadiness] Checking for {symbol}. Required: {..}. Available: {..}",
    "Strategy created: {NAME}",
    "Error closing positions: {e}",
    "Batch profit target reached. Closing positions.",
    "Strategy signal: {ACTION} for {symbol}.",
    "Trade execution skipped: Market price is unavailable.",
    "Attempting to place market order: {SIDE} {size} lots of {symbol}",
    "Order request successful: {message}",
    "Order request failed: {message}". *)
Inductive LogMsg : Type :=
| LogDataReadiness (sym : string) (required : list (string * Z)) (available : gmap string Z)
| LogStrategyCreated (name : string)
| LogErrorClosing (e : string)
| LogBatchTarget
| LogSignal (trade_action sym : string)
| LogSkipped
| LogAttempt (sd : string) (sz : float) (sym : string)
| LogOrderOk (message : string)
| LogOrderFailed (message : string).

(** The messages the session code puts on [controller._ui_queue]. *)
Inductive UiMsg : Type :=
| MsgLog (m : LogMsg)
| MsgExecuteTrade (t : TradeIntent).

(** The Tk variables of the trading form, read by the commands.  The four
    numeric entries are held as the numbers they show: an entry whose text
    is not a number, on which [DoubleVar.get] raises, is not represented. *)
Record Form : Type := {
  strategy_var : string;
  symbol_var : string;
  tp_var : float;
  sl_var : float;
  size_var : float;
  batch_profit_var : float
}.

(** The attributes of [TradingPage] that the session code reads or writes. *)
Record TradingPage : Type := {
  form : Form;
  is_scalping : bool;
  start_button : ButtonState;
  stop_button : ButtonState;
  total_trades : Z;
  current_batch_trades : Z;
  batch_start_equity : float;
  batch_size : Z;
  trades_var : string;
  output : list LogMsg;
  data_readiness_var : string;
  data_readiness_label : Colour
}.

(** ** Readiness gate (lines 481-499 of [_update_data_readiness_display]) *)

(** [available_bars_map.get(tf, 0)] *)
Definition available_count (available_bars_map : gmap string Z) (tf : string) : Z :=
  default 0 (available_bars_map !! tf).

(** f"{tf}: {available_count}/{required_count}" *)
Definition status_message (tf : string) (available required_count : Z) : string :=
  tf +:+ ": " +:+ pretty available +:+ "/" +:+ pretty required_count.

Record Readiness : Type := {
  all_ready : bool;
  status_messages : list string
}.

(** One turn of the [for tf, required_count in required_bars_map.items()]
    loop. *)
Definition readiness_step (available_bars_map : gmap string Z)
    (acc : Readiness) (item : string * Z) : Readiness :=
  let available := available_count available_bars_map item.1 in
  {| all_ready := if (available <? item.2)%Z then false else all_ready acc;
     status_messages :=
       status_messages acc ++ [status_message item.1 available item.2] |}.

(** The requirement dictionary is given by its items in iteration order. *)
Definition readiness_gate (required_bars_map : list (string * Z))
    (available_bars_map : gmap string Z) : Readiness :=
  let start := {| all_ready := true; status_messages := [] |} in
  match required_bars_map with
  | [] => {| all_ready := true;
             status_messages := ["No specific bar data required."] |}
  | _ => fold_left (readiness_step available_bars_map) required_bars_map start
  end.

Definition final_status_text (r : Readiness) : string :=
  String.concat ", " (status_messages r)
    +:+ (if all_ready r then " (Ready)" else " (Waiting...)").

(** ** Collaborators *)

(** The calls the session code makes on [self.trader] and on the strategy
    object, with their arguments. *)
Inductive TraderCall : Type :=
| CallGetAccountSummary
| CallCloseAllPositions
| CallGetMarketPrice (sym : string)
| CallGetOhlcBarCounts (sym : string)
| CallPlaceMarketOrder (symbol_name : string) (volume_lots : float)
    (sd : string) (take_profit_pips stop_loss_pips : float)
| CallDecide (cls : StrategyClass) (sym : string) (current_price_tick : float).

Inductive MessageboxKind : Type := showerror | showinfo.

(** What an operation does besides changing the state, in program order. *)
Inductive Event : Type :=
| EvCall (c : TraderCall)
| EvPut (m : UiMsg)
| EvSleep
| EvMessagebox (kind : MessageboxKind) (title : string)
| EvThreadStart.

(** The broker object.  [W] is the state of everything outside the page:
    the broker connection, the account, the bar history, the strategy
    objects.  Every call may change it and may raise.
    [get_account_summary] is reduced to the ["equity"] entry of the
    dictionary it returns: [None] when the key is missing or holds [None]. *)
Class Trader (W : Type) : Type := {
  is_connected : W -> bool;
  get_account_summary : W -> Outcome (option float) * W;
  close_all_positions : W -> Outcome unit * W;
  get_market_price : string -> W -> Outcome (option float) * W;
  get_ohlc_bar_counts : string -> W -> Outcome (gmap string Z) * W;
  place_market_order :
    string -> float -> string -> float -> float -> W -> Outcome (bool * string) * W
}.

(** The strategy classes.  [decide] reads the bar history, the equity and
    the trader from the world; it answers [None] for anything that is
    falsy or not a dictionary. *)
Class Strategies (W : Type) : Type := {
  NAME : StrategyClass -> string;
  get_required_bars : StrategyClass -> list (string * Z);
  decide : StrategyClass -> string -> float -> W -> Outcome (option ActionDetails) * W
}.

(** ** Threads and the system state *)

(** Where a [_scalp_loop] thread stands: about to test [while
    self.is_scalping], inside an iteration, or returned (or died). *)
Inductive Pc : Type := AtLoopHead | InBody | Finished.

(** A scalping thread with the [args] it was started with. *)
Record Worker : Type := {
  pc : Pc;
  w_symbol : string;
  w_tp : float;
  w_sl : float;
  w_size : float;
  w_strategy : StrategyClass;
  w_batch_target : float
}.

Definition set_pc (v : Pc) (t : Worker) : Worker :=
  {| pc := v; w_symbol := w_symbol t; w_tp := w_tp t; w_sl := w_sl t;
     w_size := w_size t; w_strategy := w_strategy t;
     w_batch_target := w_batch_target t |}.

Record Sys (W : Type) : Type := {
  page : TradingPage;
  world : W;
  ui_queue : list UiMsg;
  threads : list Worker
}.
Arguments page {W} s.
Arguments world {W} s.
Arguments ui_queue {W} s.
Arguments threads {W} s.

(** ** Attribute assignments on the page *)

Definition set_form (v : Form) (p : TradingPage) : TradingPage :=
  {| form := v; is_scalping := is_scalping p;
     start_button := start_button p; stop_button := stop_button p;
     total_trades := total_trades p; current_batch_trades := current_batch_trades p;
     batch_start_equity := batch_start_equity p; batch_size := batch_size p;
     trades_var := trades_var p; output := output p;
     data_readiness_var := data_readiness_var p;
     data_readiness_label := data_readiness_label p |}.

Definition set_is_scalping (v : bool) (p : TradingPage) : TradingPage :=
  {| form := form p; is_scalping := v;
     start_button := start_button p; stop_button := stop_button p;
     total_trades := total_trades p; current_batch_trades := current_batch_trades p;
     batch_start_equity := batch_start_equity p; batch_size := batch_size p;
     trades_var := trades_var p; output := output p;
     data_readiness_var := data_readiness_var p;
     data_readiness_label := data_readiness_label p |}.

Definition set_start_button (v : ButtonState) (p : TradingPage) : TradingPage :=
  {| form := form p; is_scalping := is_scalping p;
     start_button := v; stop_button := stop_button p;
     total_trades := total_trades p; current_batch_trades := current_batch_trades p;
     batch_start_equity := batch_start_equity p; batch_size := batch_size p;
     trades_var := trades_var p; output := output p;
     data_readiness_var := data_readiness_var p;
     data_readiness_label := data_readiness_label p |}.

Definition set_stop_button (v : ButtonState) (p : TradingPage) : TradingPage :=
  {| form := form p; is_scalping := is_scalping p;
     start_button := start_button p; stop_button := v;
     total_trades := total_trades p; current_batch_trades := current_batch_trades p;
     batch_start_equity := batch_start_equity p; batch_size := batch_size p;
     trades_var := trades_var p; output := output p;
     data_readiness_var := data_readiness_var p;
     data_readiness_label := data_readiness_label p |}.

Definition set_total_trades (v : Z) (p : TradingPage) : TradingPage :=
  {| form := form p; is_scalping := is_scalping p;
     start_button := start_button p; stop_button := stop_button p;
     total_trades := v; current_batch_trades := current_batch_trades p;
     batch_start_equity := batch_start_equity p; batch_size := batch_size p;
     trades_var := trades_var p; output := output p;
     data_readiness_var := data_readiness_var p;
     data_readiness_label := data_readiness_label p |}.

Definition set_current_batch_trades (v : Z) (p : TradingPage) : TradingPage :=
  {| form := form p; is_scalping := is_scalping p;
     start_button := start_button p; stop_button := stop_button p;
     total_trades := total_trades p; current_batch_trades := v;
     batch_start_equity := batch_start_equity p; batch_size := batch_size p;
     trades_var := trades_var p; output := output p;
     data_readiness_var := data_readiness_var p;
     data_readiness_label := data_readiness_label p |}.

Definition set_batch_start_equity (v : float) (p : TradingPage) : TradingPage :=
  {| form := form p; is_scalping := is_scalping p;
     start_button := start_button p; stop_button := stop_button p;
     total_trades := total_trades p; current_batch_trades := current_batch_trades p;
     batch_start_equity := v; batch_size := batch_size p;
     trades_var := trades_var p; output := output p;
     data_readiness_var := data_readiness_var p;
     data_readiness_label := data_readiness_label p |}.

Definition set_trades_var (v : string) (p : TradingPage) : TradingPage :=
  {| form := form p; is_scalping := is_scalping p;
     start_button := start_button p; stop_button := stop_button p;
     total_trades := total_trades p; current_batch_trades := current_batch_trades p;
     batch_start_equity := batch_start_equity p; batch_size := batch_size p;
     trades_var := v; output := output p;
     data_readiness_var := data_readiness_var p;
     data_readiness_label := data_readiness_label p |}.

Definition set_output (v : list LogMsg) (p : TradingPage) : TradingPage :=
  {| form := form p; is_scalping := is_scalping p;
     start_button := start_button p; stop_button := stop_button p;
     total_trades := total_trades p; current_batch_trades := current_batch_trades p;
     batch_start_equity := batch_start_equity p; batch_size := batch_size p;
     trades_var := trades_var p; output := v;
     data_readiness_var := data_readiness_var p;
     data_readiness_label := data_readiness_label p |}.

Definition set_data_readiness_var (v : string) (p : TradingPage) : TradingPage :=
  {| form := form p; is_scalping := is_scalping p;
     start_button := start_button p; stop_button := stop_button p;
     total_trades := total_trades p; current_batch_trades := current_batch_trades p;
     batch_start_equity := batch_start_equity p; batch_size := batch_size p;
     trades_var := trades_var p; output := output p;
     data_readiness_var := v;
     data_readiness_label := data_readiness_label p |}.

Definition set_data_readiness_label (v : Colour) (p : TradingPage) : TradingPage :=
  {| form := form p; is_scalping := is_scalping p;
     start_button := start_button p; stop_button := stop_button p;
     total_trades := total_trades p; current_batch_trades := current_batch_trades p;
     batch_start_equity := batch_start_equity p; batch_size := batch_size p;
     trades_var := trades_var p; output := output p;
     data_readiness_var := data_readiness_var p;
     data_readiness_label := v |}.

(** The page as [TradingPage.__init__] leaves it. *)
Definition init_page (f : Form) : TradingPage :=
  {| form := f; is_scalping := false;
     start_button := normal; stop_button := disabled;
     total_trades := 0; current_batch_trades := 0;
     batch_start_equity := 0%float; batch_size := 5;
     trades_var := "0"; output := [];
     data_readiness_var := "Initializing...";
     data_readiness_label := theme_default |}.

(** The form as the constructor fills it; the batch target comes from the
    settings. *)
Definition init_form (batch_profit_target : float) : Form :=
  {| strategy_var := "Safe"; symbol_var := "Loading symbols...";
     tp_var := 10%float; sl_var := 5%float; size_var := 1%float;
     batch_profit_var := batch_profit_target |}.

(** ** Small pure helpers *)

(** [s.replace("/", "")] *)
Fixpoint remove_slashes (s : string) : string :=
  match s with
  | EmptyString => EmptyString
  | String c rest =>
      if Ascii.eqb c "/"%char then remove_slashes rest
      else String c (remove_slashes rest)
  end.

(** [summary.get("equity", 0.0) or 0.0]: a missing, [None] or zero entry
    (of either sign) reads as [0.0]; anything else, NaN included, is
    truthy and is kept. *)
Definition equity_of (entry : option float) : float :=
  match entry with
  | Some e => if PrimFloat.eqb e 0%float then 0%float else e
  | None => 0%float
  end.

(** [equity - self.batch_start_equity >= batch_target] *)
Definition target_reached (equity start batch_target : float) : bool :=
  PrimFloat.leb batch_target (PrimFloat.sub equity start).

(** [offset if offset is not None else pips_gui] *)
Definition resolve_pips (offset_strategy : option float) (pips_gui : float) : float :=
  match offset_strategy with
  | Some offset => offset
  | None => pips_gui
  end.

(** [trade_action in ("buy", "sell")] *)
Definition is_buy_or_sell (trade_action : string) : bool :=
  String.eqb trade_action "buy" || String.eqb trade_action "sell".

(** ** Operations

    The methods run in a state monad over the system state that also
    carries Python's exceptions and collects the events of the run. *)

Section Session.
Context {W : Type} `{!Trader W} `{!Strategies W}.

Definition M (A : Type) : Type := Sys W -> Outcome A * Sys W * list Event.

Definition ret {A : Type} (a : A) : M A := fun s => (Returned a, s, []).

Definition bind {A B : Type} (m : M A) (k : A -> M B) : M B := fun s =>
  match m s with
  | (Returned a, s1, ev1) =>
      match k a s1 with (r, s2, ev2) => (r, s2, ev1 ++ ev2) end
  | (Raised e, s1, ev1) => (Raised e, s1, ev1)
  end.

Notation "'let*' x ':=' c 'in' k" := (bind c (fun x => k))
  (at level 10, x name, c at level 100, k at level 200).

(** [try: m  except Exception as e: handler e] *)
Definition try_except {A : Type} (m : M A) (handler : string -> M A) : M A := fun s =>
  match m s with
  | (Returned a, s1, ev1) => (Returned a, s1, ev1)
  | (Raised e, s1, ev1) =>
      match handler e s1 with (r, s2, ev2) => (r, s2, ev1 ++ ev2) end
  end.

Definition with_page (v : TradingPage) (s : Sys W) : Sys W :=
  {| page := v; world := world s; ui_queue := ui_queue s; threads := threads s |}.

Definition with_world (v : W) (s : Sys W) : Sys W :=
  {| page := page s; world := v; ui_queue := ui_queue s; threads := threads s |}.

Definition with_ui_queue (v : list UiMsg) (s : Sys W) : Sys W :=
  {| page := page s; world := world s; ui_queue := v; threads := threads s |}.

Definition with_threads (v : list Worker) (s : Sys W) : Sys W :=
  {| page := page s; world := world s; ui_queue := ui_queue s; threads := v |}.

(** Reading [self]. *)
Definition self : M TradingPage := fun s => (Returned (page s), s, []).

(** An assignment to an attribute of [self]. *)
Definition assign (f : TradingPage -> TradingPage) : M unit := fun s =>
  (Returned tt, with_page (f (page s)) s, []).

Definition emit (e : Event) : M unit := fun s => (Returned tt, s, [e]).

(** A call on the trader or on the strategy. *)
Definition trader_call {A : Type} (c : TraderCall) (op : W -> Outcome A * W) : M A :=
  fun s => match op (world s) with (r, w) => (r, with_world w s, [EvCall c]) end.

(** [self.controller._ui_queue.put(m)] *)
Definition put (m : UiMsg) : M unit := fun s =>
  (Returned tt, with_ui_queue (ui_queue s ++ [m]) s, [EvPut m]).

(** [self.controller._ui_queue.get_nowait()], with [None] for
    [queue.Empty]. *)
Definition get_nowait : M (option UiMsg) := fun s =>
  match ui_queue s with
  | [] => (Returned None, s, [])
  | m :: rest => (Returned (Some m), with_ui_queue rest s, [])
  end.

(** [threading.Thread(target=self._scalp_loop, args=..).start()] *)
Definition thread_start (t : Worker) : M unit := fun s =>
  (Returned tt, with_threads (threads s ++ [t]) s, [EvThreadStart]).

(** [TradingPage._log]: a line appended to the output box. *)
Definition _log (msg : LogMsg) : M unit :=
  assign (fun p => set_output (output p ++ [msg]) p).

Definition _toggle_scalping_ui (on : bool) : M unit :=
  let* _ := assign (set_is_scalping on) in
  let* _ := assign (set_start_button (if on then disabled else normal)) in
  assign (set_stop_button (if on then normal else disabled)).

Definition start_scalping : M unit :=
  let* p := self in
  match strategy_map (strategy_var (form p)) with
  | None => emit (EvMessagebox showerror "Error")
  | Some strategy =>
      let* _ := _log (LogStrategyCreated (NAME strategy)) in
      let* p := self in
      let sym := remove_slashes (symbol_var (form p)) in
      let tp := tp_var (form p) in
      let sl := sl_var (form p) in
      let sz := size_var (form p) in
      let batch_target := batch_profit_var (form p) in
      let* summary := trader_call CallGetAccountSummary get_account_summary in
      let* _ := assign (set_batch_start_equity (equity_of summary)) in
      let* _ := assign (set_current_batch_trades 0) in
      let* _ := _toggle_scalping_ui true in
      let* _ := thread_start
        {| pc := AtLoopHead; w_symbol := sym; w_tp := tp; w_sl := sl;
           w_size := sz; w_strategy := strategy;
           w_batch_target := batch_target |} in
      emit (EvMessagebox showinfo "Scalping Started")
  end.

Definition stop_scalping : M unit :=
  let* p := self in
  if is_scalping p then
    let* _ := _toggle_scalping_ui false in
    try_except (trader_call CallCloseAllPositions close_all_positions)
      (fun e => _log (LogErrorClosing e))
  else ret tt.

(** Lines 589-597: the batch check at the top of an iteration. *)
Definition batch_check (batch_target : float) : M unit :=
  let* p := self in
  if (current_batch_trades p >=? batch_size p)%Z then
    let* summary := trader_call CallGetAccountSummary get_account_summary in
    let equity := equity_of summary in
    let* p := self in
    if target_reached equity (batch_start_equity p) batch_target then
      let* _ := put (MsgLog LogBatchTarget) in
      let* _ := try_except (trader_call CallCloseAllPositions close_all_positions)
                  (fun e => put (MsgLog (LogErrorClosing e))) in
      let* _ := assign (set_batch_start_equity equity) in
      assign (set_current_batch_trades 0)
    else ret tt
  else ret tt.

(** Lines 610-614: what the loop does with the strategy's answer. *)
Definition publish_signal (t : Worker) (current_tick_price : float)
    (action_details : option ActionDetails) : M unit :=
  match action_details with
  | Some d =>
      match action d with
      | Some trade_action =>
          if is_buy_or_sell trade_action then
            let* _ := put (MsgLog (LogSignal trade_action (w_symbol t))) in
            put (MsgExecuteTrade
                   {| side := trade_action; symbol := w_symbol t;
                      price := Some current_tick_price; size := w_size t;
                      tp_pips_gui := w_tp t; sl_pips_gui := w_sl t;
                      sl_offset_strategy := sl_offset d;
                      tp_offset_strategy := tp_offset d;
                      strategy_comment := default (Some "") (comment d) |})
          else ret tt
      | None => ret tt
      end
  | None => ret tt
  end.

(** Lines 599-615: the price fetch, the strategy's decision and the
    publication of the trade request. *)
Definition evaluate_tick (t : Worker) : M unit :=
  let* current_tick_price :=
    trader_call (CallGetMarketPrice (w_symbol t)) (get_market_price (w_symbol t)) in
  match current_tick_price with
  | None => emit EvSleep
  | Some tick =>
      let* action_details :=
        trader_call (CallDecide (w_strategy t) (w_symbol t) tick)
          (decide (w_strategy t) (w_symbol t) tick) in
      let* _ := publish_signal t tick action_details in
      emit EvSleep
  end.

(** One iteration of the [while] loop of [_scalp_loop], lines 589-615. *)
Definition _scalp_loop_iteration (t : Worker) : M unit :=
  let* _ := batch_check (w_batch_target t) in
  evaluate_tick t.

Definition _execute_trade (t : TradeIntent) : M unit :=
  match price t with
  | None => _log LogSkipped
  | Some _ =>
      let final_tp_pips := resolve_pips (tp_offset_strategy t) (tp_pips_gui t) in
      let final_sl_pips := resolve_pips (sl_offset_strategy t) (sl_pips_gui t) in
      let* _ := _log (LogAttempt (side t) (size t) (symbol t)) in
      let* r := trader_call
        (CallPlaceMarketOrder (symbol t) (size t) (side t) final_tp_pips final_sl_pips)
        (place_market_order (symbol t) (size t) (side t) final_tp_pips final_sl_pips) in
      if r.1 then
        let* _ := _log (LogOrderOk r.2) in
        let* p := self in
        let* _ := assign (set_total_trades (total_trades p + 1)) in
        let* p := self in
        let* _ := assign (set_trades_var (pretty (total_trades p))) in
        let* p := self in
        assign (set_current_batch_trades (current_batch_trades p + 1))
      else _log (LogOrderFailed r.2)
  end.

(** The two branches of [_process_ui_queue] that serve the session. *)
Definition dispatch (m : UiMsg) : M unit :=
  match m with
  | MsgLog data => _log data
  | MsgExecuteTrade data => _execute_trade data
  end.

(** The [while True] loop of [_process_ui_queue]; it ends at
    [queue.Empty]. *)
Fixpoint process_messages (fuel : nat) : M unit :=
  match fuel with
  | O => ret tt
  | S n =>
      let* m := get_nowait in
      match m with
      | None => ret tt
      | Some m => let* _ := dispatch m in process_messages n
      end
  end.

(** No handler puts a message on the queue, so one more turn than there
    are messages reaches [queue.Empty]. *)
Definition _process_ui_queue : M unit := fun s =>
  process_messages (S (length (ui_queue s))) s.

Definition _update_data_readiness_display : M unit :=
  let* connected := (fun s => (Returned (is_connected (world s)), s, [])) in
  if negb connected then
    let* _ := assign (set_data_readiness_var "Trader disconnected") in
    let* _ := assign (set_data_readiness_label gray) in
    assign (set_start_button disabled)
  else
    let* p := self in
    match strategy_map (strategy_var (form p)) with
    | None =>
        let* _ := assign (set_data_readiness_var "Select a strategy") in
        assign (set_start_button disabled)
    | Some strategy_class =>
        let required_bars_map := get_required_bars strategy_class in
        let sym := remove_slashes (symbol_var (form p)) in
        let* available_bars_map :=
          trader_call (CallGetOhlcBarCounts sym) (get_ohlc_bar_counts sym) in
        let* _ := _log (LogDataReadiness sym required_bars_map available_bars_map) in
        let r := readiness_gate required_bars_map available_bars_map in
        let* _ :=
          (if all_ready r then
             let* _ := assign (set_data_readiness_label green) in
             let* p := self in
             assign (set_start_button (if negb (is_scalping p) then normal else disabled))
           else
             let* _ := assign (set_data_readiness_label orange) in
             assign (set_start_button disabled)) in
        assign (set_data_readiness_var (final_status_text r))
    end.

(** ** The threads together

    The GUI thread runs the commands, the queue consumer and the readiness
    refresh; each scalping thread moves between the loop head and the loop
    body.  A schedule is a list of actions, each taken as one indivisible
    move.  A scalping thread reads [is_scalping] only in its [while] test,
    so the test and the iteration that follows are two moves: a command may
    come between them, and the iteration then still runs to its end.
    [start_scalping] starts a new thread each time and never joins an old
    one, so several threads may be alive. *)

Inductive Action : Type :=
| Begin                   (* the start button: [start_scalping] *)
| Stop                    (* the stop button: [stop_scalping] *)
| ProcessQueue            (* the 100 ms timer: [_process_ui_queue] *)
| RefreshReadiness        (* the readiness timer *)
| EditForm (f : Form)     (* the user edits the form *)
| Schedule (i : nat).     (* the i-th scalping thread moves *)

(** A callback of the GUI thread: an exception it raises is reported by
    Tk and the changes made so far stay. *)
Definition callback (m : M unit) (s : Sys W) : Sys W * list Event :=
  match m s with (_, s1, ev) => (s1, ev) end.

Definition set_thread (i : nat) (t : Worker) (s : Sys W) : Sys W :=
  with_threads (<[i := t]> (threads s)) s.

(** One move of the i-th [_scalp_loop] thread: the [while self.is_scalping]
    test, or one iteration.  An exception ends the thread. *)
Definition _scalp_loop (i : nat) (s : Sys W) : Sys W * list Event :=
  match threads s !! i with
  | None => (s, [])
  | Some t =>
      match pc t with
      | AtLoopHead =>
          if is_scalping (page s) then (set_thread i (set_pc InBody t) s, [])
          else (set_thread i (set_pc Finished t) s, [])
      | InBody =>
          match _scalp_loop_iteration t s with
          | (Returned _, s1, ev) => (set_thread i (set_pc AtLoopHead t) s1, ev)
          | (Raised _, s1, ev) => (set_thread i (set_pc Finished t) s1, ev)
          end
      | Finished => (s, [])
      end
  end.

Definition step (a : Action) (s : Sys W) : Sys W * list Event :=
  match a with
  | Begin => callback start_scalping s
  | Stop => callback stop_scalping s
  | ProcessQueue => callback _process_ui_queue s
  | RefreshReadiness => callback _update_data_readiness_display s
  | EditForm f => (with_page (set_form f (page s)) s, [])
  | Schedule i => _scalp_loop i s
  end.

Fixpoint run (sched : list Action) (s : Sys W) : Sys W * list Event :=
  match sched with
  | [] => (s, [])
  | a :: rest =>
      match step a s with
      | (s1, ev1) => match run rest s1 with (s2, ev2) => (s2, ev1 ++ ev2) end
      end
  end.

(** The application right after construction. *)
Definition init_sys (w : W) (f : Form) : Sys W :=
  {| page := init_page f; world := w; ui_queue := []; threads := [] |}.

(** ** Reading the events *)

Definition is_flatten (e : Event) : bool :=
  match e with EvCall CallCloseAllPositions => true | _ => false end.

Definition is_order (e : Event) : bool :=
  match e with EvCall (CallPlaceMarketOrder _ _ _ _ _) => true | _ => false end.

Definition is_intent (e : Event) : bool :=
  match e with EvPut (MsgExecuteTrade _) => true | _ => false end.

Definition count (f : Event -> bool) (ev : list Event) : nat :=
  length (List.filter f ev).

Definition in_body (t : Worker) : bool :=
  match pc t with InBody => true | _ => false end.







End Session.

(** ** A scripted broker

    A small broker whose answers are read from a script, used to run the
    operations on concrete inputs.  Closing all positions moves the equity
    to [equity_after_close] (slippage on the closing fills). *)

Record Script : Type := {
  connected : bool;
  equity_now : option float;
  equity_after_close : option float;
  close_error : option string;
  tick_price : option float;
  bar_counts : gmap string Z;
  order_reply : bool * string;
  strategy_answer : option ActionDetails
}.

Definition script_after_close (w : Script) : Script :=
  {| connected := connected w; equity_now := equity_after_close w;
     equity_after_close := equity_after_close w; close_error := close_error w;
     tick_price := tick_price w; bar_counts := bar_counts w;
     order_reply := order_reply w; strategy_answer := strategy_answer w |}.

#[local] Instance script_trader : Trader Script := {|
  is_connected := connected;
  get_account_summary w := (Returned (equity_now w), w);
  close_all_positions w :=
    (match close_error w with Some e => Raised e | None => Returned tt end,
     script_after_close w);
  get_market_price _ w := (Returned (tick_price w), w);
  get_ohlc_bar_counts _ w := (Returned (bar_counts w), w);
  place_market_order _ _ _ _ _ w := (Returned (order_reply w), w)
|}.

#[local] Instance script_strategies : Strategies Script := {|
  NAME cls := "Strategy";
  get_required_bars cls := [("1m", 20); ("15s", 10)];
  decide _ _ _ w := (Returned (strategy_answer w), w)
|}.

Definition buy_signal : ActionDetails :=
  {| action := Some "buy"; sl_offset := Some 3%float; tp_offset := None;
     comment := None |}.

(** Equity 1050 that becomes 1048 once the positions are closed. *)
Definition script0 : Script :=
  {| connected := true; equity_now := Some 1050%float;
     equity_after_close := Some 1048%float; close_error := None;
     tick_price := Some 1%float; bar_counts := {["1m" := 25; "15s" := 9]};
     order_reply := (true, "ok"); strategy_answer := Some buy_signal |}.

Definition worker0 (p : Pc) : Worker :=
  {| pc := p; w_symbol := "EURUSD"; w_tp := 10%float; w_sl := 5%float;
     w_size := 1%float; w_strategy := SafeStrategy; w_batch_target := 50%float |}.

(** A running session: five trades in the batch, baseline 1000. *)
Definition page0 : TradingPage :=
  {| form := init_form 50%float; is_scalping := true;
     start_button := disabled; stop_button := normal;
     total_trades := 5; current_batch_trades := 5;
     batch_start_equity := 1000%float; batch_size := 5;
     trades_var := "5"; output := [];
     data_readiness_var := "Initializing...";
     data_readiness_label := theme_default |}.

Definition sys0 : Sys Script :=
  {| page := page0; world := script0; ui_queue := [];
     threads := [worker0 InBody] |}.

(** The same running session on a broker that reports equity [e] and has
    no price to offer. *)
Definition script_equity (e : float) : Script :=
  {| connected := true; equity_now := Some e;
     equity_after_close := Some e; close_error := None;
     tick_price := None; bar_counts := ∅;
     order_reply := (true, "ok"); strategy_answer := None |}.

Definition sys_equity (e : float) : Sys Script :=
  {| page := page0; world := script_equity e; ui_queue := []; threads := [] |}.

Definition intent0 (px : option float) : TradeIntent :=
  {| side := "buy"; symbol := "EURUSD"; price := px; size := 1%float;
     tp_pips_gui := 10%float; sl_pips_gui := 5%float;
     sl_offset_strategy := Some 3%float; tp_offset_strategy := None;
     strategy_comment := Some "" |}.

(** ** Further readings of the state and of the events *)

(** What the page keeps true between any two actions: the batch size is
    the constant 5, the trade count shown is the trade count, the stop
    button is enabled exactly while scalping, and the start button is
    disabled while scalping. *)
Definition page_consistent (p : TradingPage) : Prop :=
  batch_size p = 5 /\
  trades_var p = pretty (total_trades p) /\
  (is_scalping p = true -> start_button p = disabled /\ stop_button p = normal) /\
  (is_scalping p = false -> stop_button p = disabled).

(** A queued message that leads to an order: a trade request with a
    price. *)
Definition submittable (m : UiMsg) : bool :=
  match m with
  | MsgExecuteTrade t => match price t with Some _ => true | None => false end
  | MsgLog _ => false
  end.

(** The log line carried by a ["_log"] message. *)
Definition log_line (m : UiMsg) : option LogMsg :=
  match m with
  | MsgLog data => Some data
  | MsgExecuteTrade _ => None
  end.

Definition is_thread_start (e : Event) : bool :=
  match e with EvThreadStart => true | _ => false end.

Definition is_summary_call (e : Event) : bool :=
  match e with EvCall CallGetAccountSummary => true | _ => false end.

(** The arguments a scalping thread was started with. *)
Definition thread_args (t : Worker) : string * float * float * float * StrategyClass * float :=
  (w_symbol t, w_tp t, w_sl t, w_size t, w_strategy t, w_batch_target t).

(** A queued trade request. *)
Definition is_trade (m : UiMsg) : bool :=
  match m with MsgExecuteTrade _ => true | MsgLog _ => false end.

Definition not_skipped (line : LogMsg) : bool :=
  match line with LogSkipped => false | _ => true end.

(** A queued message that cannot lead to the "skipped" line: a trade
    request with a price, or a log line other than "skipped". *)
Definition never_skipped (m : UiMsg) : bool :=
  match m with
  | MsgExecuteTrade t => match price t with Some _ => true | None => false end
  | MsgLog data => not_skipped data
  end.

(** ** The positions table ([PerformancePage]) *)

(** A position as the broker reports it; only the attributes the table
    shows. *)
Record Position : Type := {
  position_symbol_name : string;
  trade_side : string;
  volume_lots : float;
  open_price : float;
  current_pnl : float
}.

(** The tag of a row, which is also its foreground colour. *)
Inductive PnlColour : Type := pnl_green | pnl_red.

(** A row of the table: the [values] tuple and the tag.  The volume and
    the P&L are shown with two decimals and the open price with five; the
    row keeps the numbers. *)
Record Row : Type := {
  row_id : Z;
  row_symbol : string;
  row_side : string;
  row_volume : float;
  row_open_price : float;
  row_pnl : float;
  row_tag : PnlColour
}.

(** The children of the tree's root, in display order, each with its item
    id. *)
Abbreviation Tree := (list (string * Row)).

(** [self.tree.get_children()] *)
Definition get_children (tree : Tree) : list string := tree.*1.

(** [self.tree.item(iid, values=.., tags=..)]: Tk raises when the item does
    not exist. *)
Definition tree_item (iid : string) (row : Row) (tree : Tree) : Outcome Tree :=
  if bool_decide (iid ∈ get_children tree) then
    Returned ((fun entry => if bool_decide (entry.1 = iid) then (iid, row) else entry) <$> tree)
  else Raised ("Item " +:+ iid +:+ " not found").

(** [self.tree.insert("", "end", iid=iid, values=.., tags=..)]: Tk raises
    when the item id is taken. *)
Definition tree_insert (iid : string) (row : Row) (tree : Tree) : Outcome Tree :=
  if bool_decide (iid ∈ get_children tree) then
    Raised ("Item " +:+ iid +:+ " already exists")
  else Returned (tree ++ [(iid, row)]).

(** [self.tree.delete(iid)] *)
Definition tree_delete (iid : string) (tree : Tree) : Outcome Tree :=
  if bool_decide (iid ∈ get_children tree) then
    Returned (filter (fun entry => entry.1 ≠ iid) tree)
  else Raised ("Item " +:+ iid +:+ " not found").

(** ["green" if pos_data.current_pnl >= 0 else "red"] *)
Definition pnl_color (pos_data : Position) : PnlColour :=
  if PrimFloat.leb 0%float (current_pnl pos_data) then pnl_green else pnl_red.

Definition row_of (pos_id : Z) (pos_data : Position) : Row :=
  {| row_id := pos_id;
     row_symbol := position_symbol_name pos_data;
     row_side := trade_side pos_data;
     row_volume := volume_lots pos_data;
     row_open_price := open_price pos_data;
     row_pnl := current_pnl pos_data;
     row_tag := pnl_color pos_data |}.

(** The first loop of [update_positions], over the items of
    [open_positions] in iteration order; [current_ids_in_tree] is the set
    of item ids not yet matched. *)
Fixpoint update_rows (open_positions : list (Z * Position))
    (current_ids_in_tree : gset string) (tree : Tree)
    : Outcome (gset string * Tree) :=
  match open_positions with
  | [] => Returned (current_ids_in_tree, tree)
  | (pos_id, pos_data) :: rest =>
      let item_id := pretty pos_id in
      if bool_decide (item_id ∈ current_ids_in_tree) then
        match tree_item item_id (row_of pos_id pos_data) tree with
        | Returned tree1 =>
            update_rows rest (current_ids_in_tree ∖ {[item_id]}) tree1
        | Raised e => Raised e
        end
      else
        match tree_insert item_id (row_of pos_id pos_data) tree with
        | Returned tree1 => update_rows rest current_ids_in_tree tree1
        | Raised e => Raised e
        end
  end.

(** The second loop: every id left in the set is deleted. *)
Fixpoint delete_rows (ids : list string) (tree : Tree) : Outcome Tree :=
  match ids with
  | [] => Returned tree
  | item_id_to_remove :: rest =>
      match tree_delete item_id_to_remove tree with
      | Returned tree1 => delete_rows rest tree1
      | Raised e => Raised e
      end
  end.

Definition update_positions (open_positions : list (Z * Position)) (tree : Tree)
    : Outcome Tree :=
  match update_rows open_positions (list_to_set (get_children tree)) tree with
  | Returned (current_ids_in_tree, tree1) =>
      delete_rows (elements current_ids_in_tree) tree1
  | Raised e => Raised e
  end.

(** ** The symbol dropdown ([TradingPage.populate_symbols_dropdown]) *)

(** The one broker call of the dropdown. *)
Class SymbolSelection (W : Type) : Type := {
  handle_symbol_selection : string -> W -> Outcome unit * W
}.

Definition set_symbol_var (v : string) (f : Form) : Form :=
  {| strategy_var := strategy_var f; symbol_var := v; tp_var := tp_var f;
     sl_var := sl_var f; size_var := size_var f;
     batch_profit_var := batch_profit_var f |}.

(** [configured_default in symbol_names]; the setting may be [None]. *)
Definition default_offered (configured_default : option string)
    (symbol_names : list string) : bool :=
  match configured_default with
  | Some d => bool_decide (d ∈ symbol_names)
  | None => false
  end.

(** What the dropdown holds after a call: the combobox's [values], the
    form, the world, and the arguments of the calls made to
    [handle_symbol_selection]. *)
Record Populated (W : Type) : Type := {
  populate_outcome : Outcome unit;
  cb_symbol_values : list string;
  populated_form : Form;
  populated_world : W;
  selection_calls : list string
}.
Arguments populate_outcome {W} p.
Arguments cb_symbol_values {W} p.
Arguments populated_form {W} p.
Arguments populated_world {W} p.
Arguments selection_calls {W} p.

Definition populate_symbols_dropdown {W : Type} `{!SymbolSelection W}
    (symbol_names : list string) (configured_default : option string)
    (f : Form) (w : W) : Populated W :=
  match symbol_names with
  | [] =>
      {| populate_outcome := Returned tt; cb_symbol_values := [];
         populated_form := set_symbol_var "No symbols available" f;
         populated_world := w; selection_calls := [] |}
  | first :: _ =>
      let f1 :=
        if default_offered configured_default symbol_names
        then set_symbol_var (default "" configured_default) f
        else set_symbol_var first f in
      match handle_symbol_selection (symbol_var f1) w with
      | (r, w1) =>
          {| populate_outcome := r; cb_symbol_values := symbol_names;
             populated_form := f1; populated_world := w1;
             selection_calls := [symbol_var f1] |}
      end
  end.

(** ** The advisory request ([run_chatgpt_analysis] and its thread) *)

Record AiAdvice : Type := {
  advice_action : string;
  advice_confidence : float;
  advice_reason : string
}.

(** The last values of the four indicators computed on the 1m bars. *)
Record Indicators : Type := {
  ema_fast : float;
  ema_slow : float;
  rsi : float;
  atr : float
}.

(** The texts of a ["show_ai_error"] message:
    "Could not perform analysis: Market data is missing.",
    "Failed to get advice from the AI Overseer.",
    "An error occurred during analysis: {e}". *)
Inductive AiError : Type :=
| MarketDataMissing
| NoAdvice
| AnalysisError (e : string).

(** The three messages the advisory thread puts on the queue. *)
Inductive AiMsg : Type :=
| show_ai_advice (advice : AiAdvice)
| show_ai_error (message : AiError)
| re_enable_ai_button.

(** What the advisory thread needs beside [get_market_price]: whether the
    1m frame of a symbol is empty, the indicator values (computing them may
    raise), and the advisor itself, called with the symbol, the price and
    indicators, and the form's stop and target. *)
Class Advisor (W : Type) : Type := {
  ohlc_1m_empty : string -> W -> bool;
  latest_indicators : string -> W -> Outcome Indicators * W;
  get_ai_advice :
    string -> float -> Indicators -> float -> float -> W -> Outcome (option AiAdvice) * W
}.

(** The part of the page the advisory request touches.  The log lines are
    "Requesting ChatGPT Analysis...", "ChatGPT Analysis Result: ..." and
    "ChatGPT Analysis Error: ..."; a dialog is opened with each result. *)
Inductive AiLogLine : Type :=
| LogRequesting
| LogAiResult (advice : AiAdvice)
| LogAiError (message : AiError).

Record AiView : Type := {
  ai_button : ButtonState;
  ai_output : list AiLogLine;
  ai_dialogs : list MessageboxKind
}.

Section Advisory.
Context {W : Type} `{!Trader W} `{!Advisor W}.

(** The thread's code runs over the world, may raise, and collects the
    messages it puts on the queue. *)
Definition T (A : Type) : Type := W -> Outcome A * W * list AiMsg.

Definition t_ret {A : Type} (a : A) : T A := fun w => (Returned a, w, []).

Definition t_bind {A B : Type} (m : T A) (k : A -> T B) : T B := fun w =>
  match m w with
  | (Returned a, w1, out1) =>
      match k a w1 with (r, w2, out2) => (r, w2, out1 ++ out2) end
  | (Raised e, w1, out1) => (Raised e, w1, out1)
  end.

Definition t_call {A : Type} (op : W -> Outcome A * W) : T A := fun w =>
  match op w with (r, w1) => (r, w1, []) end.

Definition t_put (m : AiMsg) : T unit := fun w => (Returned tt, w, [m]).

(** [try: m  except Exception as e: handler e] *)
Definition t_except {A : Type} (m : T A) (handler : string -> T A) : T A := fun w =>
  match m w with
  | (Returned a, w1, out1) => (Returned a, w1, out1)
  | (Raised e, w1, out1) =>
      match handler e w1 with (r, w2, out2) => (r, w2, out1 ++ out2) end
  end.

(** [try: m  finally: closing]: the closing block runs however [m] ends;
    an exception of [m] is raised again after it. *)
Definition t_finally {A : Type} (m : T A) (closing : T unit) : T A := fun w =>
  match m w with
  | (r, w1, out1) =>
      match closing w1 with
      | (Returned _, w2, out2) => (r, w2, out1 ++ out2)
      | (Raised e, w2, out2) => (Raised e, w2, out1 ++ out2)
      end
  end.

Notation "'do' x '<-' c ';' k" := (t_bind c (fun x => k))
  (at level 10, x name, c at level 100, k at level 200).

Definition _chatgpt_analysis_thread (f : Form) : T unit :=
  t_finally
    (t_except
       (let sym := remove_slashes (symbol_var f) in
        do current <- t_call (get_market_price sym);
        do frame_empty <- (fun w => (Returned (ohlc_1m_empty sym w), w, []));
        match current with
        | None => t_put (show_ai_error MarketDataMissing)
        | Some price_bid =>
            if frame_empty then t_put (show_ai_error MarketDataMissing)
            else
              do features <- t_call (latest_indicators sym);
              do advice <- t_call (get_ai_advice sym price_bid features
                                     (sl_var f) (tp_var f));
              match advice with
              | Some a => t_put (show_ai_advice a)
              | None => t_put (show_ai_error NoAdvice)
              end
        end)
       (fun e => t_put (show_ai_error (AnalysisError e))))
    (t_put re_enable_ai_button).

End Advisory.

(** [run_chatgpt_analysis], up to the start of the thread. *)
Definition run_chatgpt_analysis (v : AiView) : AiView :=
  {| ai_button := disabled; ai_output := ai_output v ++ [LogRequesting];
     ai_dialogs := ai_dialogs v |}.

(** The three advisory branches of [_process_ui_queue]: [_show_ai_advice],
    [_show_ai_error], and the button. *)
Definition handle_ai_message (v : AiView) (m : AiMsg) : AiView :=
  match m with
  | show_ai_advice advice =>
      {| ai_button := ai_button v; ai_output := ai_output v ++ [LogAiResult advice];
         ai_dialogs := ai_dialogs v ++ [showinfo] |}
  | show_ai_error message =>
      {| ai_button := ai_button v; ai_output := ai_output v ++ [LogAiError message];
         ai_dialogs := ai_dialogs v ++ [showerror] |}
  | re_enable_ai_button =>
      {| ai_button := normal; ai_output := ai_output v; ai_dialogs := ai_dialogs v |}
  end.

(** ** The connection handshake ([SettingsPage]) *)

(** The account summary dictionary, by its four entries; a missing key
    reads as [None] through [dict.get].  An account id is kept as the text
    [str] gives it. *)
Record AccountDetails : Type := {
  details_account_id : option string;
  details_balance : option float;
  details_equity : option float;
  details_margin : option float
}.

(** The broker calls of the handshake; each may raise.  [account_details]
    is [get_account_summary] with all its entries. *)
Class Connector (W : Type) : Type := {
  connect : W -> Outcome bool * W;
  get_connection_status : W -> Outcome (bool * option string) * W;
  account_details : W -> Outcome AccountDetails * W;
  get_available_symbol_names : W -> Outcome (list string) * W
}.

Inductive StatusColour : Type := status_orange | status_red | status_green.

(** The status label and the account summary box of the settings page.
    The three amounts are shown with two decimals, [None] as a dash. *)
Record SettingsView : Type := {
  status_text : string;
  status_foreground : option StatusColour;
  account_id_var : string;
  balance_var : option float;
  equity_var : option float;
  margin_var : option float
}.

Definition set_status (text : string) (colour : StatusColour) (v : SettingsView)
    : SettingsView :=
  {| status_text := text; status_foreground := Some colour;
     account_id_var := account_id_var v; balance_var := balance_var v;
     equity_var := equity_var v; margin_var := margin_var v |}.

(** [SettingsPage.update_account_info] *)
Definition update_account_info (d : AccountDetails) (v : SettingsView)
    : SettingsView :=
  {| status_text := status_text v; status_foreground := status_foreground v;
     account_id_var := default "–" (details_account_id d);
     balance_var := details_balance d;
     equity_var := details_equity d;
     margin_var := details_margin d |}.

(** The timer callbacks of the handshake. *)
Inductive Callback : Type := check_connection | on_successful_connection.

(** What the handshake shows or asks of the other pages, and the
    exception that ends its thread or one of its callbacks: nothing in the
    handshake catches it, so what was done before it stays and nothing more
    is scheduled. *)
Inductive ConnEvent : Type :=
| ConnShowError (message : string)      (* showerror("Connection Failed", ..) *)
| ConnShowInfo (account : string)       (* showinfo("Connected", ..) *)
| ConnPopulate (symbol_names : list string)
| ConnWarnNoSymbols                     (* the warning logged on the trading page *)
| ConnShowTradingPage
| ConnRaised (e : string).

(** The settings page, the trading page's form and combobox, and the
    world. *)
Record Handshake (W : Type) : Type := {
  settings_view : SettingsView;
  trading_form : Form;
  trading_symbols : list string;
  broker : W
}.
Arguments settings_view {W} h.
Arguments trading_form {W} h.
Arguments trading_symbols {W} h.
Arguments broker {W} h.

(** Python's truth value of a message: [None] and the empty string are
    false. *)
Definition message_given (msg : option string) : option string :=
  match msg with
  | Some EmptyString => None
  | Some m => Some m
  | None => None
  end.

(** [account_id in ["connecting...", "–", None] or balance is None] *)
Definition details_pending (d : AccountDetails) : bool :=
  match details_account_id d with
  | None => true
  | Some a =>
      String.eqb a "connecting..." || String.eqb a "–" ||
      match details_balance d with None => true | Some _ => false end
  end.

Section Connection.
Context {W : Type} `{!Connector W} `{!SymbolSelection W}.

(** The result of a callback: the state, what was shown, and the callback
    it scheduled with [self.after], if any. *)
Definition Turn : Type := Handshake W * list ConnEvent * option Callback.

Definition with_view (v : SettingsView) (h : Handshake W) : Handshake W :=
  {| settings_view := v; trading_form := trading_form h;
     trading_symbols := trading_symbols h; broker := broker h |}.

Definition with_broker (w : W) (h : Handshake W) : Handshake W :=
  {| settings_view := settings_view h; trading_form := trading_form h;
     trading_symbols := trading_symbols h; broker := w |}.

(** [attempt_connection] followed by its thread [_connect_thread_target];
    the status updates the thread schedules with [after(0, ..)] run before
    the check it schedules with [after(100, ..)]. *)
Definition attempt_connection (h : Handshake W) : Turn :=
  let h0 := with_view (set_status "Processing connection..." status_orange
                         (settings_view h)) h in
  match connect (broker h0) with
  | (Returned true, w1) =>
      (with_view (set_status "Connection successful. Authenticating account..."
                    status_orange (settings_view h0)) (with_broker w1 h0),
       [], Some check_connection)
  | (Returned false, w1) =>
      match get_connection_status w1 with
      | (Returned (_, msg), w2) =>
          let final_msg :=
            match message_given msg with
            | Some m => "Failed: " +:+ m
            | None => "Connection failed."
            end in
          (with_view (set_status final_msg status_red (settings_view h0))
             (with_broker w2 h0),
           [ConnShowError final_msg], None)
      | (Raised e, w2) => (with_broker w2 h0, [ConnRaised e], None)
      end
  | (Raised e, w1) => (with_broker w1 h0, [ConnRaised e], None)
  end.

(** [_on_successful_connection]; [configured_default] is the default
    symbol of the settings. *)
Definition _on_successful_connection (configured_default : option string)
    (h : Handshake W) : Turn :=
  match account_details (broker h) with
  | (Raised e, w1) => (with_broker w1 h, [ConnRaised e], None)
  | (Returned summary, w1) =>
      if details_pending summary then
        (with_view (set_status "Fetching account details..." status_orange
                      (settings_view h)) (with_broker w1 h),
         [], Some on_successful_connection)
      else
        let v1 := set_status "Connected ✅" status_green
                    (update_account_info summary (settings_view h)) in
        let connected := ConnShowInfo (default "" (details_account_id summary)) in
        match get_available_symbol_names w1 with
        | (Raised e, w2) =>
            (with_view v1 (with_broker w2 h), [connected; ConnRaised e], None)
        | (Returned available_symbols, w2) =>
            let p := populate_symbols_dropdown available_symbols
                       configured_default (trading_form h) w2 in
            let h1 :=
              {| settings_view := v1; trading_form := populated_form p;
                 trading_symbols := cb_symbol_values p;
                 broker := populated_world p |} in
            let shown := [connected; ConnPopulate available_symbols] in
            match populate_outcome p with
            | Raised e => (h1, shown ++ [ConnRaised e], None)
            | Returned _ =>
                (h1,
                 shown ++ (match available_symbols with
                           | [] => [ConnWarnNoSymbols]
                           | _ => []
                           end) ++ [ConnShowTradingPage],
                 None)
            end
        end
  end.

Definition _check_connection (configured_default : option string)
    (h : Handshake W) : Turn :=
  match get_connection_status (broker h) with
  | (Raised e, w1) => (with_broker w1 h, [ConnRaised e], None)
  | (Returned (true, _), w1) =>
      _on_successful_connection configured_default (with_broker w1 h)
  | (Returned (false, msg), w1) =>
      match message_given msg with
      | Some m =>
          (with_view (set_status ("Failed: " +:+ m) status_red (settings_view h))
             (with_broker w1 h),
           [ConnShowError m], None)
      | None => (with_broker w1 h, [], Some check_connection)
      end
  end.

Definition run_callback (configured_default : option string) (cb : Callback)
    (h : Handshake W) : Turn :=
  match cb with
  | check_connection => _check_connection configured_default h
  | on_successful_connection => _on_successful_connection configured_default h
  end.

(** The timer loop: a callback runs, and the callback it scheduled runs
    next, for at most [fuel] callbacks. *)
Fixpoint run_callbacks (configured_default : option string) (fuel : nat)
    (cb : Callback) (h : Handshake W) : Turn :=
  match fuel with
  | O => (h, [], Some cb)
  | S n =>
      match run_callback configured_default cb h with
      | (h1, ev1, Some cb1) =>
          match run_callbacks configured_default n cb1 h1 with
          | (h2, ev2, pending) => (h2, ev1 ++ ev2, pending)
          end
      | (h1, ev1, None) => (h1, ev1, None)
      end
  end.

(** The whole handshake: the Connect button, the thread, and the timer
    callbacks that follow. *)
Definition handshake (configured_default : option string) (fuel : nat)
    (h : Handshake W) : Turn :=
  match attempt_connection h with
  | (h1, ev1, Some cb) =>
      match run_callbacks configured_default fuel cb h1 with
      | (h2, ev2, pending) => (h2, ev1 ++ ev2, pending)
      end
  | (h1, ev1, None) => (h1, ev1, None)
  end.

(** The account box, the trading form and the combobox are as they were. *)
Definition untouched (h h' : Handshake W) : Prop :=
  account_id_var (settings_view h') = account_id_var (settings_view h) /\
  balance_var (settings_view h') = balance_var (settings_view h) /\
  equity_var (settings_view h') = equity_var (settings_view h) /\
  margin_var (settings_view h') = margin_var (settings_view h) /\
  trading_form h' = trading_form h /\
  trading_symbols h' = trading_symbols h.

(** The handshake is still polling: nothing has been shown yet. *)
Definition still_polling (h : Handshake W) (t : Turn) : Prop :=
  t.2 <> None /\ t.1.2 = [] /\ untouched h t.1.1 /\
  status_foreground (settings_view t.1.1) = Some status_orange.

(** The handshake has failed: one error dialog, a red status that carries
    the dialog's message, and nothing else changed. *)
Definition ended_failed (h : Handshake W) (t : Turn) : Prop :=
  t.2 = None /\ untouched h t.1.1 /\
  status_foreground (settings_view t.1.1) = Some status_red /\
  exists shown,
    t.1.2 = [ConnShowError shown] /\
    (status_text (settings_view t.1.1) = shown \/
     status_text (settings_view t.1.1) = "Failed: " +:+ shown).

(** A broker call raised before the connection was announced: the thread
    or the callback ended there, and nothing was shown or changed. *)
Definition ended_raised (h : Handshake W) (t : Turn) : Prop :=
  t.2 = None /\ untouched h t.1.1 /\
  status_foreground (settings_view t.1.1) = Some status_orange /\
  exists e, t.1.2 = [ConnRaised e].

(** The settings page announces the connection with this summary: the
    account id is there and is neither "connecting..." nor a dash, the
    balance is there, and the account box shows the four entries. *)
Definition announces (summary : AccountDetails) (account : string)
    (v : SettingsView) : Prop :=
  status_text v = "Connected ✅" /\
  status_foreground v = Some status_green /\
  details_account_id summary = Some account /\
  account <> "connecting..." /\ account <> "–" /\
  (exists balance, details_balance summary = Some balance) /\
  account_id_var v = account /\
  balance_var v = details_balance summary /\
  equity_var v = details_equity summary /\
  margin_var v = details_margin summary.

(** The handshake has connected: the account box shows a complete summary
    that the broker returned, the "connected" dialog was shown once, and
    the broker was then asked for its symbols.  If that call raised, the
    trading page is as it was.  If it returned, the dropdown was populated
    once with the list it returned, the selected symbol being one of the
    list (or the text for an empty list), and the trading page was raised
    unless the dropdown's own broker call raised. *)
Definition ended_connected (h : Handshake W) (t : Turn) : Prop :=
  t.2 = None /\
  exists w_a summary w_b account,
    account_details w_a = (Returned summary, w_b) /\
    announces summary account (settings_view t.1.1) /\
    ((exists e w_c,
        get_available_symbol_names w_b = (Raised e, w_c) /\
        trading_form t.1.1 = trading_form h /\
        trading_symbols t.1.1 = trading_symbols h /\
        t.1.2 = [ConnShowInfo account; ConnRaised e]) \/
     (exists symbol_names w_c,
        get_available_symbol_names w_b = (Returned symbol_names, w_c) /\
        trading_symbols t.1.1 = symbol_names /\
        (symbol_names <> [] -> symbol_var (trading_form t.1.1) ∈ symbol_names) /\
        (symbol_names = [] ->
         symbol_var (trading_form t.1.1) = "No symbols available") /\
        set_symbol_var (symbol_var (trading_form h)) (trading_form t.1.1)
        = trading_form h /\
        ((exists e,
            t.1.2 = [ConnShowInfo account; ConnPopulate symbol_names; ConnRaised e]) \/
         (symbol_names <> [] /\
          t.1.2 = [ConnShowInfo account; ConnPopulate symbol_names;
                   ConnShowTradingPage]) \/
         (symbol_names = [] /\
          t.1.2 = [ConnShowInfo account; ConnPopulate symbol_names;
                   ConnWarnNoSymbols; ConnShowTradingPage])))).

(** The handshake has connected with this summary and this symbol list,
    the dropdown having been populated from form [f0] in world [w3], and
    the trading page has been raised. *)
Definition connected_as (configured_default : option string)
    (summary : AccountDetails) (symbol_names : list string) (f0 : Form) (w3 : W)
    (t : Turn) : Prop :=
  let p := populate_symbols_dropdown symbol_names configured_default f0 w3 in
  t.2 = None /\
  status_text (settings_view t.1.1) = "Connected ✅" /\
  status_foreground (settings_view t.1.1) = Some status_green /\
  account_id_var (settings_view t.1.1) = default "–" (details_account_id summary) /\
  balance_var (settings_view t.1.1) = details_balance summary /\
  equity_var (settings_view t.1.1) = details_equity summary /\
  margin_var (settings_view t.1.1) = details_margin summary /\
  trading_form t.1.1 = populated_form p /\
  trading_symbols t.1.1 = symbol_names /\
  broker t.1.1 = populated_world p /\
  t.1.2 = [ConnShowInfo (default "" (details_account_id summary));
           ConnPopulate symbol_names]
          ++ (match symbol_names with [] => [ConnWarnNoSymbols] | _ => [] end)
          ++ [ConnShowTradingPage].

(** The broker answers "not connected, no message" [n] times and then
    "connected"; [w'] is the world after the last answer. *)
Inductive connects_after : nat -> W -> W -> Prop :=
| connects_now w msg w' :
    get_connection_status w = (Returned (true, msg), w') ->
    connects_after 0 w w'
| connects_later n w msg w1 w' :
    get_connection_status w = (Returned (false, msg), w1) ->
    message_given msg = None ->
    connects_after n w1 w' ->
    connects_after (S n) w w'.

(** The account summary is incomplete [n] times and then complete. *)
Inductive details_after : nat -> W -> AccountDetails -> W -> Prop :=
| details_now w summary w' :
    account_details w = (Returned summary, w') ->
    details_pending summary = false ->
    details_after 0 w summary w'
| details_later n w pending w1 summary w' :
    account_details w = (Returned pending, w1) ->
    details_pending pending = true ->
    details_after n w1 summary w' ->
    details_after (S n) w summary w'.

End Connection.

(** ** Scripted collaborators for the other pages *)

(** A broker line that answers the handshake from scripts: the connection
    statuses and the account summaries are read off two lists, one per
    call. *)
Record Line : Type := {
  line_accepts : bool;
  line_statuses : list (bool * option string);
  line_summaries : list AccountDetails;
  line_symbols : list string
}.

Definition no_details : AccountDetails :=
  {| details_account_id := None; details_balance := None;
     details_equity := None; details_margin := None |}.

#[local] Instance line_connector : Connector Line := {|
  connect w := (Returned (line_accepts w), w);
  get_connection_status w :=
    match line_statuses w with
    | [] => (Returned (false, None), w)
    | answer :: rest =>
        (Returned answer,
         {| line_accepts := line_accepts w; line_statuses := rest;
            line_summaries := line_summaries w; line_symbols := line_symbols w |})
    end;
  account_details w :=
    match line_summaries w with
    | [] => (Returned no_details, w)
    | summary :: rest =>
        (Returned summary,
         {| line_accepts := line_accepts w; line_statuses := line_statuses w;
            line_summaries := rest; line_symbols := line_symbols w |})
    end;
  get_available_symbol_names w := (Returned (line_symbols w), w)
|}.

#[local] Instance line_selection : SymbolSelection Line := {|
  handle_symbol_selection _ w := (Returned tt, w)
|}.

Definition account0 : AccountDetails :=
  {| details_account_id := Some "4711"; details_balance := Some 1000%float;
     details_equity := Some 1000%float; details_margin := Some 0%float |}.

(** One quiet status before the connection is up, and one incomplete
    summary before the complete one. *)
Definition line0 : Line :=
  {| line_accepts := true;
     line_statuses := [(false, None); (true, None)];
     line_summaries := [no_details; account0];
     line_symbols := ["EURUSD"; "GBPUSD"] |}.

Definition view0 : SettingsView :=
  {| status_text := "Disconnected"; status_foreground := None;
     account_id_var := "–"; balance_var := None; equity_var := None;
     margin_var := None |}.

Definition handshake0 : Handshake Line :=
  {| settings_view := view0; trading_form := init_form 50%float;
     trading_symbols := []; broker := line0 |}.

Definition position0 (pnl : float) : Position :=
  {| position_symbol_name := "EURUSD"; trade_side := "BUY";
     volume_lots := 1%float; open_price := 1%float; current_pnl := pnl |}.

(** A table showing positions 1 and 2. *)
Definition tree0 : list (string * Row) :=
  [("1", row_of 1 (position0 0%float)); ("2", row_of 2 (position0 0%float))].

(** Position 1 is closed, 2 is still open, 3 is new. *)
Definition positions0 : list (Z * Position) :=
  [(2, position0 5%float); (3, position0 (-1)%float)].

Definition unknown_form : Form :=
  {| strategy_var := "Custom"; symbol_var := "EUR/USD"; tp_var := 10%float;
     sl_var := 5%float; size_var := 1%float; batch_profit_var := 50%float |}.

(** ** Facts about the readiness loop *)

Lemma readiness_fold_all_ready available items acc :
  all_ready (fold_left (readiness_step available) items acc) = true <->
  all_ready acc = true /\
  Forall (fun item => item.2 <= available_count available item.1) items.
Proof.
  revert acc. induction items as [|[tf req] items IH]; intros acc; simpl.
  - split; [intros Hacc; split; [exact Hacc | constructor] | tauto].
  - rewrite IH. unfold readiness_step at 1. simpl.
    rewrite Forall_cons. simpl.
    destruct (Z.ltb_spec (available_count available tf) req).
    + split; [intros [Hf _]; discriminate | intros (_ & Hle & _); lia].
    + split; [intros [Hacc Hall]; repeat split; trivial | tauto].
Qed.

Lemma readiness_gate_all_ready required available :
  all_ready (readiness_gate required available) = true <->
  Forall (fun item => item.2 <= available_count available item.1) required.
Proof.
  destruct required as [|item items].
  - simpl. split; [constructor | reflexivity].
  - unfold readiness_gate. rewrite readiness_fold_all_ready. simpl. tauto.
Qed.

(** C4: the gate answers [all_ready = true] exactly when every required
    timeframe has at least its required number of bars in the live
    bar-count map, a timeframe the map does not hold counting as 0 bars;
    one short timeframe makes it false whatever the others hold; and with
    no requirement at all it is true. *)
Theorem readiness_gate_correct (required : list (string * Z))
    (available : gmap string Z) :
  (all_ready (readiness_gate required available) = true <->
   forall tf required_count, In (tf, required_count) required ->
     required_count <= default 0 (available !! tf)) /\
  (forall tf required_count, In (tf, required_count) required ->
     default 0 (available !! tf) < required_count ->
     all_ready (readiness_gate required available) = false) /\
  all_ready (readiness_gate [] available) = true.
Proof.
  assert (Hiff : all_ready (readiness_gate required available) = true <->
    forall tf required_count, In (tf, required_count) required ->
      required_count <= default 0 (available !! tf)).
  { rewrite readiness_gate_all_ready, List.Forall_forall. split.
    - intros Hall tf req Hin. exact (Hall (tf, req) Hin).
    - intros Hall [tf req] Hin. exact (Hall tf req Hin). }
  split; [exact Hiff | split; [| reflexivity]].
  intros tf req Hin Hshort.
  apply not_true_is_false. intros Hready.
  apply Hiff with (tf := tf) (required_count := req) in Hready; [lia | exact Hin].
Qed.

(** C8: a required timeframe that the bar-count map does not mention counts
    as 0 available bars, and a requirement of at least one bar on it makes
    the gate answer false. *)
Theorem readiness_missing_timeframe (required : list (string * Z))
    (available : gmap string Z) (tf : string) (required_count : Z)
    (Hmissing : available !! tf = None)
    (Hrequired : In (tf, required_count) required)
    (Hpositive : 1 <= required_count) :
  available_count available tf = 0 /\
  all_ready (readiness_gate required available) = false.
Proof.
  assert (H0 : available_count available tf = 0).
  { unfold available_count. rewrite Hmissing. reflexivity. }
  split; [exact H0 |].
  apply not_true_is_false. intros Hready.
  apply readiness_gate_all_ready in Hready.
  rewrite List.Forall_forall in Hready.
  specialize (Hready (tf, required_count) Hrequired). simpl in Hready. lia.
Qed.

Lemma readiness_missing_timeframe_witness :
  available_count {["1m" := 25]} "15s" = 0 /\
  all_ready (readiness_gate [("1m", 20); ("15s", 10)] {["1m" := 25]}) = false.
Proof.
  apply (readiness_missing_timeframe [("1m", 20); ("15s", 10)]
           {["1m" := 25]} "15s" 10).
  - reflexivity.
  - simpl. right. left. reflexivity.
  - lia.
Defined.

(** The example of the specification: 1m is satisfied, 15s is one short. *)
Example readiness_example :
  readiness_gate [("1m", 20); ("15s", 10)] {["1m" := 25; "15s" := 9]}
  = {| all_ready := false; status_messages := ["1m: 25/20"; "15s: 9/10"] |}.
Proof. vm_compute. reflexivity. Qed.

(** The same for a requirement dictionary given as a finite map, whatever
    the order in which its items are visited. *)
Lemma readiness_gate_on_map (required : gmap string Z) (available : gmap string Z) :
  all_ready (readiness_gate (map_to_list required) available) = true <->
  forall tf required_count, required !! tf = Some required_count ->
    required_count <= available_count available tf.
Proof.
  rewrite readiness_gate_all_ready, List.Forall_forall. split.
  - intros Hall tf req Hlookup.
    apply (Hall (tf, req)). apply list_elem_of_In.
    apply elem_of_map_to_list. exact Hlookup.
  - intros Hall [tf req] Hin. apply Hall.
    apply elem_of_map_to_list, list_elem_of_In. exact Hin.
Qed.

(** ** The session operations *)

Section SessionFacts.
Context {W : Type} `{!Trader W} `{!Strategies W}.

(** Splits on the next [match] or [if] that blocks the evaluation of a
    monadic run. *)
Ltac split_run :=
  match goal with
  | |- context [match ?x with _ => _ end] =>
      lazymatch x with
      | context [match _ with _ => _ end] => fail
      | _ => destruct x eqn:?
      end
  end.

Ltac run_ops :=
  repeat (cbn [page world ui_queue threads with_page with_world with_ui_queue
                 with_threads fst snd count List.filter length app
                 is_flatten is_order is_intent
                 is_scalping total_trades current_batch_trades batch_start_equity
                 batch_size set_batch_start_equity set_current_batch_trades] in *;
          try split_run).

(** *** The tick evaluation and the batch check, taken apart *)

Lemma evaluate_tick_frame (t : Worker) (s : Sys W) :
  page (evaluate_tick t s).1.2 = page s /\
  threads (evaluate_tick t s).1.2 = threads s /\
  count is_flatten (evaluate_tick t s).2 = 0%nat /\
  count is_order (evaluate_tick t s).2 = 0%nat /\
  (count is_intent (evaluate_tick t s).2 <= 1)%nat.
Proof.
  unfold evaluate_tick, publish_signal, bind, trader_call, put, emit, ret.
  run_ops; repeat split; auto.
Qed.

Lemma batch_check_not_due (batch_target : float) (s : Sys W) :
  current_batch_trades (page s) < batch_size (page s) ->
  batch_check batch_target s = (Returned tt, s, []).
Proof.
  intros Hlt. unfold batch_check, bind, self.
  cbn [page]. rewrite Z.geb_leb.
  destruct (Z.leb_spec (batch_size (page s)) (current_batch_trades (page s)));
    [lia | reflexivity].
Qed.

Lemma batch_check_frame (batch_target : float) (s : Sys W) :
  threads (batch_check batch_target s).1.2 = threads s /\
  is_scalping (page (batch_check batch_target s).1.2) = is_scalping (page s) /\
  total_trades (page (batch_check batch_target s).1.2) = total_trades (page s) /\
  (current_batch_trades (page (batch_check batch_target s).1.2)
     = current_batch_trades (page s) \/
   current_batch_trades (page (batch_check batch_target s).1.2) = 0) /\
  count is_intent (batch_check batch_target s).2 = 0%nat /\
  count is_order (batch_check batch_target s).2 = 0%nat /\
  (count is_flatten (batch_check batch_target s).2 <= 1)%nat.
Proof.
  unfold batch_check, bind, try_except, trader_call, put, assign, self, ret.
  run_ops; repeat split; auto.
Qed.

(** When the flatten happens, and what it leaves behind. *)
Lemma batch_check_flatten (batch_target : float) (s : Sys W) :
  In (EvCall CallCloseAllPositions) (batch_check batch_target s).2 <->
  batch_size (page s) <= current_batch_trades (page s) /\
  exists summary w1,
    get_account_summary (world s) = (Returned summary, w1) /\
    target_reached (equity_of summary) (batch_start_equity (page s)) batch_target
      = true.
Proof.
  destruct (Z.lt_ge_cases (current_batch_trades (page s)) (batch_size (page s)))
    as [Hlt | Hge].
  { rewrite batch_check_not_due by exact Hlt. cbn. split; [tauto | lia]. }
  unfold batch_check, bind, try_except, trader_call, put, assign, self, ret.
  cbn [page]. rewrite Z.geb_leb. rewrite (proj2 (Z.leb_le _ _) Hge).
  destruct (get_account_summary (world s)) as [[summary | e] w1] eqn:Hsum.
  - cbn [page world ui_queue threads with_page with_world with_ui_queue].
    destruct (target_reached _ _ _) eqn:Hreached.
    + split; [intros _; split; [exact Hge | exists summary, w1; auto] |].
      intros _. run_ops; cbn; auto.
    + split; [cbn; intros [Hev | []]; discriminate |].
      intros (_ & summary' & w' & Heq & Hr). congruence.
  - split; [cbn; intros [Hev | []]; discriminate |].
    intros (_ & summary' & w' & Heq & _). discriminate.
Qed.

Lemma batch_check_reset (batch_target : float) (s : Sys W)
    (summary : option float) (w1 : W) :
  batch_size (page s) <= current_batch_trades (page s) ->
  get_account_summary (world s) = (Returned summary, w1) ->
  target_reached (equity_of summary) (batch_start_equity (page s)) batch_target
    = true ->
  (batch_check batch_target s).1.1 = Returned tt /\
  current_batch_trades (page (batch_check batch_target s).1.2) = 0 /\
  batch_start_equity (page (batch_check batch_target s).1.2) = equity_of summary.
Proof.
  intros Hge Hsum Hreached.
  unfold batch_check, bind, try_except, trader_call, put, assign, self, ret.
  cbn [page]. rewrite Z.geb_leb. rewrite (proj2 (Z.leb_le _ _) Hge).
  rewrite Hsum.
  cbn [page world ui_queue threads with_page with_world with_ui_queue].
  rewrite Hreached. run_ops; cbn; auto.
Qed.

(** The events of an iteration are those of the batch check followed, when
    the check returned, by those of the tick evaluation. *)
Lemma iteration_flatten_events (t : Worker) (s : Sys W) :
  List.filter is_flatten (_scalp_loop_iteration t s).2
  = List.filter is_flatten (batch_check (w_batch_target t) s).2.
Proof.
  unfold _scalp_loop_iteration, bind.
  destruct (batch_check (w_batch_target t) s) as [[[[] | e] s1] ev1];
    cbn [fst snd]; [| reflexivity].
  pose proof (evaluate_tick_frame t s1) as (_ & _ & Hnone & _).
  destruct (evaluate_tick t s1) as [[r2 s2] ev2]. cbn [fst snd] in *.
  rewrite List.filter_app. unfold count in Hnone.
  apply length_zero_iff_nil in Hnone. rewrite Hnone. apply app_nil_r.
Qed.

Lemma in_flatten_filter (ev : list Event) :
  In (EvCall CallCloseAllPositions) ev <->
  In (EvCall CallCloseAllPositions) (List.filter is_flatten ev).
Proof.
  rewrite List.filter_In. cbn. tauto.
Qed.

Lemma iteration_page (t : Worker) (s : Sys W) :
  page (_scalp_loop_iteration t s).1.2
  = page (batch_check (w_batch_target t) s).1.2.
Proof.
  unfold _scalp_loop_iteration, bind.
  destruct (batch_check (w_batch_target t) s) as [[[[] | e] s1] ev1];
    cbn [fst snd]; [| reflexivity].
  pose proof (evaluate_tick_frame t s1) as (Hpage & _).
  destruct (evaluate_tick t s1) as [[r2 s2] ev2]. exact Hpage.
Qed.

(** Refutes the membership of an event in a list of other events. *)
Ltac not_among :=
  cbn;
  let H := fresh "Hamong" in
  intros H;
  repeat (destruct H as [H | H]; try discriminate H);
  contradiction.

(** The events of a batch check that closes: the summary read, the log
    line, the close, and nothing that reads the summary again. *)
Lemma batch_check_flatten_events (batch_target : float) (s : Sys W) :
  In (EvCall CallCloseAllPositions) (batch_check batch_target s).2 ->
  exists after,
    (batch_check batch_target s).1.1 = Returned tt /\
    (batch_check batch_target s).2
    = EvCall CallGetAccountSummary :: EvPut (MsgLog LogBatchTarget)
        :: EvCall CallCloseAllPositions :: after /\
    ~ In (EvCall CallGetAccountSummary) after.
Proof.
  unfold batch_check, bind, try_except, trader_call, put, assign, self, ret.
  run_ops; cbn; intros Hin;
    first [ eexists; split; [reflexivity | split; [reflexivity | not_among] ]
          | exfalso; revert Hin; not_among ].
Qed.

Lemma evaluate_tick_reads_no_equity (t : Worker) (s : Sys W) :
  ~ In (EvCall CallGetAccountSummary) (evaluate_tick t s).2.
Proof.
  unfold evaluate_tick, publish_signal, bind, trader_call, put, emit, ret.
  run_ops; not_among.
Qed.

(** C1: an iteration of the session loop closes all positions if and only
    if, at its top, the batch counter has reached the batch size and the
    equity just read (the summary's equity entry, 0.0 when it is missing,
    None or zero) minus the batch's starting equity is at least the target.
    Below the batch size nothing is closed, whatever the equity; and an
    iteration never closes twice. *)
Theorem batch_flatten_iff (s : Sys W) (t : Worker) :
  (In (EvCall CallCloseAllPositions) (_scalp_loop_iteration t s).2 <->
   batch_size (page s) <= current_batch_trades (page s) /\
   exists summary w1,
     get_account_summary (world s) = (Returned summary, w1) /\
     PrimFloat.leb (w_batch_target t)
       (PrimFloat.sub
          match summary with
          | Some e => if PrimFloat.eqb e 0%float then 0%float else e
          | None => 0%float
          end
          (batch_start_equity (page s))) = true) /\
  (current_batch_trades (page s) < batch_size (page s) ->
   count is_flatten (_scalp_loop_iteration t s).2 = 0%nat) /\
  (count is_flatten (_scalp_loop_iteration t s).2 <= 1)%nat.
Proof.
  unfold count. rewrite in_flatten_filter, iteration_flatten_events.
  rewrite <- in_flatten_filter.
  split; [exact (batch_check_flatten (w_batch_target t) s) |].
  split.
  - intros Hlt. rewrite batch_check_not_due by exact Hlt. reflexivity.
  - apply (batch_check_frame (w_batch_target t) s).
Qed.

(** C2, as the code has it: an iteration that flattens reads the account
    summary first, then announces and makes the close, and reads the
    summary no more; the batch counter is reset to 0 and the baseline
    becomes the equity of that one reading, made before the close (the
    summary's equity entry, 0.0 when it is missing, None or zero). *)
Theorem batch_reset_to_checked_equity (s : Sys W) (t : Worker)
    (Hflatten : In (EvCall CallCloseAllPositions) (_scalp_loop_iteration t s).2) :
  exists summary w1 after,
    get_account_summary (world s) = (Returned summary, w1) /\
    (_scalp_loop_iteration t s).2
    = EvCall CallGetAccountSummary :: EvPut (MsgLog LogBatchTarget)
        :: EvCall CallCloseAllPositions :: after /\
    ~ In (EvCall CallGetAccountSummary) after /\
    current_batch_trades (page (_scalp_loop_iteration t s).1.2) = 0 /\
    batch_start_equity (page (_scalp_loop_iteration t s).1.2)
    = match summary with
      | Some e => if PrimFloat.eqb e 0%float then 0%float else e
      | None => 0%float
      end.
Proof.
  rewrite in_flatten_filter, iteration_flatten_events in Hflatten.
  rewrite <- in_flatten_filter in Hflatten.
  destruct (batch_check_flatten_events _ _ Hflatten) as (after1 & Hret & Hev & Hno).
  apply batch_check_flatten in Hflatten.
  destruct Hflatten as (Hge & summary & w1 & Hsum & Hreached).
  destruct (batch_check_reset _ _ _ _ Hge Hsum Hreached) as (_ & Hcount & Hbase).
  rewrite iteration_page.
  unfold _scalp_loop_iteration, bind.
  destruct (batch_check (w_batch_target t) s) as [[r s1] ev1].
  cbn [fst snd] in *. subst r ev1.
  pose proof (evaluate_tick_reads_no_equity t s1) as Hno2.
  destruct (evaluate_tick t s1) as [[r2 s2] ev2]. cbn [fst snd] in *.
  exists summary, w1, (after1 ++ ev2).
  split; [exact Hsum |]. split; [reflexivity |].
  split; [rewrite in_app_iff; tauto |].
  split; [exact Hcount | exact Hbase].
Qed.

(** *** What each operation leaves alone *)

Lemma count_app (f : Event -> bool) (ev1 ev2 : list Event) :
  count f (ev1 ++ ev2) = (count f ev1 + count f ev2)%nat.
Proof.
  unfold count. rewrite List.filter_app. apply length_app.
Qed.

(** The handler of a trade request raises each counter by the same amount,
    0 or 1, and touches neither the flag nor the threads. *)
Lemma execute_trade_frame (t : TradeIntent) (s : Sys W) :
  threads (_execute_trade t s).1.2 = threads s /\
  is_scalping (page (_execute_trade t s).1.2) = is_scalping (page s) /\
  count is_intent (_execute_trade t s).2 = 0%nat /\
  count is_flatten (_execute_trade t s).2 = 0%nat /\
  exists k, 0 <= k /\
    total_trades (page (_execute_trade t s).1.2) = total_trades (page s) + k /\
    current_batch_trades (page (_execute_trade t s).1.2)
      = current_batch_trades (page s) + k.
Proof.
  unfold _execute_trade, bind, trader_call, _log, assign, self.
  run_ops; repeat apply conj; auto;
    solve [exists 0; cbn; lia | exists 1; cbn; lia].
Qed.

Lemma dispatch_frame (m : UiMsg) (s : Sys W) :
  threads (dispatch m s).1.2 = threads s /\
  is_scalping (page (dispatch m s).1.2) = is_scalping (page s) /\
  count is_intent (dispatch m s).2 = 0%nat /\
  count is_flatten (dispatch m s).2 = 0%nat /\
  exists k, 0 <= k /\
    total_trades (page (dispatch m s).1.2) = total_trades (page s) + k /\
    current_batch_trades (page (dispatch m s).1.2)
      = current_batch_trades (page s) + k.
Proof.
  destruct m as [data | data]; [| apply execute_trade_frame].
  cbn. repeat apply conj; auto. exists 0. lia.
Qed.

Lemma process_messages_empty (fuel : nat) (s : Sys W) :
  ui_queue s = [] -> process_messages (S fuel) s = (Returned tt, s, []).
Proof.
  intros Hqueue. cbn [process_messages]. unfold bind, get_nowait.
  rewrite Hqueue. reflexivity.
Qed.

Lemma process_messages_next (fuel : nat) (s : Sys W) (m : UiMsg)
    (rest : list UiMsg) :
  ui_queue s = m :: rest ->
  process_messages (S fuel) s
  = match dispatch m (with_ui_queue rest s) with
    | (Returned _, s1, ev1) =>
        match process_messages fuel s1 with
        | (r, s2, ev2) => (r, s2, ev1 ++ ev2)
        end
    | (Raised e, s1, ev1) => (Raised e, s1, ev1)
    end.
Proof.
  intros Hqueue. cbn [process_messages]. unfold bind, get_nowait.
  rewrite Hqueue.
  destruct (dispatch m (with_ui_queue rest s)) as [[[[] | e] s1] ev1];
    [| reflexivity].
  destruct (process_messages fuel s1) as [[r2 s2] ev2]. reflexivity.
Qed.

Lemma process_messages_frame (fuel : nat) (s : Sys W) :
  threads (process_messages fuel s).1.2 = threads s /\
  is_scalping (page (process_messages fuel s).1.2) = is_scalping (page s) /\
  count is_intent (process_messages fuel s).2 = 0%nat /\
  count is_flatten (process_messages fuel s).2 = 0%nat /\
  exists k, 0 <= k /\
    total_trades (page (process_messages fuel s).1.2) = total_trades (page s) + k /\
    current_batch_trades (page (process_messages fuel s).1.2)
      = current_batch_trades (page s) + k.
Proof.
  revert s. induction fuel as [| fuel IH]; intros s.
  { cbn. repeat apply conj; auto. exists 0. lia. }
  destruct (ui_queue s) as [| m rest] eqn:Hqueue.
  { rewrite (process_messages_empty fuel s Hqueue).
    cbn. repeat apply conj; auto. exists 0. lia. }
  rewrite (process_messages_next fuel s m rest Hqueue).
  pose proof (dispatch_frame m (with_ui_queue rest s))
    as (Hthreads & Hflag & Hintent & Hflat & k1 & Hk1 & Htotal & Hbatch).
  destruct (dispatch m (with_ui_queue rest s)) as [[[[] | e] s1] ev1];
    cbn [fst snd page threads with_ui_queue] in *.
  - pose proof (IH s1)
      as (Hthreads2 & Hflag2 & Hintent2 & Hflat2 & k2 & Hk2 & Htotal2 & Hbatch2).
    destruct (process_messages fuel s1) as [[r2 s2] ev2].
    cbn [fst snd] in *. rewrite !count_app.
    repeat apply conj; try congruence; try lia.
    exists (k1 + k2). lia.
  - repeat apply conj; auto. exists k1. lia.
Qed.

(** The handlers leave the queue alone, so the consumer's loop reaches
    [queue.Empty]: unless a handler raises, the queue ends up empty. *)
Lemma dispatch_queue (m : UiMsg) (s : Sys W) :
  ui_queue (dispatch m s).1.2 = ui_queue s.
Proof.
  destruct m as [data | data]; [reflexivity |].
  unfold dispatch, _execute_trade, bind, trader_call, _log, assign, self.
  run_ops; reflexivity.
Qed.

Lemma process_messages_drains (fuel : nat) (s : Sys W) :
  (length (ui_queue s) < fuel)%nat ->
  (process_messages fuel s).1.1 = Returned tt ->
  ui_queue (process_messages fuel s).1.2 = [].
Proof.
  revert s. induction fuel as [| fuel IH]; intros s Hfuel Hret; [lia |].
  destruct (ui_queue s) as [| m rest] eqn:Hqueue.
  { rewrite (process_messages_empty fuel s Hqueue). exact Hqueue. }
  rewrite (process_messages_next fuel s m rest Hqueue) in Hret |- *.
  pose proof (dispatch_queue m (with_ui_queue rest s)) as Hsame.
  destruct (dispatch m (with_ui_queue rest s)) as [[[[] | e] s1] ev1];
    cbn [fst snd ui_queue with_ui_queue] in *; [| discriminate].
  specialize (IH s1).
  destruct (process_messages fuel s1) as [[r2 s2] ev2].
  cbn [fst snd length] in *. apply IH; [rewrite Hsame; lia | exact Hret].
Qed.

Lemma process_ui_queue_drains (s : Sys W) :
  (_process_ui_queue s).1.1 = Returned tt ->
  ui_queue (_process_ui_queue s).1.2 = [].
Proof.
  unfold _process_ui_queue. apply process_messages_drains. lia.
Qed.

Lemma stop_scalping_frame (s : Sys W) :
  threads (stop_scalping s).1.2 = threads s /\
  is_scalping (page (stop_scalping s).1.2) = false /\
  count is_intent (stop_scalping s).2 = 0%nat /\
  total_trades (page (stop_scalping s).1.2) = total_trades (page s) /\
  current_batch_trades (page (stop_scalping s).1.2) = current_batch_trades (page s).
Proof.
  unfold stop_scalping, _toggle_scalping_ui, bind, try_except, trader_call,
    _log, assign, self, ret.
  cbn [page]. destruct (is_scalping (page s)) eqn:Hflag; [| cbn; auto].
  run_ops; repeat split; auto.
Qed.

Lemma readiness_display_frame (s : Sys W) :
  threads (_update_data_readiness_display s).1.2 = threads s /\
  is_scalping (page (_update_data_readiness_display s).1.2) = is_scalping (page s) /\
  count is_intent (_update_data_readiness_display s).2 = 0%nat /\
  total_trades (page (_update_data_readiness_display s).1.2) = total_trades (page s) /\
  current_batch_trades (page (_update_data_readiness_display s).1.2)
    = current_batch_trades (page s).
Proof.
  unfold _update_data_readiness_display, bind, trader_call, _log, assign, self.
  run_ops; repeat split; auto.
Qed.

Lemma start_scalping_frame (s : Sys W) :
  total_trades (page (start_scalping s).1.2) = total_trades (page s) /\
  (current_batch_trades (page (start_scalping s).1.2) = current_batch_trades (page s) \/
   current_batch_trades (page (start_scalping s).1.2) = 0).
Proof.
  unfold start_scalping, _toggle_scalping_ui, bind, trader_call, thread_start,
    emit, _log, assign, self.
  run_ops; split; auto.
Qed.

Lemma iteration_frame (t : Worker) (s : Sys W) :
  threads (_scalp_loop_iteration t s).1.2 = threads s /\
  is_scalping (page (_scalp_loop_iteration t s).1.2) = is_scalping (page s) /\
  total_trades (page (_scalp_loop_iteration t s).1.2) = total_trades (page s) /\
  (current_batch_trades (page (_scalp_loop_iteration t s).1.2)
     = current_batch_trades (page s) \/
   current_batch_trades (page (_scalp_loop_iteration t s).1.2) = 0) /\
  (count is_intent (_scalp_loop_iteration t s).2 <= 1)%nat.
Proof.
  pose proof (batch_check_frame (w_batch_target t) s)
    as (Hthreads & Hflag & Htotal & Hbatch & Hintent & _).
  rewrite iteration_page.
  repeat apply conj; try assumption.
  - unfold _scalp_loop_iteration, bind.
    destruct (batch_check (w_batch_target t) s) as [[[[] | e] s1] ev1];
      cbn [fst snd] in *; [| assumption].
    pose proof (evaluate_tick_frame t s1) as (_ & Hthreads2 & _).
    destruct (evaluate_tick t s1) as [[r2 s2] ev2]. cbn [fst snd] in *.
    congruence.
  - unfold _scalp_loop_iteration, bind.
    destruct (batch_check (w_batch_target t) s) as [[[[] | e] s1] ev1];
      cbn [fst snd] in *; [| lia].
    pose proof (evaluate_tick_frame t s1) as (_ & _ & _ & _ & Hintent2).
    destruct (evaluate_tick t s1) as [[r2 s2] ev2]. cbn [fst snd] in *.
    rewrite count_app. lia.
Qed.

(** One move of a scalping thread, case by case. *)
Lemma scalp_loop_move (i : nat) (s : Sys W) :
  (threads s !! i = None /\ _scalp_loop i s = (s, [])) \/
  exists t t',
    threads s !! i = Some t /\
    threads (_scalp_loop i s).1 = <[i := t']> (threads s) /\
    is_scalping (page (_scalp_loop i s).1) = is_scalping (page s) /\
    total_trades (page (_scalp_loop i s).1) = total_trades (page s) /\
    (current_batch_trades (page (_scalp_loop i s).1) = current_batch_trades (page s) \/
     current_batch_trades (page (_scalp_loop i s).1) = 0) /\
    (count is_intent (_scalp_loop i s).2 <= if in_body t then 1 else 0)%nat /\
    match pc t with
    | AtLoopHead => pc t' = if is_scalping (page s) then InBody else Finished
    | InBody => pc t' = AtLoopHead \/ pc t' = Finished
    | Finished => pc t' = Finished
    end.
Proof.
  unfold _scalp_loop.
  destruct (threads s !! i) as [t |] eqn:Hlookup; [right | left; auto].
  unfold in_body. destruct (pc t) eqn:Hpc.
  - destruct (is_scalping (page s)) eqn:Hflag.
    + exists t, (set_pc InBody t). cbn. rewrite Hpc, ?Hflag.
      repeat apply conj; auto.
    + exists t, (set_pc Finished t). cbn. rewrite Hpc, ?Hflag.
      repeat apply conj; auto.
  - pose proof (iteration_frame t s)
      as (Hthreads & Hflag & Htotal & Hbatch & Hintent).
    destruct (_scalp_loop_iteration t s) as [[[[] | e] s1] ev1];
      cbn [fst snd] in *.
    + exists t, (set_pc AtLoopHead t). cbn. rewrite Hpc, Hthreads.
      repeat apply conj; auto.
    + exists t, (set_pc Finished t). cbn. rewrite Hpc, Hthreads.
      repeat apply conj; auto.
  - exists t, t. cbn. rewrite Hpc, list_insert_id by exact Hlookup.
    repeat apply conj; auto.
Qed.


(** *** The counters along a schedule *)

Lemma step_counters (a : Action) (s : Sys W) :
  exists k, 0 <= k /\
    total_trades (page (step a s).1) = total_trades (page s) + k /\
    (current_batch_trades (page (step a s).1) = current_batch_trades (page s) + k \/
     current_batch_trades (page (step a s).1) = 0).
Proof.
  destruct a as [| | | | f | i]; cbn [step]; unfold callback.
  - pose proof (start_scalping_frame s) as (Htotal & Hbatch).
    destruct (start_scalping s) as [[r s1] ev]. cbn [fst snd] in *.
    exists 0. split; [lia |]. split; [lia |].
    destruct Hbatch as [-> | ->]; [left; lia | right; reflexivity].
  - pose proof (stop_scalping_frame s) as (_ & _ & _ & Htotal & Hbatch).
    destruct (stop_scalping s) as [[r s1] ev]. cbn [fst snd] in *.
    exists 0. lia.
  - unfold _process_ui_queue.
    pose proof (process_messages_frame (S (length (ui_queue s))) s)
      as (_ & _ & _ & _ & k & Hk & Htotal & Hbatch).
    destruct (process_messages _ s) as [[r s1] ev]. cbn [fst snd] in *.
    exists k. auto.
  - pose proof (readiness_display_frame s) as (_ & _ & _ & Htotal & Hbatch).
    destruct (_update_data_readiness_display s) as [[r s1] ev].
    cbn [fst snd] in *. exists 0. lia.
  - exists 0. cbn. lia.
  - destruct (scalp_loop_move i s)
      as [[_ ->] | (t & t' & _ & _ & _ & Htotal & Hbatch & _)].
    + exists 0. cbn. lia.
    + exists 0. split; [lia |]. split; [lia |].
      destruct Hbatch as [-> | ->]; [left; lia | right; reflexivity].
Qed.

Lemma run_cons (a : Action) (rest : list Action) (s : Sys W) :
  run (a :: rest) s
  = ((run rest (step a s).1).1, (step a s).2 ++ (run rest (step a s).1).2).
Proof.
  cbn [run]. destruct (step a s) as [s1 ev1]. cbn [fst snd].
  destruct (run rest s1) as [s2 ev2]. reflexivity.
Qed.

Lemma run_counters (sched : list Action) (s : Sys W) :
  0 <= total_trades (page s) ->
  current_batch_trades (page s) <= total_trades (page s) ->
  0 <= total_trades (page (run sched s).1) /\
  current_batch_trades (page (run sched s).1) <= total_trades (page (run sched s).1).
Proof.
  revert s. induction sched as [| a rest IH]; intros s Hpos Hle.
  { cbn. lia. }
  rewrite run_cons. cbn [fst].
  destruct (step_counters a s) as (k & Hk & Htotal & Hbatch).
  apply IH; lia.
Qed.

(** *** Once the flag is down

    With [is_scalping] false and no new session begun, every action keeps
    the flag down, a trade request can only come from a thread that was
    inside an iteration, and every move brings the moving thread closer to
    its return. *)




(** C9: the stop command on a session that is not running changes nothing
    and calls nothing: the state, flag and buttons included, is returned as
    it was and no event (so no [close_all_positions]) happens. *)
Theorem stop_when_idle_is_noop (s : Sys W)
    (Hidle : is_scalping (page s) = false) :
  stop_scalping s = (Returned tt, s, []).
Proof.
  unfold stop_scalping, bind, self. rewrite Hidle. reflexivity.
Qed.

(** C5: a trade request whose reference price is [None] makes no call on
    the broker (no order), leaves both counters as they were, and only
    appends the "skipped" line to the log; the queue consumer takes the
    message off the queue and puts nothing back; and a loop iteration whose
    price fetch answers [None] asks no strategy and publishes nothing. *)
Theorem null_price_submits_nothing (s : Sys W) (t : TradeIntent)
    (Hnull : price t = None) :
  let logged := with_page (set_output (output (page s) ++ [LogSkipped]) (page s)) s in
  _execute_trade t s = (Returned tt, logged, []) /\
  total_trades (page logged) = total_trades (page s) /\
  current_batch_trades (page logged) = current_batch_trades (page s) /\
  callback _process_ui_queue (with_ui_queue [MsgExecuteTrade t] s)
    = (with_ui_queue [] logged, []) /\
  (forall (w : Worker) (w2 : W),
     let checked := batch_check (w_batch_target w) s in
     checked.1.1 = Returned tt ->
     get_market_price (w_symbol w) (world checked.1.2) = (Returned None, w2) ->
     _scalp_loop_iteration w s
       = (Returned tt, with_world w2 checked.1.2,
          checked.2 ++ [EvCall (CallGetMarketPrice (w_symbol w)); EvSleep])).
Proof.
  assert (Hexec : _execute_trade t s
    = (Returned tt,
       with_page (set_output (output (page s) ++ [LogSkipped]) (page s)) s, [])).
  { unfold _execute_trade. rewrite Hnull. reflexivity. }
  cbn zeta. repeat split.
  - exact Hexec.
  - unfold callback, _process_ui_queue. cbn [length ui_queue with_ui_queue].
    unfold process_messages, bind, get_nowait, dispatch.
    cbn [ui_queue with_ui_queue page world threads].
    unfold _execute_trade. rewrite Hnull. reflexivity.
  - intros w w2 Hret Hprice.
    unfold _scalp_loop_iteration, evaluate_tick, bind, trader_call.
    destruct (batch_check (w_batch_target w) s) as [[r1 s1] ev1].
    cbn in Hret, Hprice |- *. subst r1. rewrite Hprice. cbn.
    rewrite <- ?app_assoc. reflexivity.
Qed.

(** C6: when the broker answers an order with success, [total_trades] and
    the batch counter both grow by one; when it answers with failure, both
    stay as they were and the log receives the broker's message. *)
Theorem order_reply_updates_counters (s : Sys W) (t : TradeIntent)
    (px : float) (success : bool) (message : string) (w1 : W)
    (Hprice : price t = Some px)
    (Hreply : place_market_order (symbol t) (size t) (side t)
                (resolve_pips (tp_offset_strategy t) (tp_pips_gui t))
                (resolve_pips (sl_offset_strategy t) (sl_pips_gui t)) (world s)
              = (Returned (success, message), w1)) :
  let after := (_execute_trade t s).1.2 in
  (_execute_trade t s).1.1 = Returned tt /\
  count is_order (_execute_trade t s).2 = 1%nat /\
  total_trades (page after)
    = (if success then total_trades (page s) + 1 else total_trades (page s)) /\
  current_batch_trades (page after)
    = (if success then current_batch_trades (page s) + 1
       else current_batch_trades (page s)) /\
  output (page after)
    = output (page s)
      ++ [LogAttempt (side t) (size t) (symbol t);
          if success then LogOrderOk message else LogOrderFailed message].
Proof.
  unfold _execute_trade. rewrite Hprice.
  unfold bind, trader_call, _log, assign, self.
  cbn [page world ui_queue threads with_page with_world].
  rewrite Hreply. destruct success; cbn; rewrite <- ?app_assoc; auto.
Qed.

(** C3: the distances sent with the order are the strategy's offsets where
    the strategy gave them and the caller's defaults where it gave [None];
    a given offset is never replaced by the default. *)
Theorem strategy_offset_precedence (s : Sys W) (t : TradeIntent) (px : float)
    (Hprice : price t = Some px) :
  exists take_profit_pips stop_loss_pips,
    List.filter is_order (_execute_trade t s).2
      = [EvCall (CallPlaceMarketOrder (symbol t) (size t) (side t)
                   take_profit_pips stop_loss_pips)] /\
    (forall offset, tp_offset_strategy t = Some offset -> take_profit_pips = offset) /\
    (tp_offset_strategy t = None -> take_profit_pips = tp_pips_gui t) /\
    (forall offset, sl_offset_strategy t = Some offset -> stop_loss_pips = offset) /\
    (sl_offset_strategy t = None -> stop_loss_pips = sl_pips_gui t).
Proof.
  exists (resolve_pips (tp_offset_strategy t) (tp_pips_gui t)),
         (resolve_pips (sl_offset_strategy t) (sl_pips_gui t)).
  split.
  - unfold _execute_trade. rewrite Hprice.
    unfold bind, trader_call, _log, assign, self.
    cbn [page world ui_queue threads with_page with_world].
    destruct (place_market_order _ _ _ _ _ _) as [[[ok msg]|e] w1];
      [destruct ok|]; reflexivity.
  - repeat split; intros; unfold resolve_pips;
      repeat match goal with H : _ = _ |- _ => rewrite H end; reflexivity.
Qed.

(** C10: the batch counter never exceeds [total_trades].  Both start at 0;
    every action adds the same amount to both or sets the batch counter to
    0, and never lowers [total_trades]; so after any schedule of actions
    from the initial state the batch counter is at most [total_trades]. *)
Theorem batch_counter_at_most_total :
  (forall (w : W) (f : Form),
     total_trades (page (init_sys w f)) = 0 /\
     current_batch_trades (page (init_sys w f)) = 0) /\
  (forall (a : Action) (s : Sys W),
     exists k, 0 <= k /\
       total_trades (page (step a s).1) = total_trades (page s) + k /\
       (current_batch_trades (page (step a s).1) = current_batch_trades (page s) + k \/
        current_batch_trades (page (step a s).1) = 0)) /\
  (forall (w : W) (f : Form) (sched : list Action),
     current_batch_trades (page (run sched (init_sys w f)).1)
     <= total_trades (page (run sched (init_sys w f)).1)).
Proof.
  split; [intros w f; split; reflexivity |].
  split; [exact step_counters |].
  intros w f sched. apply run_counters; cbn; lia.
Qed.


End SessionFacts.

(** ** The operations on the scripted broker *)

Lemma float_1050_is_not_1048 : 1050%float <> 1048%float.
Proof.
  intros Heq.
  apply (f_equal (fun x => PrimFloat.leb x 1049%float)) in Heq.
  vm_compute in Heq. discriminate.
Qed.

Lemma stop_when_idle_is_noop_witness :
  is_scalping (page (init_sys script0 (init_form 50%float))) = false /\
  stop_scalping (init_sys script0 (init_form 50%float))
  = (Returned tt, init_sys script0 (init_form 50%float), []).
Proof.
  split; [reflexivity |].
  apply (stop_when_idle_is_noop (init_sys script0 (init_form 50%float))).
  reflexivity.
Defined.

Lemma null_price_submits_nothing_witness :
  price (intent0 None) = None /\
  _execute_trade (intent0 None) sys0
  = (Returned tt,
     with_page (set_output (output (page sys0) ++ [LogSkipped]) (page sys0)) sys0,
     []).
Proof.
  split; [reflexivity |].
  apply (null_price_submits_nothing sys0 (intent0 None)). reflexivity.
Defined.

Lemma order_reply_updates_counters_witness :
  price (intent0 (Some 1%float)) = Some 1%float /\
  total_trades (page (_execute_trade (intent0 (Some 1%float)) sys0).1.2) = 6 /\
  current_batch_trades (page (_execute_trade (intent0 (Some 1%float)) sys0).1.2) = 6.
Proof.
  split; [reflexivity |].
  pose proof (order_reply_updates_counters sys0 (intent0 (Some 1%float))
                1%float true "ok" script0 eq_refl eq_refl)
    as (_ & _ & Htotal & Hbatch & _).
  split; [exact Htotal | exact Hbatch].
Defined.

Lemma strategy_offset_precedence_witness :
  price (intent0 (Some 1%float)) = Some 1%float /\
  exists take_profit_pips stop_loss_pips,
    List.filter is_order (_execute_trade (intent0 (Some 1%float)) sys0).2
      = [EvCall (CallPlaceMarketOrder "EURUSD" 1%float "buy"
                   take_profit_pips stop_loss_pips)] /\
    take_profit_pips = 10%float /\ stop_loss_pips = 3%float.
Proof.
  split; [reflexivity |].
  destruct (strategy_offset_precedence sys0 (intent0 (Some 1%float)) 1%float eq_refl)
    as (tp & sl & Hcall & _ & Htp & Hsl & _).
  exists tp, sl. split; [exact Hcall |]. split.
  - apply Htp. reflexivity.
  - apply (Hsl 3%float). reflexivity.
Defined.

(** The example of the specification: caller default 5, strategy offset 3
    gives 3; without a strategy offset the default 5 stands. *)
Example resolve_pips_example :
  resolve_pips (Some 3%float) 5%float = 3%float /\
  resolve_pips None 5%float = 5%float.
Proof. split; reflexivity. Qed.

Lemma flatten_happens_in_sys0 :
  In (EvCall CallCloseAllPositions)
     (_scalp_loop_iteration (worker0 InBody) sys0).2.
Proof.
  vm_compute. right. right. left. reflexivity.
Qed.

Lemma batch_reset_to_checked_equity_witness :
  In (EvCall CallCloseAllPositions)
     (_scalp_loop_iteration (worker0 InBody) sys0).2 /\
  exists summary w1 after,
    get_account_summary (world sys0) = (Returned summary, w1) /\
    (_scalp_loop_iteration (worker0 InBody) sys0).2
    = EvCall CallGetAccountSummary :: EvPut (MsgLog LogBatchTarget)
        :: EvCall CallCloseAllPositions :: after /\
    ~ In (EvCall CallGetAccountSummary) after /\
    current_batch_trades (page (_scalp_loop_iteration (worker0 InBody) sys0).1.2) = 0 /\
    batch_start_equity (page (_scalp_loop_iteration (worker0 InBody) sys0).1.2)
    = match summary with
      | Some e => if PrimFloat.eqb e 0%float then 0%float else e
      | None => 0%float
      end.
Proof.
  assert (Hflatten : In (EvCall CallCloseAllPositions)
                        (_scalp_loop_iteration (worker0 InBody) sys0).2).
  { vm_compute. right. right. left. reflexivity. }
  split; [exact Hflatten |].
  apply (batch_reset_to_checked_equity sys0 (worker0 InBody) Hflatten).
Defined.

(** C2 as stated fails: the iteration below flattens at equity 1050; the
    broker then reports 1048, and the baseline is 1050. *)
Lemma baseline_is_not_post_close_equity :
  ~ (forall (s : Sys Script) (t : Worker),
       In (EvCall CallCloseAllPositions) (_scalp_loop_iteration t s).2 ->
       forall entry w,
         get_account_summary (world (_scalp_loop_iteration t s).1.2)
           = (Returned entry, w) ->
         batch_start_equity (page (_scalp_loop_iteration t s).1.2)
           = equity_of entry).
Proof.
  intros Hclaim.
  specialize (Hclaim sys0 (worker0 InBody) flatten_happens_in_sys0
                (Some 1048%float) (script_after_close script0) eq_refl).
  vm_compute in Hclaim. exact (float_1050_is_not_1048 Hclaim).
Qed.

(** The example of the specification: batch size 5, target 50, baseline
    1000.  After five trades an equity of 1049 closes nothing; an equity of
    1050 closes the positions and the baseline becomes 1050. *)
Example batch_example_1049 :
  count is_flatten (_scalp_loop_iteration (worker0 InBody) (sys_equity 1049%float)).2
    = 0%nat /\
  batch_start_equity
    (page (_scalp_loop_iteration (worker0 InBody) (sys_equity 1049%float)).1.2)
    = 1000%float /\
  current_batch_trades
    (page (_scalp_loop_iteration (worker0 InBody) (sys_equity 1049%float)).1.2)
    = 5.
Proof. repeat split; vm_compute; reflexivity. Qed.

Example batch_example_1050 :
  count is_flatten (_scalp_loop_iteration (worker0 InBody) (sys_equity 1050%float)).2
    = 1%nat /\
  batch_start_equity
    (page (_scalp_loop_iteration (worker0 InBody) (sys_equity 1050%float)).1.2)
    = 1050%float /\
  current_batch_trades
    (page (_scalp_loop_iteration (worker0 InBody) (sys_equity 1050%float)).1.2)
    = 0.
Proof. repeat split; vm_compute; reflexivity. Qed.



(** A run on the scripted broker: the thread in flight publishes its trade
    request after the stop, tests the flag and returns; the consumer then
    executes the request; scheduling the thread again does nothing. *)
Example stop_run_example :
  let r := run [Stop; Schedule 0; Schedule 0; ProcessQueue; Schedule 0] sys0 in
  count is_intent r.2 = 1%nat /\
  count is_flatten r.2 = 1%nat /\
  count is_order r.2 = 1%nat /\
  List.map pc (threads r.1) = [Finished] /\
  total_trades (page r.1) = 6 /\
  current_batch_trades (page r.1) = 6.
Proof. vm_compute. repeat split; reflexivity. Qed.

(** Why the schedules above exclude [Begin]: the flag is shared, so a
    session begun before an old thread has tested the flag lets that thread
    go on beside the new one. *)
Example begin_raises_the_flag_again :
  let r := run [Stop; Begin; Schedule 0; Schedule 0; Schedule 1] sys0 in
  is_scalping (page r.1) = true /\
  List.map pc (threads r.1) = [InBody; InBody].
Proof. vm_compute. split; reflexivity. Qed.

(** ** More on the session operations *)

Section SessionMore.
Context {W : Type} `{!Trader W} `{!Strategies W}.

Ltac next_case :=
  match goal with
  | |- context [match ?x with _ => _ end] =>
      lazymatch x with
      | context [match _ with _ => _ end] => fail
      | _ => destruct x eqn:?
      end
  end.

Ltac page_simpl :=
  cbn [page world ui_queue threads with_page with_world with_ui_queue
       with_threads fst snd count List.filter length app
       is_flatten is_order is_intent is_thread_start is_summary_call
       form is_scalping start_button stop_button total_trades
       current_batch_trades batch_start_equity batch_size trades_var output
       data_readiness_var data_readiness_label
       set_form set_is_scalping set_start_button set_stop_button
       set_total_trades set_current_batch_trades set_batch_start_equity
       set_trades_var set_output set_data_readiness_var
       set_data_readiness_label] in *.

Ltac run_all := repeat (page_simpl; try next_case).

(** *** Beginning a session *)

(** X1: [start_scalping] with an unknown strategy name, or with an account
    summary call that raises, starts no thread and leaves the flag, the
    buttons, the counters and the baseline as they were. *)
Theorem start_scalping_rejected (s : Sys W)
    (Hreject : strategy_map (strategy_var (form (page s))) = None \/
               exists e w1, get_account_summary (world s) = (Raised e, w1)) :
  threads (start_scalping s).1.2 = threads s /\
  count is_thread_start (start_scalping s).2 = 0%nat /\
  is_scalping (page (start_scalping s).1.2) = is_scalping (page s) /\
  start_button (page (start_scalping s).1.2) = start_button (page s) /\
  stop_button (page (start_scalping s).1.2) = stop_button (page s) /\
  total_trades (page (start_scalping s).1.2) = total_trades (page s) /\
  current_batch_trades (page (start_scalping s).1.2) = current_batch_trades (page s) /\
  batch_start_equity (page (start_scalping s).1.2) = batch_start_equity (page s).
Proof.
  unfold start_scalping, _toggle_scalping_ui, bind, trader_call, thread_start,
    emit, _log, assign, self.
  page_simpl.
  destruct (strategy_map (strategy_var (form (page s)))) as [cls |] eqn:Hmap.
  - destruct Hreject as [Hnone | (e & w1 & Hraise)]; [discriminate |].
    page_simpl. rewrite Hraise. page_simpl. repeat apply conj; reflexivity.
  - page_simpl. repeat apply conj; reflexivity.
Qed.

(** The characters [str.replace("/", "")] keeps are those of the string,
    slashes left out, in their order. *)
Lemma remove_slashes_ascii (s : string) :
  list_ascii_of_string (remove_slashes s)
  = List.filter (fun c => negb (Ascii.eqb c "/"%char)) (list_ascii_of_string s).
Proof.
  induction s as [| c rest IH]; [reflexivity |].
  cbn [remove_slashes list_ascii_of_string List.filter].
  destruct (Ascii.eqb c "/"%char); cbn [negb list_ascii_of_string]; [exact IH |].
  rewrite IH. reflexivity.
Qed.

(** X2: whenever [start_scalping] starts a thread, the strategy name was a
    known one and the account summary was returned; it starts exactly one
    thread, at the loop head, whose arguments are the form's values, the
    symbol being the form's symbol with every slash left out and nothing
    else changed; the flag is up, the start button disabled and the stop
    button enabled, the batch counter is 0 and the baseline is the
    summary's equity entry, 0.0 when that is missing, None or zero. *)
Theorem start_scalping_started (s : Sys W)
    (Hstarted : In EvThreadStart (start_scalping s).2) :
  exists cls summary w1 sym,
    strategy_map (strategy_var (form (page s))) = Some cls /\
    get_account_summary (world s) = (Returned summary, w1) /\
    list_ascii_of_string sym
    = List.filter (fun c => negb (Ascii.eqb c "/"%char))
        (list_ascii_of_string (symbol_var (form (page s)))) /\
    threads (start_scalping s).1.2
    = threads s ++
      [{| pc := AtLoopHead; w_symbol := sym;
          w_tp := tp_var (form (page s)); w_sl := sl_var (form (page s));
          w_size := size_var (form (page s)); w_strategy := cls;
          w_batch_target := batch_profit_var (form (page s)) |}] /\
    count is_thread_start (start_scalping s).2 = 1%nat /\
    is_scalping (page (start_scalping s).1.2) = true /\
    start_button (page (start_scalping s).1.2) = disabled /\
    stop_button (page (start_scalping s).1.2) = normal /\
    current_batch_trades (page (start_scalping s).1.2) = 0 /\
    batch_start_equity (page (start_scalping s).1.2)
    = match summary with
      | Some e => if PrimFloat.eqb e 0%float then 0%float else e
      | None => 0%float
      end /\
    total_trades (page (start_scalping s).1.2) = total_trades (page s).
Proof.
  revert Hstarted.
  unfold start_scalping, _toggle_scalping_ui, bind, trader_call, thread_start,
    emit, _log, assign, self.
  page_simpl.
  destruct (strategy_map (strategy_var (form (page s)))) as [cls |] eqn:Hstrategy;
    page_simpl; [| intros [Habs | []]; discriminate Habs].
  destruct (get_account_summary (world s)) as [[summary | e] w1] eqn:Hsummary;
    page_simpl; [| intros [Habs | []]; discriminate Habs].
  intros _.
  exists cls, summary, w1, (remove_slashes (symbol_var (form (page s)))).
  split; [reflexivity |]. split; [reflexivity |].
  split; [apply remove_slashes_ascii |].
  repeat apply conj; reflexivity.
Qed.

(** *** What every action keeps *)

Ltac keep_consistent :=
  unfold page_consistent; run_all;
  intros (Hsize & Hshown & Hup & Hdown);
  repeat apply conj; auto;
  try (intros Hflag; first
         [ discriminate Hflag
         | solve [auto]
         | solve [congruence]
         | solve [apply Hup; congruence]
         | solve [apply Hdown; congruence]
         | solve [rewrite Hflag in *; cbn [negb] in *; try discriminate;
                  try specialize (Hup eq_refl); try specialize (Hdown eq_refl);
                  intuition (auto; congruence)] ]).

Lemma execute_trade_consistent (t : TradeIntent) (s : Sys W) :
  page_consistent (page s) -> page_consistent (page (_execute_trade t s).1.2).
Proof.
  unfold _execute_trade, bind, trader_call, _log, assign, self.
  keep_consistent.
Qed.

Lemma process_messages_consistent (fuel : nat) (s : Sys W) :
  page_consistent (page s) -> page_consistent (page (process_messages fuel s).1.2).
Proof.
  revert s. induction fuel as [| fuel IH]; intros s Hinv; [exact Hinv |].
  destruct (ui_queue s) as [| m rest] eqn:Hqueue.
  { rewrite (process_messages_empty fuel s Hqueue). exact Hinv. }
  rewrite (process_messages_next fuel s m rest Hqueue).
  assert (Hstep : page_consistent (page (dispatch m (with_ui_queue rest s)).1.2)).
  { destruct m as [data | data]; [exact Hinv |].
    apply execute_trade_consistent. exact Hinv. }
  destruct (dispatch m (with_ui_queue rest s)) as [[[[] | e] s1] ev1];
    cbn [fst snd] in *; [| exact Hstep].
  specialize (IH s1 Hstep).
  destruct (process_messages fuel s1) as [[r2 s2] ev2]. exact IH.
Qed.

Lemma start_scalping_consistent (s : Sys W) :
  page_consistent (page s) -> page_consistent (page (start_scalping s).1.2).
Proof.
  unfold start_scalping, _toggle_scalping_ui, bind, trader_call, thread_start,
    emit, _log, assign, self.
  keep_consistent.
Qed.

Lemma stop_scalping_consistent (s : Sys W) :
  page_consistent (page s) -> page_consistent (page (stop_scalping s).1.2).
Proof.
  unfold stop_scalping, _toggle_scalping_ui, bind, try_except, trader_call,
    _log, assign, self, ret.
  keep_consistent.
Qed.

Lemma readiness_display_consistent (s : Sys W) :
  page_consistent (page s) ->
  page_consistent (page (_update_data_readiness_display s).1.2).
Proof.
  unfold _update_data_readiness_display, bind, trader_call, _log, assign, self.
  keep_consistent.
Qed.

Lemma iteration_consistent (t : Worker) (s : Sys W) :
  page_consistent (page s) ->
  page_consistent (page (_scalp_loop_iteration t s).1.2).
Proof.
  rewrite iteration_page.
  unfold batch_check, bind, try_except, trader_call, put, assign, self, ret.
  keep_consistent.
Qed.

Lemma step_consistent (a : Action) (s : Sys W) :
  page_consistent (page s) -> page_consistent (page (step a s).1).
Proof.
  intros Hinv. destruct a as [| | | | f | i]; cbn [step]; unfold callback.
  - apply start_scalping_consistent in Hinv.
    destruct (start_scalping s) as [[r s1] ev]. exact Hinv.
  - apply stop_scalping_consistent in Hinv.
    destruct (stop_scalping s) as [[r s1] ev]. exact Hinv.
  - unfold _process_ui_queue.
    apply (process_messages_consistent (S (length (ui_queue s)))) in Hinv.
    destruct (process_messages _ s) as [[r s1] ev]. exact Hinv.
  - apply readiness_display_consistent in Hinv.
    destruct (_update_data_readiness_display s) as [[r s1] ev]. exact Hinv.
  - exact Hinv.
  - unfold _scalp_loop. destruct (threads s !! i) as [t |]; [| exact Hinv].
    destruct (pc t); [destruct (is_scalping (page s)); exact Hinv | | exact Hinv].
    apply (iteration_consistent t) in Hinv.
    destruct (_scalp_loop_iteration t s) as [[[[] | e] s1] ev]; exact Hinv.
Qed.

Lemma run_consistent (sched : list Action) (s : Sys W) :
  page_consistent (page s) -> page_consistent (page (run sched s).1).
Proof.
  revert s. induction sched as [| a rest IH]; intros s Hinv; [exact Hinv |].
  rewrite run_cons. cbn [fst]. apply IH, step_consistent, Hinv.
Qed.

Lemma init_consistent (w : W) (f : Form) : page_consistent (page (init_sys w f)).
Proof.
  unfold page_consistent. cbn. repeat apply conj; auto; discriminate.
Qed.

(** X3: after any schedule of actions from the initial state, the stop
    button is enabled exactly while the session flag is up, and the start
    button is never enabled while it is up. *)
Theorem buttons_follow_the_flag (w : W) (f : Form) (sched : list Action) :
  let p := page (run sched (init_sys w f)).1 in
  (stop_button p = normal <-> is_scalping p = true) /\
  (is_scalping p = true -> start_button p = disabled).
Proof.
  cbn zeta.
  destruct (run_consistent sched (init_sys w f) (init_consistent w f))
    as (_ & _ & Hup & Hdown).
  split; [split |].
  - intros Hstop. destruct (is_scalping _) eqn:Hflag; [reflexivity |].
    rewrite (Hdown eq_refl) in Hstop. discriminate.
  - intros Hflag. apply Hup, Hflag.
  - intros Hflag. apply Hup, Hflag.
Qed.

(** X4: after any schedule of actions from the initial state, the trade
    count shown on the page is the decimal text of [total_trades], and the
    batch size is still 5. *)
Theorem shown_trades_match_counter (w : W) (f : Form) (sched : list Action) :
  trades_var (page (run sched (init_sys w f)).1)
    = pretty (total_trades (page (run sched (init_sys w f)).1)) /\
  batch_size (page (run sched (init_sys w f)).1) = 5.
Proof.
  destruct (run_consistent sched (init_sys w f) (init_consistent w f))
    as (Hsize & Hshown & _).
  split; assumption.
Qed.

(** *** The readiness display *)

(** X5: when [_update_data_readiness_display] returns, the start button is
    enabled exactly if the trader is connected, no session is running, the
    selected strategy exists, and the bar counts the broker returned make
    the gate ready.  A disconnected trader is not asked for anything. *)
Theorem readiness_display_enables_start (s : Sys W)
    (Hreturned : (_update_data_readiness_display s).1.1 = Returned tt) :
  (start_button (page (_update_data_readiness_display s).1.2) = normal <->
   is_connected (world s) = true /\
   is_scalping (page s) = false /\
   exists cls available w1,
     strategy_map (strategy_var (form (page s))) = Some cls /\
     get_ohlc_bar_counts (remove_slashes (symbol_var (form (page s)))) (world s)
       = (Returned available, w1) /\
     all_ready (readiness_gate (get_required_bars cls) available) = true) /\
  (is_connected (world s) = false ->
   (_update_data_readiness_display s).2 = [] /\
   data_readiness_var (page (_update_data_readiness_display s).1.2)
     = "Trader disconnected").
Proof.
  revert Hreturned.
  unfold _update_data_readiness_display, bind, trader_call, _log, assign, self.
  page_simpl.
  destruct (is_connected (world s)) eqn:Hconnected; cbn [negb]; page_simpl.
  2:{ intros _. split; [| auto].
      split; [discriminate | intros (Habs & _); discriminate]. }
  destruct (strategy_map (strategy_var (form (page s)))) as [cls |] eqn:Hmap;
    page_simpl.
  2:{ intros _. split; [| discriminate].
      split; [discriminate |].
      intros (_ & _ & cls & available & w1 & Habs & _). discriminate. }
  destruct (get_ohlc_bar_counts _ (world s)) as [[available | e] w1] eqn:Hbars;
    page_simpl; [| discriminate].
  intros _. split; [| discriminate].
  destruct (all_ready (readiness_gate (get_required_bars cls) available))
    eqn:Hready; page_simpl.
  - destruct (is_scalping (page s)) eqn:Hflag; cbn [negb]; page_simpl.
    + split; [discriminate | intros (_ & Habs & _); discriminate].
    + split; [intros _ | reflexivity].
      repeat split. exists cls, available, w1. auto.
  - split; [discriminate |].
    intros (_ & _ & cls' & available' & w1' & Hcls & Havail & Hall).
    congruence.
Qed.

Lemma readiness_fold_messages available items acc :
  status_messages (fold_left (readiness_step available) items acc)
  = status_messages acc ++
    List.map (fun item => status_message item.1
                            (available_count available item.1) item.2) items.
Proof.
  revert acc. induction items as [| item items IH]; intros acc.
  { cbn. rewrite app_nil_r. reflexivity. }
  cbn [fold_left List.map]. rewrite IH. cbn [readiness_step status_messages].
  rewrite <- app_assoc. reflexivity.
Qed.

(** X6: for a strategy that requires bars, the gate reports one status
    line per required timeframe, in the order of the requirement map, each
    of the form "tf: available/required" in decimal digits, the available
    count being the one the bar-count map holds for the timeframe and 0 for
    a timeframe it does not hold. *)
Theorem status_messages_per_timeframe (required : list (string * Z))
    (available : gmap string Z) (Hsome : required <> []) :
  status_messages (readiness_gate required available)
  = List.map (fun item =>
                item.1 +:+ ": " +:+ pretty (default 0 (available !! item.1))
                  +:+ "/" +:+ pretty item.2) required.
Proof.
  destruct required as [| item items]; [congruence |].
  unfold readiness_gate. rewrite readiness_fold_messages. reflexivity.
Qed.

(** *** The queue consumer *)

Lemma dispatch_trace (m : UiMsg) (s : Sys W) :
  count is_order (dispatch m s).2 = (if submittable m then 1 else 0)%nat /\
  exists lines,
    output (page (dispatch m s).1.2) = output (page s) ++ lines /\
    omap log_line [m] `sublist_of` lines.
Proof.
  destruct m as [data | t].
  - split; [reflexivity |]. exists [data]. split; reflexivity.
  - unfold dispatch, submittable, _execute_trade, bind, trader_call, _log,
      assign, self.
    cbn [omap list_omap log_line].
    destruct (price t) as [px |]; run_all;
      (split; [reflexivity |]); eexists;
      (split; [rewrite <- ?app_assoc; reflexivity | apply sublist_nil_l]).
Qed.

Lemma process_messages_trace (fuel : nat) (s : Sys W) :
  (length (ui_queue s) < fuel)%nat ->
  exists done lines,
    ui_queue s = done ++ ui_queue (process_messages fuel s).1.2 /\
    count is_order (process_messages fuel s).2
      = length (List.filter submittable done) /\
    output (page (process_messages fuel s).1.2) = output (page s) ++ lines /\
    omap log_line done `sublist_of` lines /\
    ((process_messages fuel s).1.1 = Returned tt ->
     ui_queue (process_messages fuel s).1.2 = []).
Proof.
  revert s. induction fuel as [| fuel IH]; intros s Hfuel; [lia |].
  destruct (ui_queue s) as [| m rest] eqn:Hqueue.
  { rewrite (process_messages_empty fuel s Hqueue). exists [], [].
    cbn. rewrite app_nil_r. repeat apply conj; auto; constructor. }
  rewrite (process_messages_next fuel s m rest Hqueue).
  pose proof (dispatch_queue m (with_ui_queue rest s)) as Hsame.
  pose proof (dispatch_trace m (with_ui_queue rest s))
    as (Horder & lines1 & Hout1 & Hsub1).
  destruct (dispatch m (with_ui_queue rest s)) as [[[[] | e] s1] ev1];
    cbn [fst snd ui_queue with_ui_queue page length] in *.
  - destruct (IH s1 ltac:(rewrite Hsame; lia))
      as (done & lines2 & Hsplit & Horder2 & Hout2 & Hsub2 & Hempty).
    destruct (process_messages fuel s1) as [[r2 s2] ev2]. cbn [fst snd] in *.
    exists (m :: done), (lines1 ++ lines2).
    rewrite count_app, Horder, Horder2, Hout2, Hout1, <- app_assoc.
    repeat apply conj; auto.
    + cbn [app]. rewrite <- Hsplit, Hsame. reflexivity.
    + cbn [List.filter]. destruct (submittable m); reflexivity.
    + change (m :: done) with ([m] ++ done). rewrite omap_app.
      apply sublist_app; assumption.
  - exists [m], lines1. rewrite Hsame.
    repeat apply conj; auto; [| discriminate].
    rewrite Horder. cbn [List.filter]. destruct (submittable m); reflexivity.
Qed.

(** X7: the consumer submits each queued trade request at most once: the
    orders it places are those of the requests with a price among the
    messages it took off the queue, which form a prefix of the queue; what
    it leaves is the rest of the queue in its order; and unless a handler
    raises it leaves nothing. *)
Theorem queue_orders_submitted_once (s : Sys W) :
  exists done,
    ui_queue s = done ++ ui_queue (_process_ui_queue s).1.2 /\
    count is_order (_process_ui_queue s).2
      = length (List.filter submittable done) /\
    (count is_order (_process_ui_queue s).2
       <= length (List.filter submittable (ui_queue s)))%nat /\
    ((_process_ui_queue s).1.1 = Returned tt ->
     ui_queue (_process_ui_queue s).1.2 = [] /\
     count is_order (_process_ui_queue s).2
       = length (List.filter submittable (ui_queue s))).
Proof.
  unfold _process_ui_queue.
  destruct (process_messages_trace (S (length (ui_queue s))) s ltac:(lia))
    as (done & lines & Hsplit & Horder & _ & _ & Hempty).
  destruct (process_messages (S (length (ui_queue s))) s) as [[r final] ev].
  cbn [fst snd] in *.
  exists done. repeat apply conj; auto.
  - rewrite Horder, Hsplit, List.filter_app, length_app. lia.
  - intros Hret. split; [apply Hempty, Hret |].
    rewrite Horder, Hsplit, (Hempty Hret), app_nil_r. reflexivity.
Qed.

(** X8: the consumer only appends to the output box, and the log lines
    carried by the messages it took off the queue appear there in the order
    in which they were queued. *)
Theorem queue_logs_in_order (s : Sys W) :
  exists done lines,
    ui_queue s = done ++ ui_queue (_process_ui_queue s).1.2 /\
    output (page (_process_ui_queue s).1.2) = output (page s) ++ lines /\
    omap log_line done `sublist_of` lines.
Proof.
  unfold _process_ui_queue.
  destruct (process_messages_trace (S (length (ui_queue s))) s ltac:(lia))
    as (done & lines & Hsplit & _ & Hout & Hsub & _).
  exists done, lines. auto.
Qed.

(** *** What the loop publishes *)

Lemma batch_check_puts_no_intent (batch_target : float) (s : Sys W)
    (t : TradeIntent) :
  ~ In (EvPut (MsgExecuteTrade t)) (batch_check batch_target s).2.
Proof.
  unfold batch_check, bind, try_except, trader_call, put, assign, self, ret.
  run_all; cbn; intuition congruence.
Qed.

Lemma is_buy_or_sell_spec (trade_action : string) :
  is_buy_or_sell trade_action = true <->
  trade_action = "buy" \/ trade_action = "sell".
Proof.
  unfold is_buy_or_sell. rewrite orb_true_iff, !String.eqb_eq. reflexivity.
Qed.

Lemma evaluate_tick_intent (w : Worker) (s : Sys W) (t : TradeIntent) :
  In (EvPut (MsgExecuteTrade t)) (evaluate_tick w s).2 ->
  (exists px, price t = Some px) /\
  is_buy_or_sell (side t) = true /\
  symbol t = w_symbol w /\ size t = w_size w /\
  tp_pips_gui t = w_tp w /\ sl_pips_gui t = w_sl w.
Proof.
  unfold evaluate_tick, publish_signal, bind, trader_call, put, emit, ret.
  run_all; cbn; intros Hin;
    repeat match goal with
           | H : _ \/ _ |- _ => destruct H
           | H : False |- _ => destruct H
           | H : EvCall _ = EvPut _ |- _ => discriminate H
           | H : EvSleep = EvPut _ |- _ => discriminate H
           | H : EvPut (MsgLog _) = EvPut (MsgExecuteTrade _) |- _ => discriminate H
           | H : EvPut (MsgExecuteTrade _) = EvPut (MsgExecuteTrade _) |- _ =>
               injection H as <-
           end;
    cbn; repeat apply conj; eauto.
Qed.

(** X9: every trade request that an iteration of the loop puts on the
    queue has a price, a side that is "buy" or "sell", and the symbol,
    size and default distances the thread was started with; so the
    handler never skips it for a missing price. *)
Theorem published_intent_is_executable (w : Worker) (s : Sys W) (t : TradeIntent)
    (Hput : In (EvPut (MsgExecuteTrade t)) (_scalp_loop_iteration w s).2) :
  (exists px, price t = Some px) /\
  (side t = "buy" \/ side t = "sell") /\
  symbol t = w_symbol w /\ size t = w_size w /\
  tp_pips_gui t = w_tp w /\ sl_pips_gui t = w_sl w.
Proof.
  rewrite <- is_buy_or_sell_spec.
  revert Hput. unfold _scalp_loop_iteration, bind.
  pose proof (batch_check_puts_no_intent (w_batch_target w) s t) as Hnone.
  destruct (batch_check (w_batch_target w) s) as [[[[] | e] s1] ev1];
    cbn [fst snd] in *; [| tauto].
  pose proof (evaluate_tick_intent w s1 t) as Htick.
  destruct (evaluate_tick w s1) as [[r2 s2] ev2]. cbn [fst snd] in *.
  rewrite in_app_iff. intros [Hin | Hin]; [tauto | exact (Htick Hin)].
Qed.

Lemma evaluate_tick_publishes (w : Worker) (s : Sys W) :
  count is_intent (evaluate_tick w s).2 = 1%nat <->
  exists px w1 d w2 a,
    get_market_price (w_symbol w) (world s) = (Returned (Some px), w1) /\
    decide (w_strategy w) (w_symbol w) px w1 = (Returned (Some d), w2) /\
    action d = Some a /\
    is_buy_or_sell a = true.
Proof.
  unfold evaluate_tick, publish_signal, bind, trader_call, put, emit, ret.
  page_simpl.
  destruct (get_market_price (w_symbol w) (world s)) as [[[px |] | e] w1] eqn:Hprice;
    page_simpl;
    try (split; [discriminate | intros (? & ? & ? & ? & ? & Habs & _); discriminate]).
  destruct (decide (w_strategy w) (w_symbol w) px w1) as [[[d |] | e] w2] eqn:Hdecide;
    page_simpl;
    try (split; [discriminate |
                 intros (px' & w1' & d' & w2' & a' & Hp & Hd & _);
                 injection Hp as <- <-; rewrite Hdecide in Hd; discriminate]).
  destruct (action d) as [a |] eqn:Haction; page_simpl.
  - destruct (is_buy_or_sell a) eqn:Hside; page_simpl.
    + split; [intros _ | reflexivity].
      exists px, w1, d, w2, a. auto.
    + split; [discriminate |].
      intros (px' & w1' & d' & w2' & a' & Hp & Hd & Ha & Hs).
      injection Hp as <- <-. rewrite Hdecide in Hd. injection Hd as <- <-.
      congruence.
  - split; [discriminate |].
    intros (px' & w1' & d' & w2' & a' & Hp & Hd & Ha & Hs).
    injection Hp as <- <-. rewrite Hdecide in Hd. injection Hd as <- <-.
    congruence.
Qed.

(** X10: the tick evaluation publishes a trade request exactly when the
    broker has a price and the strategy, asked at that price, answers with
    the action "buy" or "sell"; any other answer, no price, or a raising
    call publishes none. *)
Theorem intent_published_iff (w : Worker) (s : Sys W) :
  count is_intent (evaluate_tick w s).2 = 1%nat <->
  exists px w1 d w2 a,
    get_market_price (w_symbol w) (world s) = (Returned (Some px), w1) /\
    decide (w_strategy w) (w_symbol w) px w1 = (Returned (Some d), w2) /\
    action d = Some a /\
    (a = "buy" \/ a = "sell").
Proof.
  rewrite evaluate_tick_publishes.
  split; intros (px & w1 & d & w2 & a & Hprice & Hdecide & Haction & Hside);
    exists px, w1, d, w2, a; repeat split; auto; apply is_buy_or_sell_spec, Hside.
Qed.

(** *** After a flatten *)

Lemma evaluate_tick_reads_no_summary (w : Worker) (s : Sys W) :
  count is_summary_call (evaluate_tick w s).2 = 0%nat.
Proof.
  unfold evaluate_tick, publish_signal, bind, trader_call, put, emit, ret.
  run_all; reflexivity.
Qed.

Lemma batch_check_batch_size (batch_target : float) (s : Sys W) :
  batch_size (page (batch_check batch_target s).1.2) = batch_size (page s).
Proof.
  unfold batch_check, bind, try_except, trader_call, put, assign, self, ret.
  run_all; reflexivity.
Qed.

(** X11: with a positive batch size, the iteration that follows a
    flattening iteration, with no order executed in between, neither reads
    the account summary nor closes positions: the batch starts over. *)
Theorem no_flatten_right_after_flatten (s : Sys W) (t t' : Worker)
    (Hsize : 0 < batch_size (page s))
    (Hflatten : In (EvCall CallCloseAllPositions) (_scalp_loop_iteration t s).2) :
  count is_flatten
    (_scalp_loop_iteration t' (_scalp_loop_iteration t s).1.2).2 = 0%nat /\
  count is_summary_call
    (_scalp_loop_iteration t' (_scalp_loop_iteration t s).1.2).2 = 0%nat.
Proof.
  rewrite in_flatten_filter, iteration_flatten_events in Hflatten.
  rewrite <- in_flatten_filter in Hflatten.
  apply batch_check_flatten in Hflatten.
  destruct Hflatten as (Hge & summary & w1 & Hsum & Hreached).
  pose proof (batch_check_reset _ _ _ _ Hge Hsum Hreached) as (_ & Hzero & _).
  pose proof (batch_check_batch_size (w_batch_target t) s) as Hkeep.
  rewrite <- iteration_page in Hzero, Hkeep.
  set (after := (_scalp_loop_iteration t s).1.2) in *.
  assert (Hnot_due : current_batch_trades (page after) < batch_size (page after))
    by lia.
  unfold _scalp_loop_iteration, bind.
  rewrite (batch_check_not_due (w_batch_target t') after Hnot_due).
  pose proof (evaluate_tick_frame t' after) as (_ & _ & Hnone & _).
  pose proof (evaluate_tick_reads_no_summary t' after) as Hsummary.
  destruct (evaluate_tick t' after) as [[r2 s2] ev2]. cbn [fst snd app] in *.
  split; assumption.
Qed.

(** *** The threads' arguments *)

Lemma step_keeps_threads (a : Action) (s : Sys W) (i : nat) (t : Worker) :
  threads s !! i = Some t ->
  exists t', threads (step a s).1 !! i = Some t' /\
    thread_args t' = thread_args t /\
    (pc t = Finished -> pc t' = Finished).
Proof.
  intros Hlookup.
  destruct a as [| | | | f | j]; cbn [step]; unfold callback.
  - exists t. split; [| auto].
    revert Hlookup.
    unfold start_scalping, _toggle_scalping_ui, bind, trader_call, thread_start,
      emit, _log, assign, self.
    run_all; intros Hlookup; try exact Hlookup.
    apply lookup_app_l_Some. exact Hlookup.
  - pose proof (stop_scalping_frame s) as (Hthreads & _).
    destruct (stop_scalping s) as [[r s1] ev]. cbn [fst snd] in *.
    exists t. rewrite Hthreads. auto.
  - unfold _process_ui_queue.
    pose proof (process_messages_frame (S (length (ui_queue s))) s)
      as (Hthreads & _).
    destruct (process_messages _ s) as [[r s1] ev]. cbn [fst snd] in *.
    exists t. rewrite Hthreads. auto.
  - pose proof (readiness_display_frame s) as (Hthreads & _).
    destruct (_update_data_readiness_display s) as [[r s1] ev].
    cbn [fst snd] in *. exists t. rewrite Hthreads. auto.
  - exists t. auto.
  - destruct (scalp_loop_move j s)
      as [[_ ->] | (t0 & t1 & Hsome & Hthreads & _)]; [exists t; auto |].
    destruct (Nat.eq_dec j i) as [-> | Hne].
    + assert (t0 = t) as -> by congruence.
      revert Hthreads. unfold _scalp_loop. rewrite Hsome.
      pose proof (iteration_frame t s) as (Hsame & _).
      destruct (pc t) eqn:Hpc;
        [destruct (is_scalping (page s)) | | ];
        try destruct (_scalp_loop_iteration t s) as [[[[] | e] s1] ev1];
        cbn [fst snd set_thread with_threads threads] in *; intros _;
        try rewrite Hsame;
        try (rewrite list_lookup_insert_eq
               by (eapply lookup_lt_Some; exact Hsome));
        eexists; (split; [reflexivity || exact Hsome |]);
        split; try reflexivity; try (intros; discriminate); auto.
    + exists t. rewrite Hthreads.
      rewrite list_lookup_insert_ne by exact Hne. auto.
Qed.

(** X12: a scalping thread keeps the arguments it was started with through
    any schedule of actions, form edits and later sessions included, it is
    never removed from the thread list, and once it has returned it stays
    returned. *)
Theorem thread_arguments_are_fixed (sched : list Action) (s : Sys W)
    (i : nat) (t : Worker) (Hthread : threads s !! i = Some t) :
  exists t', threads (run sched s).1 !! i = Some t' /\
    thread_args t' = thread_args t /\
    (pc t = Finished -> pc t' = Finished).
Proof.
  revert s t Hthread. induction sched as [| a rest IH]; intros s t Hthread.
  { exists t. auto. }
  rewrite run_cons. cbn [fst].
  destruct (step_keeps_threads a s i t Hthread) as (t1 & Hlookup1 & Hargs1 & Hpc1).
  destruct (IH (step a s).1 t1 Hlookup1) as (t2 & Hlookup2 & Hargs2 & Hpc2).
  exists t2. split; [exact Hlookup2 |]. split; [congruence | auto].
Qed.

End SessionMore.

(** ** The positions table *)

Lemma children_filter (P : string -> Prop) `{!forall x, Decision (P x)}
    (tree : Tree) :
  get_children (filter (fun entry => P entry.1) tree)
  = filter P (get_children tree).
Proof.
  unfold get_children. induction tree as [| entry tree IH]; [reflexivity |].
  rewrite fmap_cons. destruct (base.decide (P entry.1)) as [Hyes | Hno].
  - rewrite (filter_cons_True P) by exact Hyes.
    rewrite (filter_cons_True (fun e : string * Row => P e.1)) by exact Hyes.
    rewrite fmap_cons, IH. reflexivity.
  - rewrite (filter_cons_False P) by exact Hno.
    rewrite (filter_cons_False (fun e : string * Row => P e.1)) by exact Hno.
    exact IH.
Qed.

Lemma filter_keeps_all {A : Type} (P : A -> Prop) `{!forall x, Decision (P x)}
    (l : list A) :
  (forall x, x ∈ l -> P x) -> filter P l = l.
Proof.
  induction l as [| x l IH]; intros Hall; [reflexivity |].
  rewrite filter_cons_True by (apply Hall; left).
  rewrite IH; [reflexivity |]. intros y Hy. apply Hall. right. exact Hy.
Qed.

Lemma filter_same_on {A : Type} (P Q : A -> Prop)
    `{!forall x, Decision (P x)} `{!forall x, Decision (Q x)} (l : list A) :
  (forall x, x ∈ l -> (P x <-> Q x)) -> filter P l = filter Q l.
Proof.
  induction l as [| x l IH]; intros Hsame; [reflexivity |].
  assert (Htail : filter P l = filter Q l).
  { apply IH. intros y Hy. apply Hsame. right. exact Hy. }
  assert (Hhead : P x <-> Q x) by (apply Hsame; left).
  destruct (base.decide (P x)) as [HP | HP].
  - rewrite (filter_cons_True P) by exact HP.
    rewrite (filter_cons_True Q) by (apply Hhead, HP).
    rewrite Htail. reflexivity.
  - rewrite (filter_cons_False P) by exact HP.
    rewrite (filter_cons_False Q) by (intros HQ; apply HP, Hhead, HQ).
    exact Htail.
Qed.

(** Updating the row of an item keeps the ids and their order, shows the
    new row, and keeps every other row. *)
Lemma tree_item_spec (iid : string) (row : Row) (tree : Tree) :
  iid ∈ get_children tree ->
  exists tree1,
    tree_item iid row tree = Returned tree1 /\
    get_children tree1 = get_children tree /\
    (iid, row) ∈ tree1 /\
    (forall entry, entry ∈ tree -> entry.1 ≠ iid -> entry ∈ tree1).
Proof.
  intros Hin. unfold tree_item. rewrite bool_decide_eq_true_2 by exact Hin.
  eexists. split; [reflexivity |]. repeat apply conj.
  - unfold get_children. rewrite <- list_fmap_compose.
    apply list_fmap_ext. intros i entry _. cbn.
    case_bool_decide; [cbn; congruence | reflexivity].
  - unfold get_children in Hin.
    apply list_elem_of_fmap in Hin as (entry & -> & Hentry).
    apply list_elem_of_fmap. exists entry. split; [| exact Hentry].
    rewrite bool_decide_eq_true_2 by reflexivity. reflexivity.
  - intros entry Hentry Hne.
    apply list_elem_of_fmap. exists entry. split; [| exact Hentry].
    rewrite bool_decide_eq_false_2 by exact Hne. reflexivity.
Qed.

Lemma update_rows_spec (open_positions : list (Z * Position)) :
  forall (ids : gset string) (tree : Tree),
    NoDup (pretty <$> open_positions.*1) ->
    (forall iid, iid ∈ ids -> iid ∈ get_children tree) ->
    (forall iid, iid ∈ (pretty <$> open_positions.*1) ->
       iid ∈ get_children tree -> iid ∈ ids) ->
    exists ids1 tree1,
      update_rows open_positions ids tree = Returned (ids1, tree1) /\
      (forall iid, iid ∈ ids1 <->
         iid ∈ ids /\ iid ∉ (pretty <$> open_positions.*1)) /\
      get_children tree1
        = get_children tree ++
          filter (fun iid => iid ∉ get_children tree) (pretty <$> open_positions.*1) /\
      (forall pos_id pos_data, (pos_id, pos_data) ∈ open_positions ->
         (pretty pos_id, row_of pos_id pos_data) ∈ tree1) /\
      (forall entry, entry ∈ tree ->
         entry.1 ∉ (pretty <$> open_positions.*1) -> entry ∈ tree1).
Proof.
  induction open_positions as [| [pos_id pos_data] rest IH];
    intros ids tree Hkeys Hsub Hfresh.
  { exists ids, tree. cbn. rewrite app_nil_r.
    repeat apply conj; auto.
    - intros iid. split; [intros Hin; split; [exact Hin | apply not_elem_of_nil] | tauto].
    - intros pos_id pos_data Hin. apply elem_of_nil in Hin. contradiction. }
  rewrite !fmap_cons in Hkeys, Hfresh. cbn [fst] in Hkeys, Hfresh.
  apply NoDup_cons in Hkeys as [Hhead Hkeys].
  cbn [update_rows]. rewrite !fmap_cons. cbn [fst].
  set (item_id := pretty pos_id) in *.
  case_bool_decide as Hmember.
  - (* the item is in the tree: its row is updated *)
    destruct (tree_item_spec item_id (row_of pos_id pos_data) tree (Hsub _ Hmember))
      as (tree1 & -> & Hchildren & Hrow & Hothers).
    destruct (IH (ids ∖ {[item_id]}) tree1 Hkeys) as
      (ids2 & tree2 & -> & Hids2 & Hchildren2 & Hrows2 & Hothers2).
    { intros iid Hin. rewrite Hchildren. apply Hsub.
      apply elem_of_difference in Hin as [Hin _]. exact Hin. }
    { intros iid Hin Hchild. rewrite Hchildren in Hchild.
      apply elem_of_difference. split.
      - apply Hfresh; [right; exact Hin | exact Hchild].
      - intros Heq. apply elem_of_singleton in Heq. subst iid. contradiction. }
    exists ids2, tree2. split; [reflexivity |]. repeat apply conj.
    + intros iid. rewrite Hids2, elem_of_difference, elem_of_singleton, elem_of_cons.
      tauto.
    + rewrite Hchildren2, Hchildren.
      rewrite filter_cons_False by (intros Hnot; apply Hnot, Hsub, Hmember).
      reflexivity.
    + intros pos_id' pos_data' Hin. apply elem_of_cons in Hin as [Heq | Hin].
      * injection Heq as -> ->. apply Hothers2; [exact Hrow | exact Hhead].
      * apply Hrows2, Hin.
    + intros entry Hentry Hnot. apply not_elem_of_cons in Hnot as [Hne Hnot].
      apply Hothers2; [apply Hothers; assumption | exact Hnot].
  - (* the item is new: a row is appended *)
    assert (Hnew : item_id ∉ get_children tree).
    { intros Hchild. apply Hmember, Hfresh; [left; reflexivity | exact Hchild]. }
    unfold tree_insert. rewrite bool_decide_eq_false_2 by exact Hnew.
    set (tree1 := tree ++ [(item_id, row_of pos_id pos_data)]).
    assert (Hchildren : get_children tree1 = get_children tree ++ [item_id]).
    { unfold tree1, get_children. rewrite fmap_app. reflexivity. }
    destruct (IH ids tree1 Hkeys) as
      (ids2 & tree2 & -> & Hids2 & Hchildren2 & Hrows2 & Hothers2).
    { intros iid Hin. rewrite Hchildren. apply elem_of_app. left. apply Hsub, Hin. }
    { intros iid Hin Hchild. rewrite Hchildren in Hchild.
      apply elem_of_app in Hchild as [Hchild | Hlast].
      - apply Hfresh; [right; exact Hin | exact Hchild].
      - apply list_elem_of_singleton in Hlast. subst iid. contradiction. }
    exists ids2, tree2. split; [reflexivity |]. repeat apply conj.
    + intros iid. rewrite Hids2, elem_of_cons. split.
      * intros [Hin Hnot]. split; [exact Hin |]. intros [-> | Hrest]; [| tauto].
        apply Hmember, Hin.
      * intros [Hin Hnot]. split; [exact Hin |]. intros Hrest. apply Hnot. right.
        exact Hrest.
    + rewrite Hchildren2, Hchildren, filter_cons_True by exact Hnew.
      rewrite <- app_assoc. cbn [app]. do 2 f_equal.
      apply filter_same_on. intros iid Hin. rewrite elem_of_app, list_elem_of_singleton.
      split; [tauto |]. intros Hnot [Hchild | ->]; [tauto | contradiction].
    + intros pos_id' pos_data' Hin. apply elem_of_cons in Hin as [Heq | Hin].
      * injection Heq as -> ->. apply Hothers2; [| exact Hhead].
        apply elem_of_app. right. left.
      * apply Hrows2, Hin.
    + intros entry Hentry Hnot. apply not_elem_of_cons in Hnot as [Hne Hnot].
      apply Hothers2; [| exact Hnot]. apply elem_of_app. left. exact Hentry.
Qed.

Lemma delete_rows_spec (ids : list string) :
  forall tree : Tree,
    NoDup ids ->
    (forall iid, iid ∈ ids -> iid ∈ get_children tree) ->
    delete_rows ids tree
    = Returned (filter (fun entry : string * Row => entry.1 ∉ ids) tree).
Proof.
  induction ids as [| iid rest IH]; intros tree Hnodup Hsub.
  { cbn. f_equal. symmetry. apply filter_keeps_all.
    intros entry _. apply not_elem_of_nil. }
  apply NoDup_cons in Hnodup as [Hhead Hnodup].
  cbn [delete_rows]. unfold tree_delete.
  rewrite bool_decide_eq_true_2 by (apply Hsub; left).
  rewrite IH.
  - f_equal. rewrite list_filter_filter. apply filter_same_on.
    intros entry _. rewrite elem_of_cons. tauto.
  - exact Hnodup.
  - intros iid' Hin.
    assert (Hchild : iid' ∈ get_children tree) by (apply Hsub; right; exact Hin).
    unfold get_children in *.
    apply list_elem_of_fmap in Hchild as (entry & -> & Hentry).
    apply list_elem_of_fmap. exists entry. split; [reflexivity |].
    apply list_elem_of_filter. split; [| exact Hentry].
    intros Heq. rewrite Heq in Hin. contradiction.
Qed.

(** What [update_positions] leaves in the tree, under the two facts that
    hold of its inputs: dictionary keys are distinct, and so are the item
    ids of a tree. *)
Lemma update_positions_spec (open_positions : list (Z * Position)) (tree : Tree) :
  NoDup open_positions.*1 ->
  NoDup (get_children tree) ->
  exists tree1,
    update_positions open_positions tree = Returned tree1 /\
    get_children tree1
      = filter (fun iid => iid ∈ (pretty <$> open_positions.*1)) (get_children tree)
        ++ filter (fun iid => iid ∉ get_children tree) (pretty <$> open_positions.*1) /\
    (forall pos_id pos_data, (pos_id, pos_data) ∈ open_positions ->
       (pretty pos_id, row_of pos_id pos_data) ∈ tree1).
Proof.
  intros Hkeys Hids.
  assert (Hshown : NoDup (pretty <$> open_positions.*1))
    by (apply NoDup_fmap_2; [apply _ | exact Hkeys]).
  unfold update_positions.
  destruct (update_rows_spec open_positions (list_to_set (get_children tree)) tree Hshown)
    as (ids1 & tree1 & -> & Hids1 & Hchildren & Hrows & _).
  { intros iid Hin. apply elem_of_list_to_set in Hin. exact Hin. }
  { intros iid _ Hin. apply elem_of_list_to_set. exact Hin. }
  assert (Hleft : forall iid, iid ∈ elements ids1 <->
            iid ∈ get_children tree /\ iid ∉ (pretty <$> open_positions.*1)).
  { intros iid. rewrite elem_of_elements, Hids1, elem_of_list_to_set. tauto. }
  rewrite delete_rows_spec.
  - eexists. split; [reflexivity |]. split.
    + etrans; [exact (children_filter (fun i => i ∉ elements ids1) tree1) |].
      rewrite Hchildren, filter_app. f_equal.
      * apply filter_same_on. intros iid Hin. rewrite Hleft.
        split; [| tauto]. intros Hnot.
        destruct (base.decide (iid ∈ (pretty <$> open_positions.*1))); tauto.
      * apply filter_keeps_all. intros iid Hin.
        apply list_elem_of_filter in Hin as [Hnew _]. rewrite Hleft. tauto.
    + intros pos_id pos_data Hin. apply list_elem_of_filter.
      split; [| apply Hrows, Hin]. cbn [fst]. rewrite Hleft.
      intros [_ Hnot]. apply Hnot.
      apply list_elem_of_fmap_2, list_elem_of_fmap. exists (pos_id, pos_data). auto.
  - apply NoDup_elements.
  - intros iid Hin. apply Hleft in Hin as [Hin _].
    rewrite Hchildren. apply elem_of_app. left. exact Hin.
Qed.

Lemma row_is_unique (tree : Tree) (iid : string) (row1 row2 : Row) :
  NoDup (get_children tree) ->
  (iid, row1) ∈ tree -> (iid, row2) ∈ tree -> row1 = row2.
Proof.
  unfold get_children. induction tree as [| entry tree IH]; intros Hnodup H1 H2.
  { apply elem_of_nil in H1. contradiction. }
  rewrite fmap_cons in Hnodup. apply NoDup_cons in Hnodup as [Hhead Hnodup].
  apply elem_of_cons in H1 as [<- | H1]; apply elem_of_cons in H2 as [H2 | H2].
  - congruence.
  - exfalso. apply Hhead. cbn.
    apply list_elem_of_fmap. exists (iid, row2). auto.
  - subst entry. exfalso. apply Hhead. cbn.
    apply list_elem_of_fmap. exists (iid, row1). auto.
  - apply IH; assumption.
Qed.

Lemma update_positions_nodup (open_positions : list (Z * Position))
    (tree tree1 : Tree) :
  NoDup open_positions.*1 ->
  NoDup (get_children tree) ->
  get_children tree1
    = filter (fun iid => iid ∈ (pretty <$> open_positions.*1)) (get_children tree)
      ++ filter (fun iid => iid ∉ get_children tree) (pretty <$> open_positions.*1) ->
  NoDup (get_children tree1).
Proof.
  intros Hkeys Hids Hchildren.
  assert (Hshown : NoDup (pretty <$> open_positions.*1))
    by (apply NoDup_fmap_2; [apply _ | exact Hkeys]).
  rewrite Hchildren. apply NoDup_app. repeat apply conj.
  - apply NoDup_filter, Hids.
  - intros iid Hold Hnew.
    apply list_elem_of_filter in Hold as [_ Hold].
    apply list_elem_of_filter in Hnew as [Hnew _]. contradiction.
  - apply NoDup_filter, Hshown.
Qed.

(** X13: [update_positions] never raises on a dictionary of positions and
    a tree with distinct item ids, and afterwards the tree shows exactly
    the open positions: an item id is in the tree if and only if it is the
    decimal text of an open position's id.  Rows that stay keep their
    place and order, rows of new positions follow in the dictionary's
    order, and no item id occurs twice. *)
Theorem update_positions_mirrors (open_positions : list (Z * Position))
    (tree : Tree)
    (Hkeys : NoDup open_positions.*1) (Hids : NoDup (get_children tree)) :
  exists tree1,
    update_positions open_positions tree = Returned tree1 /\
    get_children tree1
      = filter (fun iid => iid ∈ (pretty <$> open_positions.*1)) (get_children tree)
        ++ filter (fun iid => iid ∉ get_children tree) (pretty <$> open_positions.*1) /\
    NoDup (get_children tree1) /\
    (forall iid, iid ∈ get_children tree1 <->
       exists pos_id, pos_id ∈ open_positions.*1 /\ iid = pretty pos_id).
Proof.
  destruct (update_positions_spec open_positions tree Hkeys Hids)
    as (tree1 & Hret & Hchildren & _).
  exists tree1. split; [exact Hret |]. split; [exact Hchildren |].
  split; [exact (update_positions_nodup _ _ _ Hkeys Hids Hchildren) |].
  intros iid. rewrite Hchildren, elem_of_app, !list_elem_of_filter.
  rewrite list_elem_of_fmap. split.
  - intros [[(pos_id & -> & Hin) _] | [_ (pos_id & -> & Hin)]]; eauto.
  - intros (pos_id & Hin & ->).
    destruct (base.decide (pretty pos_id ∈ get_children tree)) as [Hold | Hnew].
    + left. split; [| exact Hold]. exists pos_id. auto.
    + right. split; [exact Hnew |]. exists pos_id. auto.
Qed.

(** X14: after [update_positions], every open position has its row in the
    tree under the decimal text of its id, showing the position's symbol,
    side, volume, open price and P&L, tagged green when the P&L is at
    least 0 and red otherwise. *)
Theorem update_positions_shows_each (open_positions : list (Z * Position))
    (tree : Tree) (pos_id : Z) (pos_data : Position)
    (Hkeys : NoDup open_positions.*1) (Hids : NoDup (get_children tree))
    (Hopen : (pos_id, pos_data) ∈ open_positions) :
  exists tree1 row,
    update_positions open_positions tree = Returned tree1 /\
    (pretty pos_id, row) ∈ tree1 /\
    (forall row', (pretty pos_id, row') ∈ tree1 -> row' = row) /\
    row_id row = pos_id /\
    row_symbol row = position_symbol_name pos_data /\
    row_side row = trade_side pos_data /\
    row_volume row = volume_lots pos_data /\
    row_open_price row = open_price pos_data /\
    row_pnl row = current_pnl pos_data /\
    (row_tag row = pnl_green <-> PrimFloat.leb 0%float (current_pnl pos_data) = true).
Proof.
  destruct (update_positions_spec open_positions tree Hkeys Hids)
    as (tree1 & Hret & Hchildren & Hrows).
  pose proof (update_positions_nodup open_positions tree tree1 Hkeys Hids Hchildren)
    as Hnodup.
  exists tree1, (row_of pos_id pos_data).
  split; [exact Hret |]. split; [apply Hrows, Hopen |].
  split.
  - intros row' Hin.
    apply (row_is_unique tree1 (pretty pos_id)); [exact Hnodup | exact Hin |].
    apply Hrows, Hopen.
  - cbn. do 6 (split; [reflexivity |]).
    unfold pnl_color.
    destruct (PrimFloat.leb 0%float (current_pnl pos_data));
      split; intros Habs; first [reflexivity | discriminate Habs].
Qed.

(** ** The symbol dropdown *)

(** The symbol selected from a non-empty offer is one of the offer. *)
Lemma populate_selection_offered {W : Type} `{!SymbolSelection W}
    (symbol_names : list string) (configured_default : option string)
    (f : Form) (w : W) :
  symbol_names <> [] ->
  symbol_var (populated_form
                (populate_symbols_dropdown symbol_names configured_default f w))
    ∈ symbol_names.
Proof.
  intros Hsome. unfold populate_symbols_dropdown.
  destruct symbol_names as [| first rest]; [congruence |].
  unfold default_offered. destruct configured_default as [d |].
  - case_bool_decide as Hoffered;
      destruct (handle_symbol_selection _ w) as [r w1]; cbn; [exact Hoffered | left].
  - destruct (handle_symbol_selection _ w) as [r w1]; cbn. left.
Qed.

(** The dropdown writes no field of the form but the symbol, and with no
    symbol offered it writes the text that says so. *)
Lemma populate_keeps_other_fields {W : Type} `{!SymbolSelection W}
    (symbol_names : list string) (configured_default : option string)
    (f : Form) (w : W) :
  set_symbol_var (symbol_var f)
    (populated_form (populate_symbols_dropdown symbol_names configured_default f w))
  = f /\
  (symbol_names = [] ->
   symbol_var (populated_form
                 (populate_symbols_dropdown symbol_names configured_default f w))
   = "No symbols available").
Proof.
  unfold populate_symbols_dropdown.
  destruct symbol_names as [| first rest].
  { cbn. split; [destruct f |]; reflexivity. }
  split; [| discriminate].
  destruct (default_offered configured_default (first :: rest));
    destruct (handle_symbol_selection _ w) as [r w1]; cbn; destruct f; reflexivity.
Qed.

(** X15: with no symbol offered, [populate_symbols_dropdown] empties the
    combobox, shows "No symbols available" and does not call the broker.
    With symbols offered it selects one of them, the configured default
    when that is among them and the first one otherwise, tells the broker
    that symbol exactly once, and changes no other field of the form. *)
Theorem populate_selects_offered_symbol {W : Type} `{!SymbolSelection W}
    (symbol_names : list string) (configured_default : option string)
    (f : Form) (w : W) :
  let after := populate_symbols_dropdown symbol_names configured_default f w in
  (symbol_names = [] ->
   cb_symbol_values after = [] /\
   symbol_var (populated_form after) = "No symbols available" /\
   selection_calls after = [] /\
   populated_world after = w) /\
  (symbol_names <> [] ->
   cb_symbol_values after = symbol_names /\
   symbol_var (populated_form after) ∈ symbol_names /\
   selection_calls after = [symbol_var (populated_form after)] /\
   (forall d, configured_default = Some d -> d ∈ symbol_names ->
      symbol_var (populated_form after) = d) /\
   ((forall d, configured_default = Some d -> d ∉ symbol_names) ->
      head symbol_names = Some (symbol_var (populated_form after)))) /\
  set_symbol_var (symbol_var f) (populated_form after) = f.
Proof.
  cbn zeta. unfold populate_symbols_dropdown.
  destruct symbol_names as [| first rest].
  { cbn. repeat apply conj; auto; try congruence. destruct f; reflexivity. }
  unfold default_offered.
  destruct configured_default as [d |].
  - case_bool_decide as Hoffered;
      destruct (handle_symbol_selection _ w) as [r w1]; cbn.
    + repeat apply conj; try discriminate; auto.
      * intros _. repeat apply conj; auto.
        -- intros d' Heq _. congruence.
        -- intros Hnot. exfalso. exact (Hnot d eq_refl Hoffered).
      * destruct f; reflexivity.
    + repeat apply conj; try discriminate; auto.
      * intros _. repeat apply conj; auto.
        -- left.
        -- intros d' Heq Hin. exfalso. apply Hoffered. congruence.
      * destruct f; reflexivity.
  - destruct (handle_symbol_selection _ w) as [r w1]; cbn.
    repeat apply conj; try discriminate; auto.
    + intros _. repeat apply conj; auto; [left | discriminate].
    + destruct f; reflexivity.
Qed.

(** ** The advisory request *)

Section AdvisoryFacts.
Context {W : Type} `{!Trader W} `{!Advisor W}.

Ltac next_branch :=
  match goal with
  | |- context [match ?x with _ => _ end] =>
      lazymatch x with
      | context [match _ with _ => _ end] => fail
      | _ => destruct x eqn:?
      end
  end.

(** X16: however the advisory thread ends (no price, an empty frame, a
    raising indicator or advisor call, no advice, or an advice), it returns
    normally having put exactly two messages: one result, an advice or an
    error, and then the message that re-enables the button.  So the button
    that [run_chatgpt_analysis] disabled is enabled again once the consumer
    has handled them, and the log has gained the request line and one
    result line. *)
Theorem advisory_thread_always_answers (f : Form) (w : W) (v : AiView) :
  exists result,
    (_chatgpt_analysis_thread f w).2 = [result; re_enable_ai_button] /\
    result <> re_enable_ai_button /\
    (_chatgpt_analysis_thread f w).1.1 = Returned tt /\
    let handled := fold_left handle_ai_message (_chatgpt_analysis_thread f w).2
                     (run_chatgpt_analysis v) in
    ai_button handled = normal /\
    length (ai_output handled) = (length (ai_output v) + 2)%nat /\
    length (ai_dialogs handled) = (length (ai_dialogs v) + 1)%nat.
Proof.
  unfold _chatgpt_analysis_thread, t_finally, t_except, t_bind, t_call, t_put.
  repeat (cbn [fst snd app]; try next_branch);
    eexists; (split; [reflexivity |]); (split; [discriminate |]);
    (split; [reflexivity |]); cbn; rewrite !length_app; cbn; repeat split; lia.
Qed.

(** X17: the advisory thread reports an advice exactly when the broker has
    a price, the 1m frame is not empty, the indicators can be computed and
    the advisor returns an advice; the advisor is asked with that price,
    those indicators and the form's stop and target, and the advice put on
    the queue is the one it returned. *)
Theorem advice_shown_iff (f : Form) (w : W) (advice : AiAdvice) :
  In (show_ai_advice advice) (_chatgpt_analysis_thread f w).2 <->
  exists price_bid w1 features w2 w3,
    get_market_price (remove_slashes (symbol_var f)) w = (Returned (Some price_bid), w1) /\
    ohlc_1m_empty (remove_slashes (symbol_var f)) w1 = false /\
    latest_indicators (remove_slashes (symbol_var f)) w1 = (Returned features, w2) /\
    get_ai_advice (remove_slashes (symbol_var f)) price_bid features
      (sl_var f) (tp_var f) w2 = (Returned (Some advice), w3).
Proof.
  unfold _chatgpt_analysis_thread, t_finally, t_except, t_bind, t_call, t_put.
  set (sym := remove_slashes (symbol_var f)).
  cbn [fst snd app].
  destruct (get_market_price sym w) as [[[price_bid |] | e] w1] eqn:Hprice;
    cbn [fst snd app];
    try (split; [cbn; intros [Habs | [Habs | []]]; discriminate |
                 intros (? & ? & ? & ? & ? & Habs & _); discriminate]).
  destruct (ohlc_1m_empty sym w1) eqn:Hframe; cbn [fst snd app].
  { split; [cbn; intros [Habs | [Habs | []]]; discriminate |].
    intros (p' & w1' & ? & ? & ? & Hp & Hf & _).
    injection Hp as <- <-. congruence. }
  destruct (latest_indicators sym w1) as [[features | e] w2] eqn:Hfeatures;
    cbn [fst snd app].
  2:{ split; [cbn; intros [Habs | [Habs | []]]; discriminate |].
      intros (p' & w1' & ft' & w2' & ? & Hp & _ & Hft & _).
      injection Hp as <- <-. rewrite Hfeatures in Hft. discriminate. }
  destruct (get_ai_advice sym price_bid features (sl_var f) (tp_var f) w2)
    as [[[a |] | e] w3] eqn:Hadvice; cbn [fst snd app].
  - split.
    + cbn. intros [Heq | [Habs | []]]; [| discriminate].
      injection Heq as ->. exists price_bid, w1, features, w2, w3. auto.
    + intros (p' & w1' & ft' & w2' & w3' & Hp & _ & Hft & Hadv).
      injection Hp as <- <-. rewrite Hfeatures in Hft. injection Hft as <- <-.
      rewrite Hadvice in Hadv. injection Hadv as <- <-. left. reflexivity.
  - split; [cbn; intros [Habs | [Habs | []]]; discriminate |].
    intros (p' & w1' & ft' & w2' & w3' & Hp & _ & Hft & Hadv).
    injection Hp as <- <-. rewrite Hfeatures in Hft. injection Hft as <- <-.
    rewrite Hadvice in Hadv. discriminate.
  - split; [cbn; intros [Habs | [Habs | []]]; discriminate |].
    intros (p' & w1' & ft' & w2' & w3' & Hp & _ & Hft & Hadv).
    injection Hp as <- <-. rewrite Hfeatures in Hft. injection Hft as <- <-.
    rewrite Hadvice in Hadv. discriminate.
Qed.

End AdvisoryFacts.

(** ** The connection handshake *)

Section ConnectionFacts.
Context {W : Type} `{!Connector W} `{!SymbolSelection W}.

Lemma untouched_refl (h : Handshake W) : untouched h h.
Proof. unfold untouched. auto 10. Qed.

Lemma untouched_trans (h1 h2 h3 : Handshake W) :
  untouched h1 h2 -> untouched h2 h3 -> untouched h1 h3.
Proof.
  unfold untouched. intros (? & ? & ? & ? & ? & ?) (? & ? & ? & ? & ? & ?).
  repeat apply conj; congruence.
Qed.

Lemma populate_values_of (symbol_names : list string) (cd : option string)
    (f : Form) (w : W) :
  cb_symbol_values (populate_symbols_dropdown symbol_names cd f w) = symbol_names.
Proof.
  unfold populate_symbols_dropdown. destruct symbol_names as [| first rest];
    [reflexivity |]. destruct (handle_symbol_selection _ w). reflexivity.
Qed.

Lemma ended_raised_from (h h1 : Handshake W) (t : Turn) :
  untouched h h1 -> ended_raised h1 t -> ended_raised h t.
Proof.
  intros Hsame (Hnone & Hsame1 & Hrest).
  split; [exact Hnone |].
  split; [exact (untouched_trans _ _ _ Hsame Hsame1) | exact Hrest].
Qed.

Lemma ended_connected_from (h h1 : Handshake W) (t : Turn) :
  untouched h h1 -> ended_connected h1 t -> ended_connected h t.
Proof.
  intros (_ & _ & _ & _ & Hform & Hsymbols). unfold ended_connected.
  rewrite Hform, Hsymbols. tauto.
Qed.

(** [details_pending] answers [False] for a summary with an account id
    that is neither of the two placeholders, and a balance. *)
Lemma details_complete (d : AccountDetails) :
  details_pending d = false ->
  exists account,
    details_account_id d = Some account /\
    account <> "connecting..." /\ account <> "–" /\
    exists balance, details_balance d = Some balance.
Proof.
  unfold details_pending.
  destruct (details_account_id d) as [account |]; [| discriminate].
  destruct (String.eqb_spec account "connecting...") as [| Hfirst];
    [discriminate |].
  destruct (String.eqb_spec account "–") as [| Hsecond]; [discriminate |].
  destruct (details_balance d) as [balance |]; [| discriminate].
  intros _. exists account. repeat split; auto. exists balance. reflexivity.
Qed.

Lemma on_successful_outcomes (cd : option string) (h : Handshake W) :
  status_foreground (settings_view h) = Some status_orange ->
  still_polling h (_on_successful_connection cd h) \/
  ended_raised h (_on_successful_connection cd h) \/
  ended_connected h (_on_successful_connection cd h).
Proof.
  intros Horange. unfold _on_successful_connection.
  destruct (account_details (broker h)) as [[summary | e] w1] eqn:Hsummary.
  2:{ right. left. unfold ended_raised, untouched. cbn.
      repeat apply conj; auto. exists e. reflexivity. }
  destruct (details_pending summary) eqn:Hpending.
  { left. unfold still_polling, untouched. cbn.
    repeat apply conj; auto; discriminate. }
  right. right.
  destruct (details_complete summary Hpending)
    as (account & Hid & Hfirst & Hsecond & Hbalance).
  assert (Hview : forall v,
            announces summary account
              (set_status "Connected ✅" status_green (update_account_info summary v))).
  { intros v. unfold announces. cbn. rewrite Hid. cbn.
    repeat apply conj; auto. }
  unfold ended_connected. rewrite Hid. cbn [default option_rect].
  destruct (get_available_symbol_names w1) as [[names | e] w2] eqn:Hnames.
  2:{ cbn. split; [reflexivity |].
      exists (broker h), summary, w1, account.
      split; [exact Hsummary |]. split; [apply Hview |].
      left. exists e, w2. repeat apply conj; auto. }
  pose proof (populate_selection_offered names cd (trading_form h) w2) as Hoffered.
  pose proof (populate_keeps_other_fields names cd (trading_form h) w2)
    as (Hkept & Hempty).
  pose proof (populate_values_of names cd (trading_form h) w2) as Hvalues.
  set (p := populate_symbols_dropdown names cd (trading_form h) w2) in *.
  clearbody p.
  destruct (populate_outcome p) as [[] | e] eqn:Hout; cbn [fst snd];
    (split; [reflexivity |]);
    exists (broker h), summary, w1, account;
    (split; [exact Hsummary |]); (split; [apply Hview |]);
    right; exists names, w2;
    cbn [settings_view trading_symbols trading_form];
    do 5 (split; [first [reflexivity | assumption] |]).
  - destruct names as [| first rest].
    + right. right. split; reflexivity.
    + right. left. split; [discriminate | reflexivity].
  - left. exists e. reflexivity.
Qed.

Lemma check_connection_outcomes (cd : option string) (h : Handshake W) :
  status_foreground (settings_view h) = Some status_orange ->
  still_polling h (_check_connection cd h) \/
  ended_failed h (_check_connection cd h) \/
  ended_raised h (_check_connection cd h) \/
  ended_connected h (_check_connection cd h).
Proof.
  intros Horange. unfold _check_connection.
  destruct (get_connection_status (broker h)) as [[[[|] msg] | e] w1].
  - destruct (on_successful_outcomes cd (with_broker w1 h) Horange)
      as [Hpoll | [Hraised | Hdone]].
    + left. exact Hpoll.
    + right. right. left. exact Hraised.
    + right. right. right. exact Hdone.
  - destruct (message_given msg) as [m |].
    + right. left. unfold ended_failed, untouched. cbn.
      repeat apply conj; auto. exists m. auto.
    + left. unfold still_polling, untouched. cbn.
      repeat apply conj; auto; discriminate.
  - right. right. left. unfold ended_raised, untouched. cbn.
    repeat apply conj; auto. exists e. reflexivity.
Qed.

Lemma run_callback_outcomes (cd : option string) (cb : Callback) (h : Handshake W) :
  status_foreground (settings_view h) = Some status_orange ->
  still_polling h (run_callback cd cb h) \/
  ended_failed h (run_callback cd cb h) \/
  ended_raised h (run_callback cd cb h) \/
  ended_connected h (run_callback cd cb h).
Proof.
  intros Horange. destruct cb; cbn [run_callback].
  - apply check_connection_outcomes, Horange.
  - destruct (on_successful_outcomes cd h Horange) as [Hpoll | [Hraised | Hdone]];
      auto.
Qed.

Lemma run_callbacks_outcomes (cd : option string) (fuel : nat) :
  forall (cb : Callback) (h : Handshake W),
    status_foreground (settings_view h) = Some status_orange ->
    still_polling h (run_callbacks cd fuel cb h) \/
    ended_failed h (run_callbacks cd fuel cb h) \/
    ended_raised h (run_callbacks cd fuel cb h) \/
    ended_connected h (run_callbacks cd fuel cb h).
Proof.
  induction fuel as [| fuel IH]; intros cb h Horange.
  { left. unfold still_polling. cbn.
    split; [discriminate |]. split; [reflexivity |].
    split; [apply untouched_refl | exact Horange]. }
  cbn [run_callbacks].
  destruct (run_callback_outcomes cd cb h Horange)
    as [Hpoll | [Hfail | [Hraised | Hdone]]].
  - destruct (run_callback cd cb h) as [[h1 ev1] [cb1 |]];
      destruct Hpoll as (Hpending & Hev & Hsame & Horange1);
      cbn [fst snd] in *; [| congruence].
    subst ev1.
    destruct (IH cb1 h1 Horange1) as [Hpoll2 | [Hfail2 | [Hraised2 | Hdone2]]];
      destruct (run_callbacks cd fuel cb1 h1) as [[h2 ev2] pending2];
      cbn [fst snd app] in *.
    + left. destruct Hpoll2 as (Hp & He & Hsame2 & Ho).
      split; [exact Hp |]. split; [exact He |].
      split; [exact (untouched_trans _ _ _ Hsame Hsame2) | exact Ho].
    + right. left. destruct Hfail2 as (Hp & Hsame2 & Hrest).
      split; [exact Hp |].
      split; [exact (untouched_trans _ _ _ Hsame Hsame2) | exact Hrest].
    + right. right. left. exact (ended_raised_from _ _ _ Hsame Hraised2).
    + right. right. right. exact (ended_connected_from _ _ _ Hsame Hdone2).
  - right. left.
    destruct (run_callback cd cb h) as [[h1 ev1] [cb1 |]];
      [destruct Hfail as (Hnone & _); discriminate Hnone | exact Hfail].
  - right. right. left.
    destruct (run_callback cd cb h) as [[h1 ev1] [cb1 |]];
      [destruct Hraised as (Hnone & _); discriminate Hnone | exact Hraised].
  - right. right. right.
    destruct (run_callback cd cb h) as [[h1 ev1] [cb1 |]];
      [destruct Hdone as (Hnone & _); discriminate Hnone | exact Hdone].
Qed.

(** X18: whatever the broker answers or raises and however long the timers
    run, the handshake started by the Connect button is in one of four
    states.  While it polls it has shown no dialog and changed neither the
    account box nor the trading page.  If it has failed, it has shown
    exactly one error dialog, the status is red and carries the dialog's
    message, and the account box and the trading page are unchanged.  If a
    broker call raised before the connection was announced, nothing was
    shown or changed and no timer is left.  Otherwise it has connected: the
    status is "Connected ✅" in green, the account box shows a summary the
    broker returned, whose account id is there and is neither
    "connecting..." nor a dash and whose balance is there, the "connected"
    dialog was shown once, and the broker was asked for its symbols; if
    that call raised the trading page is unchanged, and if it returned the
    dropdown was populated once with the returned list, the selected symbol
    being one of them and no other field of the form changed. *)
Theorem handshake_outcomes (cd : option string) (fuel : nat) (h : Handshake W) :
  still_polling h (handshake cd fuel h) \/
  ended_failed h (handshake cd fuel h) \/
  ended_raised h (handshake cd fuel h) \/
  ended_connected h (handshake cd fuel h).
Proof.
  unfold handshake, attempt_connection.
  destruct (connect _) as [[[|] | e] w1]; cbn [broker with_view with_broker].
  - match goal with
    | |- context [run_callbacks cd fuel check_connection ?h1] =>
        destruct (run_callbacks_outcomes cd fuel check_connection h1 eq_refl)
          as [Hpoll | [Hfail | [Hraised | Hdone]]];
        destruct (run_callbacks cd fuel check_connection h1) as [[h2 ev2] pending]
    end; cbn [fst snd app] in *.
    + left. exact Hpoll.
    + right. left. exact Hfail.
    + right. right. left. exact Hraised.
    + right. right. right. exact Hdone.
  - destruct (get_connection_status w1) as [[[c msg] | e] w2].
    + right. left. unfold ended_failed, untouched. cbn.
      repeat apply conj; auto.
      destruct (message_given msg) as [m |]; eexists; split; eauto.
    + right. right. left. unfold ended_raised, untouched. cbn.
      repeat apply conj; auto. exists e. reflexivity.
  - right. right. left. unfold ended_raised, untouched. cbn.
    repeat apply conj; auto. exists e. reflexivity.
Qed.

(** A refused [connect] fails the handshake at once: no timer is set, the
    connection status is read once for its message, and the text shown is
    "Failed: " followed by the message, or "Connection failed." when the
    broker gives none (or an empty one). *)
Lemma refused_connection_fails_at_once (cd : option string) (fuel : nat)
    (h : Handshake W) (w1 w2 : W) (c : bool) (msg : option string)
    (Hrefused : connect (broker h) = (Returned false, w1))
    (Hstatus : get_connection_status w1 = (Returned (c, msg), w2)) :
  let text := match message_given msg with
              | Some m => "Failed: " +:+ m
              | None => "Connection failed."
              end in
  handshake cd fuel h
  = (with_view (set_status text status_red (settings_view h)) (with_broker w2 h),
     [ConnShowError text], None).
Proof.
  unfold handshake, attempt_connection. cbn [broker with_view with_broker].
  rewrite Hrefused, Hstatus. reflexivity.
Qed.

Lemma on_successful_completes (cd : option string) (summary : AccountDetails)
    (symbol_names : list string) (w2 w3 : W) (n : nat) :
  get_available_symbol_names w2 = (Returned symbol_names, w3) ->
  forall (fuel : nat) (h : Handshake W),
    details_after n (broker h) summary w2 ->
    populate_outcome
      (populate_symbols_dropdown symbol_names cd (trading_form h) w3) = Returned tt ->
    (n < fuel)%nat ->
    connected_as cd summary symbol_names (trading_form h) w3
      (run_callbacks cd fuel on_successful_connection h).
Proof.
  intros Hnames. induction n as [| n IH]; intros fuel h Hdetails Hout Hfuel;
    (destruct fuel as [| fuel]; [lia |]); cbn [run_callbacks run_callback];
    inversion Hdetails as [w summary' w' Hcall Hcomplete
                          | n' w pending w1 summary' w' Hcall Hpending Hrest];
    subst; unfold _on_successful_connection; rewrite Hcall.
  - rewrite Hcomplete, Hnames. cbn zeta. rewrite Hout.
    unfold connected_as. cbn. rewrite populate_values_of.
    repeat apply conj; reflexivity.
  - rewrite Hpending.
    match goal with
    | |- context [run_callbacks cd fuel on_successful_connection ?h1] =>
        pose proof (IH fuel h1 Hrest Hout ltac:(lia)) as Hdone;
        destruct (run_callbacks cd fuel on_successful_connection h1)
          as [[h2 ev2] pending2]
    end.
    exact Hdone.
Qed.

Lemma check_connection_completes (cd : option string) (summary : AccountDetails)
    (symbol_names : list string) (w1 w2 w3 : W) (m : nat) (k : nat) :
  get_available_symbol_names w2 = (Returned symbol_names, w3) ->
  details_after m w1 summary w2 ->
  forall (fuel : nat) (h : Handshake W),
    connects_after k (broker h) w1 ->
    populate_outcome
      (populate_symbols_dropdown symbol_names cd (trading_form h) w3) = Returned tt ->
    (k + m < fuel)%nat ->
    connected_as cd summary symbol_names (trading_form h) w3
      (run_callbacks cd fuel check_connection h).
Proof.
  intros Hnames Hdetails. induction k as [| k IH]; intros fuel h Hconnects Hout Hfuel;
    (destruct fuel as [| fuel]; [lia |]);
    inversion Hconnects as [w msg w' Hcall | k' w msg w0 w' Hcall Hquiet Hrest];
    subst.
  - (* connected at this poll: the same callback goes on to the summary *)
    pose proof (on_successful_completes cd summary symbol_names w2 w3 m Hnames
                  (S fuel) (with_broker w1 h) Hdetails Hout ltac:(lia)) as Hdone.
    cbn [run_callbacks run_callback] in Hdone |- *.
    unfold _check_connection. rewrite Hcall. exact Hdone.
  - cbn [run_callbacks run_callback]. unfold _check_connection.
    rewrite Hcall, Hquiet.
    pose proof (IH fuel (with_broker w0 h) Hrest Hout ltac:(lia)) as Hdone.
    destruct (run_callbacks cd fuel check_connection (with_broker w0 h))
      as [[h2 ev2] pending2].
    exact Hdone.
Qed.

(** X19: if [connect] succeeds, the connection status reads "not
    connected, no message" [k] times before it reads "connected", the
    account summary is incomplete [m] times before it is complete, and the
    dropdown's broker call returns, then [k + m + 1] timer callbacks bring
    the handshake to its end: the status is "Connected ✅", the account box
    shows that summary, the dropdown holds the broker's symbol list, the
    trading page is raised, and the "connected" dialog was the only one. *)
Theorem handshake_connects (cd : option string) (fuel : nat) (h : Handshake W)
    (k m : nat) (w0 w1 w2 w3 : W) (summary : AccountDetails)
    (symbol_names : list string)
    (Hconnect : connect (broker h) = (Returned true, w0))
    (Hstatus : connects_after k w0 w1)
    (Hdetails : details_after m w1 summary w2)
    (Hsymbols : get_available_symbol_names w2 = (Returned symbol_names, w3))
    (Hselect : populate_outcome
                 (populate_symbols_dropdown symbol_names cd (trading_form h) w3)
               = Returned tt)
    (Hfuel : (k + m < fuel)%nat) :
  connected_as cd summary symbol_names (trading_form h) w3 (handshake cd fuel h).
Proof.
  unfold handshake, attempt_connection. cbn [broker with_view with_broker].
  rewrite Hconnect.
  match goal with
  | |- context [run_callbacks cd fuel check_connection ?h1] =>
      pose proof (check_connection_completes cd summary symbol_names w1 w2 w3 m k
                    Hsymbols Hdetails fuel h1 Hstatus Hselect Hfuel) as Hdone;
      destruct (run_callbacks cd fuel check_connection h1) as [[h2 ev2] pending2]
  end.
  exact Hdone.
Qed.

End ConnectionFacts.

(** ** Orders and signals over whole runs *)

Section SessionRuns.
Context {W : Type} `{!Trader W} `{!Strategies W}.

Ltac next_case :=
  match goal with
  | |- context [match ?x with _ => _ end] =>
      lazymatch x with
      | context [match _ with _ => _ end] => fail
      | _ => destruct x eqn:?
      end
  end.

Ltac page_simpl :=
  cbn [page world ui_queue threads with_page with_world with_ui_queue
       with_threads fst snd count List.filter length app
       is_flatten is_order is_intent is_trade
       form is_scalping start_button stop_button total_trades
       current_batch_trades batch_start_equity batch_size trades_var output
       data_readiness_var data_readiness_label
       set_form set_is_scalping set_start_button set_stop_button
       set_total_trades set_current_batch_trades set_batch_start_equity
       set_trades_var set_output set_data_readiness_var
       set_data_readiness_label] in *.

(** What an operation other than the consumer does to the queue and to the
    output box: it appends messages and lines that cannot lead to the
    "skipped" line, as many trade requests as it published, and it places
    no order. *)
Definition appends_only (s s' : Sys W) (ev : list Event) : Prop :=
  exists puts lines,
    ui_queue s' = ui_queue s ++ puts /\
    output (page s') = output (page s) ++ lines /\
    forallb never_skipped puts = true /\
    forallb not_skipped lines = true /\
    length (List.filter is_trade puts) = count is_intent ev /\
    count is_order ev = 0%nat.

Ltac grown :=
  first [ symmetry; apply app_nil_r | rewrite <- ?app_assoc; reflexivity ].

Ltac show_appends :=
  unfold appends_only; page_simpl;
  eexists; eexists;
  split; [grown |]; split; [grown |]; repeat split; reflexivity.

Lemma start_scalping_appends (s : Sys W) :
  appends_only s (start_scalping s).1.2 (start_scalping s).2.
Proof.
  unfold start_scalping, _toggle_scalping_ui, bind, trader_call, thread_start,
    emit, _log, assign, self.
  repeat (page_simpl; try next_case); show_appends.
Qed.

Lemma stop_scalping_appends (s : Sys W) :
  appends_only s (stop_scalping s).1.2 (stop_scalping s).2.
Proof.
  unfold stop_scalping, _toggle_scalping_ui, bind, try_except, trader_call,
    _log, assign, self, ret.
  repeat (page_simpl; try next_case); show_appends.
Qed.

Lemma readiness_display_appends (s : Sys W) :
  appends_only s (_update_data_readiness_display s).1.2
    (_update_data_readiness_display s).2.
Proof.
  unfold _update_data_readiness_display, bind, trader_call, _log, assign, self.
  repeat (page_simpl; try next_case); show_appends.
Qed.

Lemma iteration_appends (t : Worker) (s : Sys W) :
  appends_only s (_scalp_loop_iteration t s).1.2 (_scalp_loop_iteration t s).2.
Proof.
  unfold _scalp_loop_iteration, evaluate_tick, publish_signal, batch_check,
    bind, try_except, trader_call, put, emit, assign, self, ret.
  repeat (page_simpl; try next_case); show_appends.
Qed.

Lemma scalp_loop_appends (i : nat) (s : Sys W) :
  appends_only s (_scalp_loop i s).1 (_scalp_loop i s).2.
Proof.
  assert (Hnothing : appends_only s s []).
  { exists [], []. rewrite !app_nil_r. repeat split; reflexivity. }
  unfold _scalp_loop. destruct (threads s !! i) as [t |]; [| exact Hnothing].
  destruct (pc t); [destruct (is_scalping (page s)); exact Hnothing | |
                    exact Hnothing].
  pose proof (iteration_appends t s) as Happends.
  destruct (_scalp_loop_iteration t s) as [[[[] | e] s1] ev]; exact Happends.
Qed.

(** The consumer on a queue of messages that cannot be skipped. *)
Lemma dispatch_never_skips (m : UiMsg) (s : Sys W) :
  never_skipped m = true ->
  exists lines,
    output (page (dispatch m s).1.2) = output (page s) ++ lines /\
    forallb not_skipped lines = true.
Proof.
  destruct m as [data | t]; cbn [never_skipped]; intros Hok.
  - exists [data]. split; [reflexivity |]. cbn. rewrite Hok. reflexivity.
  - unfold dispatch, _execute_trade, bind, trader_call, _log, assign, self.
    destruct (price t) as [px |]; [| discriminate].
    repeat (page_simpl; try next_case); eexists;
      (split; [rewrite <- ?app_assoc; reflexivity | reflexivity]).
Qed.

Lemma process_messages_never_skips (fuel : nat) (s : Sys W) :
  forallb never_skipped (ui_queue s) = true ->
  forallb not_skipped (output (page s)) = true ->
  forallb never_skipped (ui_queue (process_messages fuel s).1.2) = true /\
  forallb not_skipped (output (page (process_messages fuel s).1.2)) = true.
Proof.
  revert s. induction fuel as [| fuel IH]; intros s Hqueue Hout; [auto |].
  destruct (ui_queue s) as [| m rest] eqn:Hq.
  { rewrite (process_messages_empty fuel s Hq). cbn [fst snd]. rewrite Hq. auto. }
  rewrite (process_messages_next fuel s m rest Hq).
  cbn [forallb] in Hqueue. apply andb_prop in Hqueue as [Hm Hrest].
  pose proof (dispatch_queue m (with_ui_queue rest s)) as Hsame.
  destruct (dispatch_never_skips m (with_ui_queue rest s) Hm) as (lines & Hlines & Hok).
  assert (Hout1 : forallb not_skipped (output (page (dispatch m (with_ui_queue rest s)).1.2))
                  = true).
  { rewrite Hlines. cbn [page with_ui_queue]. rewrite forallb_app, Hout, Hok.
    reflexivity. }
  destruct (dispatch m (with_ui_queue rest s)) as [[[[] | e] s1] ev1];
    cbn [fst snd ui_queue with_ui_queue] in *.
  - assert (Hq1 : forallb never_skipped (ui_queue s1) = true) by (rewrite Hsame; exact Hrest).
    specialize (IH s1 Hq1 Hout1).
    destruct (process_messages fuel s1) as [[r2 s2] ev2]. exact IH.
  - rewrite Hsame. auto.
Qed.

Definition never_to_skip (s : Sys W) : Prop :=
  forallb never_skipped (ui_queue s) = true /\
  forallb not_skipped (output (page s)) = true.

Lemma appends_keep_never_to_skip (s s' : Sys W) (ev : list Event) :
  appends_only s s' ev -> never_to_skip s -> never_to_skip s'.
Proof.
  intros (puts & lines & Hq & Ho & Hputs & Hlines & _) [Hqueue Hout].
  unfold never_to_skip. rewrite Hq, Ho, !forallb_app, Hqueue, Hout, Hputs, Hlines.
  auto.
Qed.

Lemma step_never_to_skip (a : Action) (s : Sys W) :
  never_to_skip s -> never_to_skip (step a s).1.
Proof.
  intros Hinv. destruct a as [| | | | f | i]; cbn [step]; unfold callback.
  - pose proof (start_scalping_appends s) as Happ.
    destruct (start_scalping s) as [[r s1] ev].
    exact (appends_keep_never_to_skip _ _ _ Happ Hinv).
  - pose proof (stop_scalping_appends s) as Happ.
    destruct (stop_scalping s) as [[r s1] ev].
    exact (appends_keep_never_to_skip _ _ _ Happ Hinv).
  - unfold _process_ui_queue. destruct Hinv as [Hqueue Hout].
    pose proof (process_messages_never_skips (S (length (ui_queue s))) s Hqueue Hout)
      as Hkeep.
    destruct (process_messages _ s) as [[r s1] ev]. exact Hkeep.
  - pose proof (readiness_display_appends s) as Happ.
    destruct (_update_data_readiness_display s) as [[r s1] ev].
    exact (appends_keep_never_to_skip _ _ _ Happ Hinv).
  - exact Hinv.
  - exact (appends_keep_never_to_skip _ _ _ (scalp_loop_appends i s) Hinv).
Qed.

(** X20: from the initial state, whatever the broker and the strategy
    answer and in whatever order the threads run, no trade request waiting
    in the queue lacks a price, and the line "Trade execution skipped:
    Market price is unavailable." never reaches the output box: the null
    price guard of [_execute_trade] is never taken for a request of the
    loop. *)
Theorem loop_requests_are_never_skipped (w : W) (f : Form) (sched : list Action) :
  ~ In LogSkipped (output (page (run sched (init_sys w f)).1)) /\
  forall t, In (MsgExecuteTrade t) (ui_queue (run sched (init_sys w f)).1) ->
    exists px, price t = Some px.
Proof.
  assert (Hinv : never_to_skip (run sched (init_sys w f)).1).
  { assert (Hstart : never_to_skip (init_sys w f)) by (split; reflexivity).
    revert Hstart. generalize (init_sys w f).
    induction sched as [| a rest IH]; intros s Hs; [exact Hs |].
    rewrite run_cons. cbn [fst]. apply IH, step_never_to_skip, Hs. }
  destruct Hinv as [Hqueue Hout]. split.
  - intros Hin. rewrite forallb_forall in Hout.
    specialize (Hout _ Hin). discriminate Hout.
  - intros t Hin. rewrite forallb_forall in Hqueue.
    specialize (Hqueue _ Hin). cbn in Hqueue.
    destruct (price t) as [px |]; [eauto | discriminate].
Qed.

Lemma submittable_le_trade (q : list UiMsg) :
  (length (List.filter submittable q) <= length (List.filter is_trade q))%nat.
Proof.
  induction q as [| [data | t] q IH]; cbn; [lia | exact IH |].
  destruct (price t); cbn; lia.
Qed.

Lemma step_orders_within_signals (a : Action) (s : Sys W) :
  (count is_order (step a s).2 + length (List.filter is_trade (ui_queue (step a s).1))
   <= count is_intent (step a s).2 + length (List.filter is_trade (ui_queue s)))%nat.
Proof.
  assert (Happends : forall s' ev, appends_only s s' ev ->
    (count is_order ev + length (List.filter is_trade (ui_queue s'))
     <= count is_intent ev + length (List.filter is_trade (ui_queue s)))%nat).
  { intros s' ev (puts & lines & Hq & _ & _ & _ & Hputs & Horder).
    rewrite Hq, List.filter_app, length_app. lia. }
  destruct a as [| | | | f | i]; cbn [step]; unfold callback.
  - pose proof (start_scalping_appends s) as Happ.
    destruct (start_scalping s) as [[r s1] ev]. exact (Happends _ _ Happ).
  - pose proof (stop_scalping_appends s) as Happ.
    destruct (stop_scalping s) as [[r s1] ev]. exact (Happends _ _ Happ).
  - unfold _process_ui_queue.
    destruct (process_messages_trace (S (length (ui_queue s))) s ltac:(lia))
      as (done & lines & Hsplit & Horder & _).
    pose proof (process_messages_frame (S (length (ui_queue s))) s)
      as (_ & _ & Hintent & _).
    destruct (process_messages _ s) as [[r s1] ev]. cbn [fst snd] in *.
    rewrite Horder, Hintent, Hsplit, List.filter_app, length_app.
    pose proof (submittable_le_trade done). lia.
  - pose proof (readiness_display_appends s) as Happ.
    destruct (_update_data_readiness_display s) as [[r s1] ev].
    exact (Happends _ _ Happ).
  - cbn. lia.
  - exact (Happends _ _ (scalp_loop_appends i s)).
Qed.

(** X21: over any run, the orders placed plus the trade requests still
    queued never exceed the requests the loop published plus those queued
    at the start.  From the initial state, where the queue is empty, the
    client therefore never places more orders than the strategies
    signalled. *)
Theorem orders_never_exceed_signals (sched : list Action) :
  (forall s : Sys W,
     (count is_order (run sched s).2
      + length (List.filter is_trade (ui_queue (run sched s).1))
      <= count is_intent (run sched s).2
         + length (List.filter is_trade (ui_queue s)))%nat) /\
  (forall (w : W) (f : Form),
     (count is_order (run sched (init_sys w f)).2
      <= count is_intent (run sched (init_sys w f)).2)%nat).
Proof.
  assert (Hrun : forall s : Sys W,
     (count is_order (run sched s).2
      + length (List.filter is_trade (ui_queue (run sched s).1))
      <= count is_intent (run sched s).2
         + length (List.filter is_trade (ui_queue s)))%nat).
  { induction sched as [| a rest IH]; intros s; [cbn; lia |].
    rewrite run_cons. cbn [fst snd]. rewrite !count_app.
    pose proof (step_orders_within_signals a s). specialize (IH (step a s).1).
    lia. }
  split; [exact Hrun |].
  intros w f. specialize (Hrun (init_sys w f)). cbn [init_sys ui_queue] in Hrun.
  cbn [List.filter length] in Hrun. lia.
Qed.

End SessionRuns.

(** ** The further properties on the scripted collaborators *)

Lemma start_scalping_rejected_witness :
  strategy_map (strategy_var (form (page (init_sys script0 unknown_form)))) = None /\
  threads (start_scalping (init_sys script0 unknown_form)).1.2 = [] /\
  is_scalping (page (start_scalping (init_sys script0 unknown_form)).1.2) = false.
Proof.
  split; [reflexivity |].
  pose proof (start_scalping_rejected (init_sys script0 unknown_form)
                (or_introl eq_refl)) as (Hthreads & _ & Hflag & _).
  split; [exact Hthreads | exact Hflag].
Defined.

Lemma start_scalping_started_witness :
  In EvThreadStart (start_scalping (init_sys script0 (init_form 50%float))).2 /\
  length (threads (start_scalping (init_sys script0 (init_form 50%float))).1.2)
    = 1%nat /\
  is_scalping (page (start_scalping (init_sys script0 (init_form 50%float))).1.2)
    = true /\
  batch_start_equity
    (page (start_scalping (init_sys script0 (init_form 50%float))).1.2)
    = 1050%float.
Proof.
  assert (Hstarted : In EvThreadStart
                       (start_scalping (init_sys script0 (init_form 50%float))).2).
  { vm_compute. right. left. reflexivity. }
  split; [exact Hstarted |].
  destruct (start_scalping_started (init_sys script0 (init_form 50%float)) Hstarted)
    as (cls & summary & w1 & sym & _ & Hsummary & _ & Hthreads & _ & Hflag & _ & _
        & _ & Hbaseline & _).
  split; [rewrite Hthreads; reflexivity |].
  split; [exact Hflag |].
  rewrite Hbaseline. injection Hsummary as <- _. reflexivity.
Defined.

Lemma readiness_display_enables_start_witness :
  (_update_data_readiness_display sys0).1.1 = Returned tt /\
  (is_connected (world sys0) = false ->
   (_update_data_readiness_display sys0).2 = [] /\
   data_readiness_var (page (_update_data_readiness_display sys0).1.2)
     = "Trader disconnected").
Proof.
  split; [reflexivity |].
  exact (proj2 (readiness_display_enables_start sys0 eq_refl)).
Defined.

Lemma status_messages_per_timeframe_witness :
  [("1m", 20); ("15s", 10)] <> [] /\
  status_messages (readiness_gate [("1m", 20); ("15s", 10)] {["1m" := 25]})
  = ["1m: 25/20"; "15s: 0/10"].
Proof.
  assert (Hsome : [("1m", 20); ("15s", 10)] <> ([] : list (string * Z)))
    by discriminate.
  split; [exact Hsome |].
  rewrite (status_messages_per_timeframe [("1m", 20); ("15s", 10)]
             {["1m" := 25]} Hsome).
  vm_compute. reflexivity.
Defined.

Lemma published_intent_is_executable_witness :
  In (EvPut (MsgExecuteTrade (intent0 (Some 1%float))))
     (_scalp_loop_iteration (worker0 InBody) sys0).2 /\
  (exists px, price (intent0 (Some 1%float)) = Some px) /\
  (side (intent0 (Some 1%float)) = "buy" \/ side (intent0 (Some 1%float)) = "sell").
Proof.
  assert (Hput : In (EvPut (MsgExecuteTrade (intent0 (Some 1%float))))
                    (_scalp_loop_iteration (worker0 InBody) sys0).2).
  { vm_compute. do 6 right. left. reflexivity. }
  split; [exact Hput |].
  destruct (published_intent_is_executable (worker0 InBody) sys0
              (intent0 (Some 1%float)) Hput) as (Hprice & Hside & _).
  split; [exact Hprice | exact Hside].
Defined.

Lemma no_flatten_right_after_flatten_witness :
  0 < batch_size (page sys0) /\
  In (EvCall CallCloseAllPositions)
     (_scalp_loop_iteration (worker0 InBody) sys0).2 /\
  count is_flatten
    (_scalp_loop_iteration (worker0 InBody)
       (_scalp_loop_iteration (worker0 InBody) sys0).1.2).2 = 0%nat.
Proof.
  assert (Hsize : 0 < batch_size (page sys0)) by (cbn; lia).
  assert (Hflatten : In (EvCall CallCloseAllPositions)
                        (_scalp_loop_iteration (worker0 InBody) sys0).2).
  { vm_compute. right. right. left. reflexivity. }
  split; [exact Hsize |]. split; [exact Hflatten |].
  exact (proj1 (no_flatten_right_after_flatten sys0 (worker0 InBody)
                  (worker0 InBody) Hsize Hflatten)).
Defined.

Lemma thread_arguments_are_fixed_witness :
  threads sys0 !! 0%nat = Some (worker0 InBody) /\
  exists t',
    threads (run [EditForm unknown_form; Stop; Begin; Schedule 0] sys0).1 !! 0%nat
      = Some t' /\
    thread_args t' = thread_args (worker0 InBody).
Proof.
  split; [reflexivity |].
  destruct (thread_arguments_are_fixed [EditForm unknown_form; Stop; Begin; Schedule 0]
              sys0 0%nat (worker0 InBody) eq_refl) as (t' & Hlookup & Hargs & _).
  exists t'. split; [exact Hlookup | exact Hargs].
Defined.

Lemma positions0_keys_distinct : NoDup positions0.*1.
Proof.
  cbn. apply NoDup_cons. split; [| apply NoDup_singleton].
  intros Hin. apply list_elem_of_singleton in Hin. discriminate Hin.
Defined.

Lemma tree0_ids_distinct : NoDup (get_children tree0).
Proof.
  cbn. apply NoDup_cons. split; [| apply NoDup_singleton].
  intros Hin. apply list_elem_of_singleton in Hin. discriminate Hin.
Defined.

Lemma update_positions_mirrors_witness :
  NoDup positions0.*1 /\ NoDup (get_children tree0) /\
  exists tree1,
    update_positions positions0 tree0 = Returned tree1 /\
    NoDup (get_children tree1).
Proof.
  split; [exact positions0_keys_distinct |].
  split; [exact tree0_ids_distinct |].
  destruct (update_positions_mirrors positions0 tree0
              positions0_keys_distinct tree0_ids_distinct)
    as (tree1 & Hret & _ & Hnodup & _).
  exists tree1. split; [exact Hret | exact Hnodup].
Defined.

Lemma update_positions_shows_each_witness :
  (3, position0 (-1)%float) ∈ positions0 /\
  exists tree1 row,
    update_positions positions0 tree0 = Returned tree1 /\
    (pretty 3, row) ∈ tree1 /\
    row_pnl row = (-1)%float.
Proof.
  assert (Hopen : (3, position0 (-1)%float) ∈ positions0).
  { unfold positions0. apply elem_of_cons. right. apply elem_of_cons. left.
    reflexivity. }
  split; [exact Hopen |].
  destruct (update_positions_shows_each positions0 tree0 3 (position0 (-1)%float)
              positions0_keys_distinct tree0_ids_distinct Hopen)
    as (tree1 & row & Hret & Hin & _ & _ & _ & _ & _ & _ & Hpnl & _).
  exists tree1, row. repeat split; assumption.
Defined.

(** The table of the example: position 1 goes, 2 stays in place with its
    new P&L in green, 3 is appended in red. *)
Example update_positions_example :
  update_positions positions0 tree0
  = Returned [("2", row_of 2 (position0 5%float));
              ("3", row_of 3 (position0 (-1)%float))] /\
  row_tag (row_of 3 (position0 (-1)%float)) = pnl_red.
Proof. split; vm_compute; reflexivity. Qed.

Lemma handshake_connects_witness :
  connect (broker handshake0) = (Returned true, line0) /\
  status_text (settings_view (handshake (Some "GBPUSD") 3 handshake0).1.1)
    = "Connected ✅" /\
  trading_symbols (handshake (Some "GBPUSD") 3 handshake0).1.1
    = ["EURUSD"; "GBPUSD"].
Proof.
  split; [reflexivity |].
  assert (Hstatus : exists w1, connects_after 1 line0 w1 /\
            exists w2, details_after 1 w1 account0 w2 /\
              get_available_symbol_names w2 = (Returned ["EURUSD"; "GBPUSD"], w2)).
  { eexists. split.
    - eapply connects_later; [reflexivity | reflexivity |].
      eapply connects_now. reflexivity.
    - eexists. split.
      + eapply details_later; [reflexivity | reflexivity |].
        eapply details_now; reflexivity.
      + reflexivity. }
  destruct Hstatus as (w1 & Hconnects & w2 & Hdetails & Hsymbols).
  pose proof (handshake_connects (Some "GBPUSD") 3 handshake0 1 1 line0 w1 w2 w2
                account0 ["EURUSD"; "GBPUSD"] eq_refl Hconnects Hdetails Hsymbols
                eq_refl ltac:(lia))
    as (_ & Htext & _ & _ & _ & _ & _ & _ & Hvalues & _).
  split; [exact Htext | exact Hvalues].
Defined.

(** The run of the example: the default symbol of the settings is offered
    and is the one selected. *)
Example handshake_example :
  symbol_var (trading_form (handshake (Some "GBPUSD") 3 handshake0).1.1) = "GBPUSD" /\
  (handshake (Some "GBPUSD") 3 handshake0).1.2
  = [ConnShowInfo "4711"; ConnPopulate ["EURUSD"; "GBPUSD"]; ConnShowTradingPage] /\
  (handshake (Some "GBPUSD") 2 handshake0).2 = Some on_successful_connection.
Proof. repeat split; vm_compute; reflexivity. Qed.
